(** * Talisay verification and calibration engine: a shallow embedding

    This development embeds the decision logic of two Python modules,
    [ml/models/talisay_guard.py] (the seven-layer [TalisayGuard]) and
    [ml/models/dimension_estimator.py] (coin calibration and fruit
    measurement), together with the two steps of [ml/predict.py] that turn
    the estimator's results into the reported dimensions, and proves
    properties of them.

    Conventions of the embedding.
    - Python floats are modelled by exact rationals ([Q]); comparisons and
      arithmetic are the mathematical ones, and [round] is round-half-even
      at the requested number of decimals.  Binary64 arithmetic can differ
      from this at an exact tie: a sum that lands on a threshold, a value
      halfway between two roundings, a quotient that is an integer.  The
      statements about the composite decision, the colour score and the
      coordinates the fast search reports are made so as to hold on either
      side of such a tie, and [Binary64] gives the composite decision as
      Python evaluates it.
    - What OpenCV computes from the raw BGR array (colour conversions, Canny
      edges, Haar faces, contours, ellipse fits, Hough circles) is an input
      of the model: an image carries its converted pixels and the measured
      quantities, and every function below is the Python code that consumes
      them.
    - [np.std(x) < c] for a constant [c >= 0] is written [var x < c * c]. *)

From Stdlib Require Import ZArith QArith Qround Qabs Qminmax List Bool Lia Lqa.
From Stdlib Require Import String Ascii.
From Stdlib Require Floats Uint63.
From stdpp Require Import gmap strings.
Import ListNotations.

(** ** Numbers: the float operations the two modules use *)

Module Numeric.

#[local] Open Scope Q_scope.

Definition Qleb (x y : Q) : bool := Qle_bool x y.

Definition Qltb (x y : Q) : bool := negb (Qle_bool y x).

(** [a / b] on two integers, as Python's true division. *)
Definition fdiv (a b : Z) : Q := inject_Z a / inject_Z b.

(** Python's [int(x)] on a float: truncation toward zero. *)
Definition int (x : Q) : Z := if Qltb x 0 then Qceiling x else Qfloor x.

(** Round to the nearest integer, ties to the even one. *)
Definition rint (x : Q) : Z :=
  let f := Qfloor x in
  let d := x - inject_Z f in
  if Qltb d (1 # 2) then f
  else if Qltb (1 # 2) d then (f + 1)%Z
  else if Z.even f then f else (f + 1)%Z.

Definition pow10 (n : nat) : Q := inject_Z (10 ^ Z.of_nat n).

(** Python's [round(x, ndigits)]. *)
Definition round (x : Q) (ndigits : nat) : Q :=
  inject_Z (rint (x * pow10 ndigits)) / pow10 ndigits.

(** [np.clip(x, lo, hi)], that is [minimum(maximum(x, lo), hi)]. *)
Definition clip (x lo hi : Q) : Q := Qmin (Qmax x lo) hi.

(** [np.pi], the double nearest to pi, as the exact rational it denotes. *)
Definition np_pi : Q := 884279719003555 # 281474976710656.

(** Sum of a list, kept in lowest terms. *)
Definition Qsum (l : list Q) : Q := fold_right (fun x acc => Qred (x + acc)) 0 l.

(** [np.mean]. *)
Definition mean (l : list Q) : Q := Qsum l / inject_Z (Z.of_nat (List.length l)).

(** [np.var] (population variance, [ddof = 0]). *)
Definition var (l : list Q) : Q :=
  let m := mean l in mean (map (fun x => (x - m) * (x - m)) l).

(** [np.sum] of a boolean mask obtained by testing every element. *)
Definition count {A : Type} (f : A -> bool) (l : list A) : Z :=
  Z.of_nat (List.length (List.filter f l)).

(** Boolean indexing [values[mask > 0]]. *)
Fixpoint masked {A : Type} (values : list A) (mask : list bool) : list A :=
  match values, mask with
  | v :: vs, b :: bs => if b then v :: masked vs bs else masked vs bs
  | _, _ => []
  end.

Fixpoint insert_sorted (x : Z) (l : list Z) : list Z :=
  match l with
  | [] => [x]
  | y :: ys => if (x <=? y)%Z then x :: l else y :: insert_sorted x ys
  end.

Definition sort (l : list Z) : list Z := fold_right insert_sorted [] l.

(** [np.median] of integer samples. *)
Definition median (l : list Z) : Q :=
  let s := sort l in
  let n := List.length s in
  if Nat.even n
  then (inject_Z (nth (n / 2 - 1) s 0%Z) + inject_Z (nth (n / 2) s 0%Z)) / 2
  else inject_Z (nth (n / 2) s 0%Z).

(** [needle in haystack] on Python strings. *)
Fixpoint contains (needle haystack : string) : bool :=
  String.prefix needle haystack ||
  match haystack with
  | EmptyString => false
  | String _ rest => contains needle rest
  end.

End Numeric.

(** ** talisay_guard.py *)

Module Guard.

Import Numeric.
#[local] Open Scope Q_scope.

(** [class GuardVerdict(Enum)]. *)
Inductive GuardVerdict : Type :=
| ACCEPT
| REJECT_BLANK
| REJECT_PERSON
| REJECT_CAPSICUM
| REJECT_NON_TALISAY_FRUIT
| REJECT_WRONG_SHAPE
| REJECT_WRONG_COLOUR
| REJECT_WRONG_TEXTURE
| REJECT_LOW_CONFIDENCE
| REJECT_GENERIC.

(** The [.value] of each member: the string stored in a verdict. *)
Definition value (v : GuardVerdict) : string :=
  match v with
  | ACCEPT => "accept"
  | REJECT_BLANK => "reject_blank"
  | REJECT_PERSON => "reject_person"
  | REJECT_CAPSICUM => "reject_capsicum"
  | REJECT_NON_TALISAY_FRUIT => "reject_non_talisay_fruit"
  | REJECT_WRONG_SHAPE => "reject_wrong_shape"
  | REJECT_WRONG_COLOUR => "reject_wrong_colour"
  | REJECT_WRONG_TEXTURE => "reject_wrong_texture"
  | REJECT_LOW_CONFIDENCE => "reject_low_confidence"
  | REJECT_GENERIC => "reject_generic"
  end.

(** The members of the enumeration, in declaration order. *)
Definition members : list GuardVerdict :=
  [ACCEPT; REJECT_BLANK; REJECT_PERSON; REJECT_CAPSICUM;
   REJECT_NON_TALISAY_FRUIT; REJECT_WRONG_SHAPE; REJECT_WRONG_COLOUR;
   REJECT_WRONG_TEXTURE; REJECT_LOW_CONFIDENCE; REJECT_GENERIC].

(** A three-channel sample (H, S, V) or (Y, Cr, Cb). *)
Definition triple : Type := (Z * Z * Z)%type.

Record Band : Type := { lower : triple; upper : triple }.

Definition TALISAY_GREEN_HSV : Band := {| lower := (30, 35, 35)%Z; upper := (80, 255, 245)%Z |}.
Definition TALISAY_YELLOW_HSV : Band := {| lower := (18, 60, 70)%Z; upper := (38, 255, 255)%Z |}.
Definition TALISAY_BROWN_HSV : Band := {| lower := (5, 30, 20)%Z; upper := (26, 220, 200)%Z |}.
Definition SILING_GREEN_HSV : Band := {| lower := (30, 60, 50)%Z; upper := (85, 255, 255)%Z |}.
Definition SILING_RED_HSV_1 : Band := {| lower := (0, 100, 70)%Z; upper := (12, 255, 255)%Z |}.
Definition SILING_RED_HSV_2 : Band := {| lower := (160, 100, 70)%Z; upper := (180, 255, 255)%Z |}.
Definition SKIN_HSV : Band := {| lower := (0, 20, 70)%Z; upper := (25, 170, 255)%Z |}.

Definition MIN_GUARD_SCORE : Q := 0.55.
Definition MIN_POSITIVE_LAYERS : Z := 3.
Definition MIN_TALISAY_COLOUR_COV : Q := 0.30.
Definition MAX_SKIN_COVERAGE : Q := 0.25.
Definition MAX_CAPSICUM_SCORE : Q := 0.45.

(** [cv2.inRange] on one sample, and [np.all((p >= lower) & (p <= upper))]. *)
Definition in_range (p lo hi : triple) : bool :=
  let '(p0, p1, p2) := p in
  let '(l0, l1, l2) := lo in
  let '(h0, h1, h2) := hi in
  ((l0 <=? p0) && (p0 <=? h0) && (l1 <=? p1) && (p1 <=? h1) &&
   (l2 <=? p2) && (p2 <=? h2))%Z.

Definition in_band (p : triple) (b : Band) : bool := in_range p (lower b) (upper b).

(** One pixel as the guard sees it: the HSV, YCrCb and grey conversions of
    the BGR sample and the Laplacian of the grey image at that position. *)
Record Pixel : Type := {
  hsv : triple;
  ycrcb : triple;
  gray : Z;
  lap : Z
}.

Definition hue (p : Pixel) : Z := fst (fst (hsv p)).
Definition sat (p : Pixel) : Z := snd (fst (hsv p)).
Definition val (p : Pixel) : Z := snd (hsv p).

(** The largest external contour of a mask with what OpenCV measures on it:
    [contourArea], [arcLength], its number of points, the axes returned by
    [fitEllipse] in the order the code unpacks them, the bounding rectangle
    and the area of the convex hull. *)
Record Contour : Type := {
  area : Q;
  perimeter : Q;
  n_points : nat;
  minor : Q;
  major : Q;
  rect_w : Z;
  rect_h : Z;
  hull_area : Q
}.

(** A binary mask (row-major, one flag per pixel) with the largest contour
    [cv2.findContours] finds in it, [None] when it finds none. *)
Record Mask : Type := {
  bits : list bool;
  largest : option Contour
}.

Record Image : Type := {
  h_img : Z;
  w_img : Z;
  pixels : list Pixel;
  (** [np.sum(cv2.Canny(gray, 50, 150) > 0)] *)
  edge_count : Z;
  (** [len(detectMultiScale(...))] of the Haar face cascade *)
  faces : Z;
  (** what [_build_fruit_mask(image, yolo_fruit_info)] returns in this call *)
  built_mask : Mask
}.

(** The instance attributes set by [__init__]; [_face_cascade] records
    whether the Haar cascade could be constructed. *)
Record TalisayGuard : Type := {
  _talisay_aspect_range : Q * Q;
  _talisay_circularity_range : Q * Q;
  _talisay_solidity_range : Q * Q;
  _talisay_convexity_range : Q * Q;
  _capsicum_aspect_range : Q * Q;
  _capsicum_circularity_range : Q * Q;
  _face_cascade : bool
}.

Definition init (cascade_available : bool) : TalisayGuard := {|
  _talisay_aspect_range := (1.25, 2.40);
  _talisay_circularity_range := (0.35, 0.80);
  _talisay_solidity_range := (0.80, 1.0);
  _talisay_convexity_range := (0.82, 1.0);
  _capsicum_aspect_range := (2.5, 8.0);
  _capsicum_circularity_range := (0.10, 0.50);
  _face_cascade := cascade_available
|}.

(** *** Layer results

    Each layer returns a Python dict.  A key that some return statement of
    the layer leaves out is an [option] field here; the other keys are plain
    fields.  Keys that only echo a measurement for display are left out. *)

Record BlankResult : Type := {
  is_blank : bool;
  blank_reason : option string
}.

Record PersonResult : Type := {
  is_person : bool;
  faces_found : option Z;
  skin_coverage : option Q;
  talisay_coverage : Q;
  strong_rescue_coverage : Q;
  person_reason : option string
}.

Record CapsicumResult : Type := {
  is_capsicum : bool;
  capsicum_score : Q
}.

Record NonTalisayResult : Type := {
  is_non_talisay : bool;
  detected_type : option string;
  non_talisay_coverage : option Q
}.

Record ColourResult : Type := {
  colour_passes : bool;
  colour_score : Q;
  coverage : Q;
  dominant_colour : option string;
  dominant_coverage : option Q
}.

Record ShapeResult : Type := {
  shape_passes : bool;
  shape_score : Q;
  aspect_ratio : option Q;
  circularity : option Q;
  solidity : option Q
}.

Record TextureResult : Type := {
  texture_passes : bool;
  texture_score : Q
}.

(** The [layers] dict of a verdict: a layer that did not run has no entry. *)
Record Layers : Type := {
  blank : option BlankResult;
  person : option PersonResult;
  capsicum : option CapsicumResult;
  non_talisay_colour : option NonTalisayResult;
  talisay_colour : option ColourResult;
  talisay_shape : option ShapeResult;
  talisay_texture : option TextureResult
}.

(** The dict built by [_make_verdict]. *)
Record Verdict : Type := {
  accepted : bool;
  verdict : string;
  score : Q;
  layers : Layers;
  reason : string
}.

Definition _make_verdict (accepted : bool) (verdict : GuardVerdict) (score : Q)
    (layers : Layers) (reason : string) : Verdict :=
  {| accepted := accepted;
     verdict := value verdict;
     score := round score 3;
     layers := layers;
     reason := reason |}.

(** *** Layer 1: blank / featureless image *)

Definition _check_blank_image (image : Image) : BlankResult :=
  let h := h_img image in
  let w := w_img image in
  let global_var := var (map (fun p => inject_Z (gray p)) (pixels image)) in
  if Qltb global_var 80 then
    {| is_blank := true; blank_reason := Some "extremely_low_variance"%string |}
  else
    let edge_ratio := fdiv (edge_count image) (h * w) in
    if Qltb edge_ratio 0.005 then
      {| is_blank := true; blank_reason := Some "no_edges"%string |}
    else
      let low_sat := fdiv (count (fun p => (sat p <? 15)%Z) (pixels image)) (h * w) in
      if Qltb 0.90 low_sat &&
         Qltb (var (map (fun p => inject_Z (val p)) (pixels image))) 300
      then {| is_blank := true; blank_reason := Some "uniform_grey_white"%string |}
      else {| is_blank := false; blank_reason := None |}.

(** *** Layer 2: person / face detection *)

(** [combined_skin]: the HSV skin band and the YCrCb skin box together. *)
Definition is_skin (p : Pixel) : bool :=
  in_band (hsv p) SKIN_HSV && in_range (ycrcb p) (80, 133, 77)%Z (255, 173, 127)%Z.

(** [strong_rescue]: Talisay green or yellow. *)
Definition is_strong_rescue (p : Pixel) : bool :=
  in_band (hsv p) TALISAY_GREEN_HSV || in_band (hsv p) TALISAY_YELLOW_HSV.

(** [talisay_brown_nonskin]: Talisay brown outside the skin mask. *)
Definition is_brown_nonskin (p : Pixel) : bool :=
  in_band (hsv p) TALISAY_BROWN_HSV && negb (is_skin p).

(** [total_rescue = strong_rescue | talisay_brown_nonskin]. *)
Definition is_total_rescue (p : Pixel) : bool :=
  is_strong_rescue p || is_brown_nonskin p.

Definition _check_person (self : TalisayGuard) (image : Image) : PersonResult :=
  let total := (h_img image * w_img image)%Z in
  let skin_coverage := fdiv (count is_skin (pixels image)) total in
  let strong_rescue_cov := fdiv (count is_strong_rescue (pixels image)) total in
  let total_rescue_cov := fdiv (count is_total_rescue (pixels image)) total in
  let faces_found := if _face_cascade self then faces image else 0%Z in
  if (0 <? faces_found)%Z && Qltb strong_rescue_cov 0.05 then
    {| is_person := true; faces_found := Some faces_found;
       skin_coverage := None;
       talisay_coverage := total_rescue_cov;
       strong_rescue_coverage := strong_rescue_cov;
       person_reason := Some "face_detected"%string |}
  else if Qltb MAX_SKIN_COVERAGE skin_coverage then
    if Qleb 0.08 strong_rescue_cov then
      {| is_person := false; faces_found := Some faces_found;
         skin_coverage := Some skin_coverage;
         talisay_coverage := total_rescue_cov;
         strong_rescue_coverage := strong_rescue_cov;
         person_reason := Some "skin_detected_but_talisay_present"%string |}
    else if Qleb 0.20 total_rescue_cov && Qltb skin_coverage 0.45 then
      {| is_person := false; faces_found := Some faces_found;
         skin_coverage := Some skin_coverage;
         talisay_coverage := total_rescue_cov;
         strong_rescue_coverage := strong_rescue_cov;
         person_reason := Some "moderate_skin_with_brown_talisay"%string |}
    else
      {| is_person := true; faces_found := None;
         skin_coverage := Some skin_coverage;
         talisay_coverage := total_rescue_cov;
         strong_rescue_coverage := strong_rescue_cov;
         person_reason := Some "excessive_skin_colour"%string |}
  else
    {| is_person := false; faces_found := Some 0%Z;
       skin_coverage := Some skin_coverage;
       talisay_coverage := total_rescue_cov;
       strong_rescue_coverage := strong_rescue_cov;
       person_reason := None |}.

(** *** Shape measurements shared by layers 3 and 6 *)

(** [4 * np.pi * area / (perimeter ** 2)]. *)
Definition circularity_of (c : Contour) : Q :=
  4 * np_pi * area c / (perimeter c * perimeter c).

(** [max(w, h) / max(min(w, h), 1)] on the bounding rectangle. *)
Definition rect_aspect (c : Contour) : Q :=
  fdiv (Z.max (rect_w c) (rect_h c)) (Z.max (Z.min (rect_w c) (rect_h c)) 1).

(** The aspect ratio: [major / minor] of the fitted ellipse when the contour
    has at least five points ([degenerate] when [minor] is not positive),
    the bounding-rectangle ratio otherwise. *)
Definition aspect_of (degenerate : Q) (c : Contour) : Q :=
  if (5 <=? n_points c)%nat then
    if Qltb 0 (minor c) then major c / minor c else degenerate
  else rect_aspect c.

(** *** Layer 3: Capsicum / Siling detection *)

Definition is_siling_green (p : triple) : bool := in_band p SILING_GREEN_HSV.
Definition is_siling_red_1 (p : triple) : bool := in_band p SILING_RED_HSV_1.
Definition is_siling_red_2 (p : triple) : bool := in_band p SILING_RED_HSV_2.

Definition _check_capsicum (self : TalisayGuard) (image : Image) (mask : Mask)
    : CapsicumResult :=
  let not_capsicum := {| is_capsicum := false; capsicum_score := 0.0 |} in
  let fruit := masked (pixels image) (bits mask) in
  let fruit_pixels := map hsv fruit in
  if (List.length fruit_pixels <? 200)%nat then not_capsicum
  else
    let total_px := Z.of_nat (List.length fruit_pixels) in
    let capsicum_score := 0.0 in
    let siling_colour_cov :=
      fdiv (count is_siling_green fruit_pixels +
            count is_siling_red_1 fruit_pixels +
            count is_siling_red_2 fruit_pixels) total_px in
    let has_siling_colour := Qltb 0.30 siling_colour_cov in
    let capsicum_score :=
      if has_siling_colour then capsicum_score + 0.20 else capsicum_score in
    match largest mask with
    | None => not_capsicum
    | Some largest =>
      if Qltb (area largest) 100 || Qeq_bool (perimeter largest) 0 then not_capsicum
      else
        let aspect := aspect_of 0 largest in
        let circularity := circularity_of largest in
        let capsicum_score :=
          if Qltb 2.5 aspect then capsicum_score + 0.25 else capsicum_score in
        let capsicum_score :=
          if Qltb 3.5 aspect then capsicum_score + 0.15 else capsicum_score in
        let capsicum_score :=
          if Qltb circularity 0.45 then capsicum_score + 0.15 else capsicum_score in
        (* texture_var = np.std(fruit_gray); texture_var < 25 *)
        let fruit_gray := map (fun p => inject_Z (gray p)) fruit in
        let capsicum_score :=
          if Qltb (var fruit_gray) (25 * 25) then capsicum_score + 0.10
          else capsicum_score in
        let mean_sat := mean (map (fun p => inject_Z (sat p)) fruit) in
        let capsicum_score :=
          if Qltb 120 mean_sat then capsicum_score + 0.10 else capsicum_score in
        let capsicum_score :=
          if (5 <=? n_points largest)%nat then
            let relative_width :=
              minor largest / inject_Z (Z.max (w_img image) (h_img image)) in
            if Qltb relative_width 0.06 then capsicum_score + 0.15
            else capsicum_score
          else capsicum_score in
        {| is_capsicum := Qleb MAX_CAPSICUM_SCORE capsicum_score;
           capsicum_score := round capsicum_score 3 |}
    end.

(** *** Layer 4: non-Talisay colours *)

(** The [reject_colours] table in insertion order: the HSV boxes of each
    entry and its label. *)
Definition reject_colours : list (list (triple * triple) * string) :=
  [ ([((0, 90, 60), (10, 255, 255)); ((160, 90, 60), (180, 255, 255))]%Z,
     "red fruit (apple, tomato, red pepper)"%string);
    ([((10, 100, 100), (22, 255, 255))]%Z,
     "orange fruit (orange, tangerine)"%string);
    ([((140, 30, 140), (172, 160, 255))]%Z,
     "pink/magenta fruit (dragon fruit)"%string);
    ([((120, 40, 40), (158, 255, 255))]%Z,
     "purple fruit (grape, mangosteen)"%string);
    ([((95, 50, 50), (130, 255, 255))]%Z,
     "blue object"%string);
    ([((0, 0, 220), (180, 35, 255))]%Z,
     "white/bright object (paper, screen)"%string);
    ([((0, 0, 0), (180, 255, 20))]%Z,
     "very dark object (dark screen)"%string) ].

(** One pass of the loop over [reject_colours]: the running maximum
    coverage and the label that reached it. *)
Definition reject_step (px : list triple) (total : Z)
    (acc : Q * option string) (entry : list (triple * triple) * string)
    : Q * option string :=
  let '(max_cov, detected) := acc in
  let '(ranges, label) := entry in
  let cnt :=
    fold_left (fun c r => (c + count (fun p => in_range p (fst r) (snd r)) px)%Z)
              ranges 0%Z in
  let cov := fdiv cnt total in
  if Qltb max_cov cov then (cov, Some label) else (max_cov, detected).

Definition _check_non_talisay_colours (self : TalisayGuard) (image : Image)
    (mask : Mask) : NonTalisayResult :=
  let px := map hsv (masked (pixels image) (bits mask)) in
  if (List.length px <? 100)%nat then
    {| is_non_talisay := false; detected_type := None; non_talisay_coverage := None |}
  else
    let total := Z.of_nat (List.length px) in
    let '(max_cov, detected) := fold_left (reject_step px total) reject_colours (0.0, None) in
    let is_bad := Qltb 0.30 max_cov in
    let is_bad :=
      match detected with
      | Some label =>
        if is_bad && negb (String.eqb label EmptyString) &&
           (contains "dark" label || contains "white" label)
        then
          let talisay_count :=
            fold_left (fun c band => (c + count (fun p => in_band p band) px)%Z)
                      [TALISAY_GREEN_HSV; TALISAY_YELLOW_HSV; TALISAY_BROWN_HSV] 0%Z in
          let talisay_cov := fdiv talisay_count total in
          if Qltb 0.12 talisay_cov then false else is_bad
        else is_bad
      | None => is_bad
      end in
    {| is_non_talisay := is_bad;
       detected_type := if is_bad then detected else None;
       non_talisay_coverage := Some (round max_cov 3) |}.

(** *** Layer 5: Talisay colour signature *)

Definition green_match (p : triple) : bool := in_band p TALISAY_GREEN_HSV.
Definition yellow_match (p : triple) : bool := in_band p TALISAY_YELLOW_HSV.
Definition brown_match (p : triple) : bool := in_band p TALISAY_BROWN_HSV.
Definition talisay_any (p : triple) : bool :=
  green_match p || yellow_match p || brown_match p.

(** [max(coverages, key=coverages.get)] over the keys green, yellow, brown in
    that order: the first key that reaches the maximum. *)
Definition dominant_of (g_cov y_cov b_cov : Q) : string * Q :=
  let best := ("green"%string, g_cov) in
  let best := if Qltb (snd best) y_cov then ("yellow"%string, y_cov) else best in
  if Qltb (snd best) b_cov then ("brown"%string, b_cov) else best.

(** The body of [_check_talisay_colour] on [pixels = hsv[mask > 0]]. *)
Definition colour_of_pixels (px : list triple) : ColourResult :=
  if (List.length px <? 200)%nat then
    {| colour_passes := false; colour_score := 0.0; coverage := 0.0;
       dominant_colour := None; dominant_coverage := None |}
  else
    let total := Z.of_nat (List.length px) in
    let g_cov := fdiv (count green_match px) total in
    let y_cov := fdiv (count yellow_match px) total in
    let b_cov := fdiv (count brown_match px) total in
    let total_cov := fdiv (count talisay_any px) total in
    let '(dominant, dominant_cov) := dominant_of g_cov y_cov b_cov in
    let score := Qmin 1.0 (total_cov / 0.60) in
    let passes := Qleb MIN_TALISAY_COLOUR_COV total_cov in
    let '(passes, score) :=
      if Qltb dominant_cov 0.15 then (false, score * 0.5) else (passes, score) in
    {| colour_passes := passes;
       colour_score := round score 3;
       coverage := round total_cov 3;
       dominant_colour := Some dominant;
       dominant_coverage := Some (round dominant_cov 3) |}.

Definition _check_talisay_colour (self : TalisayGuard) (image : Image)
    (mask : Mask) : ColourResult :=
  colour_of_pixels (map hsv (masked (pixels image) (bits mask))).

(** *** Layer 6: Talisay shape *)

Definition _check_talisay_shape (self : TalisayGuard) (mask : Mask) : ShapeResult :=
  let no_shape :=
    {| shape_passes := false; shape_score := 0.0;
       aspect_ratio := None; circularity := None; solidity := None |} in
  match largest mask with
  | None => no_shape
  | Some largest =>
    if Qltb (area largest) 300 || Qeq_bool (perimeter largest) 0 then no_shape
    else
      let circularity := circularity_of largest in
      let aspect := aspect_of 1.0 largest in
      let solidity :=
        if Qltb 0 (hull_area largest) then area largest / hull_area largest else 0 in
      let score := 0.0 in
      let '(ar_min, ar_max) := _talisay_aspect_range self in
      let score :=
        if Qleb ar_min aspect && Qleb aspect ar_max then
          let mid := (ar_min + ar_max) / 2 in
          let ar_score := 1.0 - Qabs (aspect - mid) / ((ar_max - ar_min) / 2) in
          score + ar_score * 0.40
        else if Qleb 1.1 aspect && Qleb aspect 2.6 then score + 0.15
        else score in
      let '(c_min, c_max) := _talisay_circularity_range self in
      let score :=
        if Qleb c_min circularity && Qleb circularity c_max then score + 0.30
        else if Qleb 0.25 circularity && Qleb circularity 0.85 then score + 0.12
        else score in
      let score :=
        if Qleb (fst (_talisay_solidity_range self)) solidity then score + 0.30
        else if Qleb 0.72 solidity then score + 0.12
        else score in
      let passes :=
        Qleb 0.50 score && Qleb 1.1 aspect && Qleb aspect 3.0 &&
        Qleb circularity 0.90 in
      {| shape_passes := passes;
         shape_score := round score 3;
         aspect_ratio := Some (round aspect 3);
         circularity := Some (round circularity 3);
         solidity := Some (round solidity 3) |}
  end.

(** *** Layer 7: surface texture *)

Definition _check_talisay_texture (self : TalisayGuard) (image : Image)
    (mask : Mask) : TextureResult :=
  let fruit := masked (pixels image) (bits mask) in
  let pixels := map (fun p => inject_Z (gray p)) fruit in
  if (List.length pixels <? 200)%nat then
    {| texture_passes := false; texture_score := 0.0 |}
  else
    (* var_val = std_val ** 2; the tests on std_val are made on var_val *)
    let var_val := var pixels in
    let score := 0.0 in
    let score :=
      if Qltb (15 * 15) var_val && Qltb var_val (70 * 70) then score + 0.35
      else if Qltb (10 * 10) var_val && Qltb var_val (80 * 80) then score + 0.15
      else score in
    let low_sat_high_val :=
      fdiv (count (fun p => (sat p <? 40)%Z && (180 <? val p)%Z) fruit)
           (Z.of_nat (List.length fruit)) in
    let score :=
      if Qltb low_sat_high_val 0.15 then score + 0.25
      else if Qltb low_sat_high_val 0.25 then score + 0.10
      else score in
    (* hue_std = np.std(hue_vals) *)
    let hue_var := var (map (fun p => inject_Z (hue p)) fruit) in
    let score :=
      if Qltb hue_var (20 * 20) then score + 0.25
      else if Qltb hue_var (30 * 30) then score + 0.12
      else score in
    let lap_vals := map (fun p => inject_Z (lap p)) fruit in
    let lap_var := if (0 <? List.length lap_vals)%nat then var lap_vals else 0 in
    let score :=
      if Qltb 50 lap_var && Qltb lap_var 3000 then score + 0.15
      else if Qltb 20 lap_var && Qltb lap_var 5000 then score + 0.05
      else score in
    {| texture_passes := Qleb 0.50 score; texture_score := round score 3 |}.

(** *** The public entry point *)

Definition no_layers : Layers :=
  {| blank := None; person := None; capsicum := None; non_talisay_colour := None;
     talisay_colour := None; talisay_shape := None; talisay_texture := None |}.

(** The S channel of the pixels of the whole image that fall in the Talisay
    green band: [hsv_veg[:, :, 1][veg_green_mask > 0]]. *)
Definition green_sat_vals (image : Image) : list Z :=
  map sat (List.filter (fun p => in_band (hsv p) TALISAY_GREEN_HSV) (pixels image)).

(** [sum(positive_checks)]. *)
Definition sum_checks (checks : list bool) : Z :=
  fold_right (fun (b : bool) n => ((if b then 1 else 0) + n)%Z) 0%Z checks.

(** [TalisayGuard.verify(image, fruit_mask)].  [layers] is rebound after
    each [layers[name] = result] to the dict's content at that point;
    message texts are given without their leading pictograph. *)
Definition verify (self : TalisayGuard) (image : Image) (fruit_mask : option Mask)
    : Verdict :=
  let layers := no_layers in
  (* LAYER 1 *)
  let blank_result := _check_blank_image image in
  let layers :=
    {| blank := Some blank_result; person := None; capsicum := None;
       non_talisay_colour := None; talisay_colour := None; talisay_shape := None;
       talisay_texture := None |} in
  if is_blank blank_result then
    _make_verdict false REJECT_BLANK 0.0 layers
      "The image appears to be blank or a plain screen. Please provide a clear photo of a Talisay fruit."
  else
  (* LAYER 2 *)
  let person_result := _check_person self image in
  let layers :=
    {| blank := Some blank_result; person := Some person_result; capsicum := None;
       non_talisay_colour := None; talisay_colour := None; talisay_shape := None;
       talisay_texture := None |} in
  if is_person person_result then
    _make_verdict false REJECT_PERSON 0.0 layers
      "A person or face was detected in the image. Please provide an image that contains a Talisay fruit, not a person."
  else
  (* Build fruit mask if not provided *)
  let fruit_mask :=
    match fruit_mask with
    | None => built_mask image
    | Some m => m
    end in
  let fruit_area := count (fun b : bool => b) (bits fruit_mask) in
  if (fruit_area <? 500)%Z then
    _make_verdict false REJECT_GENERIC 0.0 layers
      "No significant object detected in the image. Please take a clear, close-up photo of a Talisay fruit."
  else
  (* LAYER 3 *)
  let capsicum_result := _check_capsicum self image fruit_mask in
  let layers :=
    {| blank := Some blank_result; person := Some person_result;
       capsicum := Some capsicum_result; non_talisay_colour := None;
       talisay_colour := None; talisay_shape := None; talisay_texture := None |} in
  if is_capsicum capsicum_result then
    _make_verdict false REJECT_CAPSICUM 0.0 layers
      "This appears to be a Capsicum (Siling/Chili pepper), not a Talisay fruit. Talisay fruits are wider, almond-shaped drupes, not elongated peppers."
  else
  (* LAYER 4 *)
  let non_talisay_result := _check_non_talisay_colours self image fruit_mask in
  let layers :=
    {| blank := Some blank_result; person := Some person_result;
       capsicum := Some capsicum_result;
       non_talisay_colour := Some non_talisay_result;
       talisay_colour := None; talisay_shape := None; talisay_texture := None |} in
  if is_non_talisay non_talisay_result then
    _make_verdict false REJECT_NON_TALISAY_FRUIT 0.0 layers
      ("This appears to be a " ++
       match detected_type non_talisay_result with
       | Some label => label
       | None => "None"
       end ++
       " item, not a Talisay fruit. Talisay fruits are ONLY green, yellow, or brown (with specific Talisay colour profiles).")%string
  else
  (* LAYER 5 *)
  let colour_result := _check_talisay_colour self image fruit_mask in
  let layers :=
    {| blank := Some blank_result; person := Some person_result;
       capsicum := Some capsicum_result;
       non_talisay_colour := Some non_talisay_result;
       talisay_colour := Some colour_result; talisay_shape := None;
       talisay_texture := None |} in
  (* LAYER 6 *)
  let shape_result := _check_talisay_shape self fruit_mask in
  let layers :=
    {| blank := Some blank_result; person := Some person_result;
       capsicum := Some capsicum_result;
       non_talisay_colour := Some non_talisay_result;
       talisay_colour := Some colour_result; talisay_shape := Some shape_result;
       talisay_texture := None |} in
  (* SHAPE QUALITY GATE *)
  let mask_coverage := fdiv fruit_area (h_img image * w_img image) in
  let aspect := default 1.0 (aspect_ratio shape_result) in
  let circ := default 1.0 (circularity shape_result) in
  if Qltb mask_coverage 0.12 && Qltb 0.90 circ && Qltb aspect 1.08 then
    _make_verdict false REJECT_WRONG_SHAPE 0.0 layers
      "The detected object is too round to be a Talisay fruit. Talisay fruits are almond-shaped drupes, not perfectly round objects."
  else
  (* LAYER 7 *)
  let texture_result := _check_talisay_texture self image fruit_mask in
  let layers :=
    {| blank := Some blank_result; person := Some person_result;
       capsicum := Some capsicum_result;
       non_talisay_colour := Some non_talisay_result;
       talisay_colour := Some colour_result; talisay_shape := Some shape_result;
       talisay_texture := Some texture_result |} in
  (* COMPOSITE DECISION *)
  let positive_checks :=
    [colour_passes colour_result; shape_passes shape_result;
     texture_passes texture_result] in
  let positive_count := sum_checks positive_checks in
  let composite :=
    colour_score colour_result * 0.45 +
    shape_score shape_result * 0.30 +
    texture_score texture_result * 0.25 in
  let accepted :=
    (MIN_POSITIVE_LAYERS <=? positive_count)%Z ||
    ((2 <=? positive_count)%Z && Qleb MIN_GUARD_SCORE composite) in
  let accepted := if Qltb composite 0.35 then false else accepted in
  (* SKIN SENSITIVITY *)
  let person_info := person layers in
  let skin_cov :=
    default 0 (pi ← person_info; skin_coverage pi) in
  let was_rescued :=
    negb (from_option is_person false person_info) &&
    Qltb MAX_SKIN_COVERAGE skin_cov in
  let accepted :=
    if was_rescued && (positive_count <? MIN_POSITIVE_LAYERS)%Z then
      if Qltb 0.45 skin_cov then false
      else if Qltb 0.10 (from_option strong_rescue_coverage 0 person_info) then
        let green_sat_vals := green_sat_vals image in
        if (100 <? List.length green_sat_vals)%nat then
          let green_median_sat := median green_sat_vals in
          if Qltb 140 green_median_sat then false else accepted
        else accepted
      else accepted
    else accepted in
  if accepted then
    _make_verdict true ACCEPT composite layers
      "Talisay fruit verified successfully."
  else if negb (colour_passes colour_result) then
    _make_verdict false REJECT_WRONG_COLOUR composite layers
      "The colours in this image don't match Talisay fruit. Talisay fruits are green (immature), yellow (mature), or brown (ripe) with specific colour profiles."
  else if negb (shape_passes shape_result) then
    _make_verdict false REJECT_WRONG_SHAPE composite layers
      "The shape doesn't match a Talisay fruit. Talisay fruits are almond-shaped drupes with an aspect ratio of ~1.3-2.4. They are NOT perfectly round, or extremely elongated."
  else
    _make_verdict false REJECT_LOW_CONFIDENCE composite layers
      "The image doesn't confidently match a Talisay fruit. Please provide a clearer photo of a Talisay (Terminalia catappa) fruit with good lighting.".

End Guard.

(** ** The composite decision in binary64

    [verify] compares a sum of three products with two thresholds.  The
    rationals give the sum exactly; Python evaluates it in binary64, and a
    sum that is exactly 0.55 over the rationals may come out just below the
    double 0.55.  The source expressions are given here as Python evaluates
    them. *)

Module Binary64.

Import PrimFloat Numeric.
#[local] Set Warnings "-inexact-float".
#[local] Open Scope float_scope.


(** [colour * 0.45 + shape * 0.30 + texture * 0.25]. *)
Definition composite (colour shape texture : float) : float :=
  colour * 0.45 + shape * 0.30 + texture * 0.25.


End Binary64.

(** ** dimension_estimator.py *)

Module Estimator.

Import Numeric.
#[local] Open Scope Q_scope.

(** An entry of [REFERENCE_OBJECTS]: the keys an entry may carry. *)
Record RefInfo : Type := {
  diameter : option Q;
  width : option Q;
  height : option Q;
  size : option Q;
  name : string;
  color : option string
}.

Definition coin (d : Q) (n c : string) : RefInfo :=
  {| diameter := Some d; width := None; height := None; size := None;
     name := n; color := Some c |}.

(** [REFERENCE_OBJECTS["peso_5"]]. *)
Definition peso_5 : RefInfo := coin 2.4 "₱5 Coin (New Silver)" "silver".

Definition REFERENCE_OBJECTS : gmap string RefInfo :=
  list_to_map
    [ ("peso_1_new", coin 2.0 "₱1 Coin (Silver, New)" "silver");
      ("peso_5_new", coin 2.4 "₱5 Coin (Silver, New)" "silver");
      ("peso_10_new", coin 2.45 "₱10 Coin (Silver/Gold, New)" "bimetallic");
      ("peso_20_new", coin 2.8 "₱20 Coin (Silver/Gold, New)" "bimetallic");
      ("peso_1_old", coin 2.4 "₱1 Coin (Brass, Old)" "gold");
      ("peso_5_old", coin 2.5 "₱5 Coin (Brass, Old)" "gold");
      ("peso_10_old", coin 2.7 "₱10 Coin (Bimetallic, Old)" "bimetallic");
      ("peso_1", coin 2.0 "₱1 Coin (New Silver)" "silver");
      ("peso_5", peso_5);
      ("peso_10", coin 2.45 "₱10 Coin (New)" "bimetallic");
      ("peso_20", coin 2.8 "₱20 Coin (New)" "bimetallic");
      ("credit_card",
       {| diameter := None; width := Some 8.56; height := Some 5.398;
          size := None; name := "Credit/ID Card"; color := None |});
      ("a4_paper",
       {| diameter := None; width := Some 21.0; height := Some 29.7;
          size := None; name := "A4 Paper"; color := None |});
      ("aruco_4x4",
       {| diameter := None; width := None; height := None;
          size := Some 5.0; name := "ArUco Marker 5cm"; color := None |}) ]%string.

(** The instance attributes set by [__init__]; [aruco_dict] records whether
    the ArUco dictionary could be obtained. *)
Record DimensionEstimator : Type := {
  reference_type : string;
  reference_info : RefInfo;
  aruco_dict : bool
}.

Definition init (reference_type : string) (aruco_available : bool)
    : DimensionEstimator :=
  {| reference_type := reference_type;
     reference_info := default peso_5 (REFERENCE_OBJECTS !! reference_type);
     aruco_dict := aruco_available |}.

(** A row of [cv2.HoughCircles]: centre and radius as floats. *)
Record Circle : Type := { c0 : Q; c1 : Q; c2 : Q }.

(** What the thorough search measures on the image for the circle with
    integer centre and radius [(x, y, r)]. *)
Record CoinObs : Type := {
  n_inner : Z;            (** [len(inner_gray)] *)
  mean_hue : Q;
  mean_sat : Q;
  mean_val : Q;
  std_gray : Q;
  sector_hits : Z;        (** sectors of the 36 with an edge pixel nearby *)
  ring_area : Z;
  edge_on_ring : Z;
  n_outer : Z;            (** [len(outer_gray)] *)
  mean_outer_gray : Q;
  mean_inner_gray : Q
}.

(** The working image of the thorough search as OpenCV reports it: the
    circles of the six [HoughCircles] calls in call order, and the
    measurements on a given circle. *)
Record View : Type := {
  all_circles : list Circle;
  observe : Z -> Z -> Z -> CoinObs
}.

(** What the fast search measures for the circle [(cx, cy, r)]. *)
Record FastObs : Type := {
  n_valid : Z;            (** [np.sum(valid)] of the 24 ring points *)
  edge_hits : Z;
  interior_size : Z;      (** [interior.size] *)
  n_ext : Z;              (** [len(ext_pixels)], also [len(ext_hsv_s)] *)
  int_mean : Q;
  ext_mean : Q;
  int_std : Q;
  roi_size : Z;           (** [roi_hsv.size] *)
  mean_s : Q;
  high_sat_ratio : Q;
  ext_sat : Q
}.

(** The contour [_segment_fruit] returns with the two axis lengths of
    [cv2.fitEllipse] in the order the code unpacks them. *)
Record FruitContour : Type := {
  n_pts : nat;
  axis0 : Q;
  axis1 : Q
}.

(** A detected ArUco marker: the two side lengths in pixels and its id. *)
Record Marker : Type := {
  marker_width_px : Q;
  marker_height_px : Q;
  marker_id : Z
}.

(** An image as the estimator sees it. *)
Record Image : Type := {
  shape_h : Z;
  shape_w : Z;
  (** the first marker [detectMarkers] reports, if any *)
  marker : option Marker;
  (** the image the thorough search works on (resized when wider than 1200) *)
  work : View;
  (** [np.mean] of the border strips of the grey image *)
  border_brightness : Q;
  (** [HoughCircles] of the fast search on the 512px image *)
  fast_circles : option (list Circle);
  fast_observe : Z -> Z -> Z -> FastObs;
  (** [_segment_fruit]: the largest contour when it is large enough *)
  segmented : option FruitContour;
  (** [np.sqrt(h**2 + w**2)] *)
  img_diagonal : Q
}.

(** The optional YOLO fruit info passed to the fast search. *)
Record FruitBox : Type := {
  bbox : option (Q * Q * Q * Q);
  fruit_size : option (Q * Q)
}.

(** Values stored in the result dicts. *)
Inductive Val : Type :=
| VNone
| VBool (b : bool)
| VInt (z : Z)
| VFloat (q : Q)
| VStr (s : string)
| VPair (a b : Val)
| VContour (c : FruitContour)
| VEllipse (c : FruitContour)
| VCorners (m : Marker).

(** Python truthiness. *)
Definition truthy (v : Val) : bool :=
  match v with
  | VNone => false
  | VBool b => b
  | VInt z => negb (z =? 0)%Z
  | VFloat q => negb (Qeq_bool q 0)
  | VStr s => negb (String.eqb s EmptyString)
  | _ => true
  end.

(** [d.get(key)] followed by a truth test. *)
Definition get_truthy (d : gmap string Val) (key : string) : bool :=
  from_option truthy false (d !! key).

(** [result.update(other)]. *)
Definition update (result other : gmap string Val) : gmap string Val :=
  other ∪ result.

(** *** The thorough coin search *)

(** A tuple [(x, y, r, score, rim_continuity)] of [scored_circles]. *)
Record Scored : Type := {
  sx : Z;
  sy : Z;
  sr : Z;
  sscore : Q;
  srim : Q
}.

(** Squared distance of two float centres. *)
Definition dist2 (x0 y0 x1 y1 : Q) : Q :=
  (x0 - x1) * (x0 - x1) + (y0 - y1) * (y0 - y1).

(** One pass of the dedup loop: [c] is kept unless the first circle of
    [unique] closer than [dedup_thr] has a radius within a factor 1.25.
    [dist < dedup_thr] is tested on the squares, both sides being
    non-negative. *)
Definition dedup_step (dedup_thr : Z) (unique : list Circle) (c : Circle)
    : list Circle :=
  let near u :=
    Qltb (dist2 (c0 c) (c1 c) (c0 u) (c1 u)) (inject_Z dedup_thr * inject_Z dedup_thr) in
  let keep :=
    match List.find near unique with
    | Some u =>
      let r_ratio := Qmax (c2 c) (c2 u) / Qmax 1 (Qmin (c2 c) (c2 u)) in
      negb (Qltb r_ratio 1.25)
    | None => true
    end in
  if keep then unique ++ [c] else unique.

(** The SCORING block of the loop body (criteria 1 to 7), for a circle
    that passed the rejections: the score it is given. *)
Definition coin_score (pos_x size_ratio : Q) (o : CoinObs) : Q :=
  let mean_hue := mean_hue o in
  let mean_sat := mean_sat o in
  let mean_val := mean_val o in
  let std_gray := std_gray o in
  let score := 0.0 in
  (* 1. RIM CONTINUITY *)
  let rim_continuity := fdiv (sector_hits o) 36 in
  let score :=
    if Qltb 0.85 rim_continuity then score + 0.30
    else if Qltb 0.75 rim_continuity then score + 0.26
    else if Qltb 0.65 rim_continuity then score + 0.21
    else if Qltb 0.50 rim_continuity then score + 0.15
    else if Qltb 0.35 rim_continuity then score + 0.08
    else score + 0.02 in
  (* 2. METALLIC INDICATOR *)
  let metallic_ratio := mean_val / (mean_sat + 1) in
  let score :=
    if Qltb 4.0 metallic_ratio then score + 0.18
    else if Qltb 3.0 metallic_ratio then score + 0.15
    else if Qltb 2.5 metallic_ratio then score + 0.12
    else if Qltb 2.0 metallic_ratio then score + 0.09
    else if Qltb 1.5 metallic_ratio then score + 0.06
    else if Qltb 1.0 metallic_ratio then
      score + (if Qltb mean_hue 30 && Qltb std_gray 35 then 0.05 else 0.03)
    else
      score + (if Qltb mean_hue 25 && Qltb std_gray 30 then 0.04 else 0.01) in
  (* 3. RIM EDGE DENSITY *)
  let rim_ratio := fdiv (edge_on_ring o) (Z.max 1 (ring_area o)) in
  let score :=
    if Qltb 0.15 rim_ratio then score + 0.10
    else if Qltb 0.10 rim_ratio then score + 0.08
    else if Qltb 0.06 rim_ratio then score + 0.06
    else if Qltb 0.03 rim_ratio then score + 0.04
    else if Qltb 0.01 rim_ratio then score + 0.02
    else score in
  (* 4. INTERIOR-EXTERIOR CONTRAST *)
  let score :=
    if (50 <? n_outer o)%Z then
      let contrast :=
        Qabs (mean_outer_gray o - mean_inner_gray o) /
        Qmax 1 ((mean_outer_gray o + mean_inner_gray o) / 2) in
      if Qltb 0.20 contrast then score + 0.15
      else if Qltb 0.10 contrast then score + 0.12
      else if Qltb 0.05 contrast then score + 0.08
      else if Qltb 0.02 contrast then score + 0.04
      else score
    else score in
  (* 5. INTERIOR UNIFORMITY *)
  let score :=
    if Qltb std_gray 22 then score + 0.10
    else if Qltb std_gray 30 then score + 0.08
    else if Qltb std_gray 38 then score + 0.06
    else if Qltb std_gray 45 then score + 0.03
    else if Qltb std_gray 52 then score + 0.01
    else score in
  (* 6. POSITION *)
  let score := score + Qmax 0 ((0.55 - pos_x) / 0.55) * 0.07 in
  (* 7. SIZE PREFERENCE *)
  let score :=
    if Qltb 0.06 size_ratio && Qltb size_ratio 0.16 then score + 0.10
    else if Qltb 0.05 size_ratio && Qltb size_ratio 0.20 then score + 0.07
    else score + 0.03 in
  score.

(** The body of the scoring loop for one circle of [unique]: [None] is a
    [continue], [Some] the tuple appended to [scored_circles], whose score
    is computed by [coin_score]. *)
Definition score_circle (h w : Z) (observe : Z -> Z -> Z -> CoinObs) (circle : Circle)
    : option Scored :=
  let x := int (c0 circle) in
  let y := int (c1 circle) in
  let r := int (c2 circle) in
  let margin := Z.max 5 (r / 10) in
  if ((x - r <? margin) || (w - margin <=? x + r) ||
      (y - r <? margin) || (h - margin <=? y + r))%Z then None
  else
  let pos_x := fdiv x w in
  if Qltb 0.55 pos_x then None
  else
  let size_ratio := fdiv (2 * r) w in
  if negb (Qltb 0.04 size_ratio && Qltb size_ratio 0.25) then None
  else
  let o := observe x y r in
  if (n_inner o <? 200)%Z then None
  else
  let mean_hue := mean_hue o in
  let mean_sat := mean_sat o in
  let mean_val := mean_val o in
  let std_gray := std_gray o in
  (* HARD REJECTIONS *)
  if (Qltb 35 mean_hue && Qltb mean_hue 85) && Qltb 35 mean_sat then None
  else if Qltb 55 std_gray then None
  else if Qltb 240 mean_val || Qltb mean_val 15 then None
  else
  Some {| sx := x; sy := y; sr := r;
          sscore := coin_score pos_x size_ratio o;
          srim := fdiv (sector_hits o) 36 |}.

(** Stable sort by decreasing score ([sort(key=lambda c: -c[3])]). *)
Fixpoint insert_scored (c : Scored) (l : list Scored) : list Scored :=
  match l with
  | [] => [c]
  | d :: ds => if Qleb (sscore c) (sscore d) then d :: insert_scored c ds else c :: l
  end.

Definition sort_scored (l : list Scored) : list Scored :=
  fold_left (fun acc c => insert_scored c acc) l [].

(** One pass of the post-processing loop: a significantly larger circle at
    a similar position with a reasonably close score replaces [best].
    [dist < best[2] * 1.5] is tested on the squares. *)
Definition prefer_larger (best candidate : Scored) : Scored :=
  if Qltb (inject_Z (sr best) * 1.3) (inject_Z (sr candidate)) then
    let d2 := dist2 (inject_Z (sx candidate)) (inject_Z (sy candidate))
                    (inject_Z (sx best)) (inject_Z (sy best)) in
    if Qltb d2 ((inject_Z (sr best) * 1.5) * (inject_Z (sr best) * 1.5)) then
      if Qltb (sscore best * 0.85) (sscore candidate) then candidate else best
    else best
  else best.

(** [scored_circles] of [_detect_coin_single_pass]. *)
Definition scored_circles (h w : Z) (v : View) : list Scored :=
  let min_radius := Z.max 20 (int (inject_Z w * 0.025)) in
  let dedup_thr := Z.max 20 (min_radius / 2) in
  let unique := fold_left (dedup_step dedup_thr) (all_circles v) [] in
  omap (score_circle h w (observe v)) unique.

(** [_detect_coin_single_pass]: the best circle, if any, and its score. *)
Definition _detect_coin_single_pass (h w : Z) (v : View) : option (Z * Z * Z) * Q :=
  match all_circles v with
  | [] => (None, 0)
  | _ =>
    match sort_scored (scored_circles h w v) with
    | [] => (None, 0)
    | first :: rest =>
      let best := fold_left prefer_larger (firstn 9 rest) first in
      (Some (sx best, sy best, sr best), sscore best)
    end
  end.

(** [_detect_coin_reference]. *)
Definition _detect_coin_reference (self : DimensionEstimator) (img : Image)
    : gmap string Val :=
  let result : gmap string Val :=
    <["coin_type" := VNone]> (<["detected" := VBool false]> ∅) in
  let h := shape_h img in
  let w := shape_w img in
  let MAX_DETECTION_WIDTH := 1200%Z in
  let '(scale, work_h, work_w) :=
    if (MAX_DETECTION_WIDTH <? w)%Z then
      let scale := fdiv MAX_DETECTION_WIDTH w in
      (scale, int (inject_Z h * scale), MAX_DETECTION_WIDTH)
    else (1.0, h, w) in
  let '(best_circle, best_score) := _detect_coin_single_pass work_h work_w (work img) in
  match best_circle with
  | Some (x, y, r) =>
    if Qleb 0.40 best_score then
      let '(x, y, r) :=
        if negb (Qeq_bool scale 1.0) then
          (int (inject_Z x / scale), int (inject_Z y / scale), int (inject_Z r / scale))
        else (x, y, r) in
      let diameter_px := (2 * r)%Z in
      (* P5 Coin: 25mm diameter *)
      let coin_diameter_mm := 25 in
      let coin_diameter_cm := 2.5 in
      let pixels_per_mm := inject_Z diameter_px / coin_diameter_mm in
      let pixels_per_cm := pixels_per_mm * 10 in
      <["detection_method" := VStr "edge_ring"]> (
      <["confidence" := VFloat (Qmin 0.95 (0.5 + best_score * 0.5))]> (
      <["detection_score" := VFloat best_score]> (
      <["coin_diameter_cm" := VFloat coin_diameter_cm]> (
      <["coin_name" := VStr "P5 Coin (25mm)"]> (
      <["coin_type" := VStr "peso_5"]> (
      <["coin_diameter_px" := VInt diameter_px]> (
      <["coin_radius" := VInt r]> (
      <["coin_center" := VPair (VInt x) (VInt y)]> (
      <["pixels_per_cm" := VFloat pixels_per_cm]> (
      <["detected" := VBool true]> result))))))))))
    else result
  | None => result
  end.

(** [_detect_card_reference]: disabled in the source. *)
Definition _detect_card_reference (self : DimensionEstimator) (img : Image)
    : gmap string Val :=
  <["detected" := VBool false]> ∅.

(** [_detect_aruco]. *)
Definition _detect_aruco (self : DimensionEstimator) (img : Image)
    : gmap string Val :=
  let result : gmap string Val := <["detected" := VBool false]> ∅ in
  if negb (aruco_dict self) then result
  else
    match marker img with
    | Some m =>
      let marker_size_px := (marker_width_px m + marker_height_px m) / 2 in
      let marker_size_cm := default 5.0 (size (reference_info self)) in
      let pixels_per_cm := marker_size_px / marker_size_cm in
      <["confidence" := VFloat 0.95]> (
      <["marker_corners" := VCorners m]> (
      <["marker_id" := VInt (marker_id m)]> (
      <["pixels_per_cm" := VFloat pixels_per_cm]> (
      <["detected" := VBool true]> result))))
    | None => result
    end.

(** *** The fast coin search *)

(** The body of the candidate loop for one circle: [None] is a [continue],
    [Some] the tuple [(score, cx, cy, r)] appended to [candidates]. *)
Definition fast_candidate (h w : Z) (fruit_rect : option (Q * Q * Q * Q))
    (observe : Z -> Z -> Z -> FastObs) (circle : Circle) : option (Q * Z * Z * Z) :=
  let cx := int (c0 circle) in
  let cy := int (c1 circle) in
  let r := int (c2 circle) in
  let r := Z.max 1 r in
  if ((cx - r <? 2) || (cy - r <? 2) || (w - 2 <=? cx + r) || (h - 2 <=? cy + r))%Z
  then None
  else
  if match fruit_rect with
     | Some (f0, f1, f2, f3) =>
       Qltb f0 (inject_Z cx) && Qltb (inject_Z cx) f2 &&
       Qltb f1 (inject_Z cy) && Qltb (inject_Z cy) f3
     | None => false
     end
  then None
  else
  let o := observe cx cy r in
  let score := 0.0 in
  (* CRITERION 1: edge ring continuity *)
  let edge_ratio := fdiv (edge_hits o) (Z.max 1 (n_valid o)) in
  let score := score + Qmin 0.25 (edge_ratio * 0.42) in
  if Qltb edge_ratio 0.15 then None
  else
  (* CRITERION 2: interior vs exterior contrast *)
  let score :=
    if (4 <? interior_size o)%Z && (4 <? n_ext o)%Z then
      let contrast := Qabs (int_mean o - ext_mean o) in
      if Qltb 30 contrast then score + 0.20
      else if Qltb 20 contrast then score + 0.15
      else if Qltb 12 contrast then score + 0.08
      else score
    else score in
  (* CRITERION 3: texture *)
  let score :=
    if (16 <? interior_size o)%Z then
      if Qltb 12 (int_std o) && Qltb (int_std o) 55 then score + 0.15
      else if Qltb 8 (int_std o) && Qltb (int_std o) 60 then score + 0.08
      else score
    else score in
  (* CRITERION 4: low interior saturation *)
  let score :=
    if (0 <? roi_size o)%Z then
      if Qltb (mean_s o) 45 && Qltb (high_sat_ratio o) 0.10 then score + 0.15
      else if Qltb (mean_s o) 65 && Qltb (high_sat_ratio o) 0.25 then score + 0.08
      else score
    else score in
  (* CRITERION 5: bright neutral surroundings *)
  let score :=
    if (4 <? n_ext o)%Z && (4 <? n_ext o)%Z then
      let ext_brightness := ext_mean o in
      if Qltb 190 ext_brightness && Qltb (ext_sat o) 40 then score + 0.20
      else if Qltb 170 ext_brightness && Qltb (ext_sat o) 55 then score + 0.12
      else if Qltb 150 ext_brightness && Qltb (ext_sat o) 40 then score + 0.06
      else score
    else score in
  (* CRITERION 6: reasonable size ratio *)
  let size_ratio := fdiv (2 * r) w in
  let score :=
    if Qltb 0.04 size_ratio && Qltb size_ratio 0.12 then score + 0.05 else score in
  Some (score, cx, cy, r).

(** Stable sort by decreasing score ([sort(key=..., reverse=True)]). *)
Fixpoint insert_candidate (c : Q * Z * Z * Z) (l : list (Q * Z * Z * Z))
    : list (Q * Z * Z * Z) :=
  match l with
  | [] => [c]
  | d :: ds =>
    if Qleb (fst (fst (fst c))) (fst (fst (fst d)))
    then d :: insert_candidate c ds else c :: l
  end.

Definition sort_candidates (l : list (Q * Z * Z * Z)) : list (Q * Z * Z * Z) :=
  fold_left (fun acc c => insert_candidate c acc) l [].

Definition not_detected : gmap string Val := <["detected" := VBool false]> ∅.

(** The validation loop over the sorted candidates. *)
Fixpoint validate (self : DimensionEstimator) (scale : Q) (fruit_bbox : option FruitBox)
    (candidates : list (Q * Z * Z * Z)) : gmap string Val :=
  match candidates with
  | [] => not_detected
  | (score, cx, cy, r) :: rest =>
    if Qltb score 0.55 then not_detected (* break *)
    else
      let coin_diameter_cm := default 2.4 (diameter (reference_info self)) in
      let cx_orig := int (inject_Z cx / scale) in
      let cy_orig := int (inject_Z cy / scale) in
      let r_orig := int (inject_Z r / scale) in
      let ppcm := inject_Z (r_orig * 2) / coin_diameter_cm in
      if match fruit_bbox with
         | Some {| fruit_size := Some (s0, s1) |} =>
           let fw_cm := s0 / ppcm in
           let fh_cm := s1 / ppcm in
           let fruit_len := Qmax fw_cm fh_cm in
           let fruit_wid := Qmin fw_cm fh_cm in
           Qltb 9.0 fruit_len || Qltb fruit_len 2.5 ||
           Qltb 7.0 fruit_wid || Qltb fruit_wid 1.5
         | _ => false
         end
      then validate self scale fruit_bbox rest (* continue *)
      else
        <["method" := VStr "size_aware_circle"]> (
        <["coin_name" := VStr (name (reference_info self))]> (
        <["confidence" := VFloat (Qmin 0.90 score)]> (
        <["pixels_per_cm" := VFloat ppcm]> (
        <["coin_diameter_cm" := VFloat coin_diameter_cm]> (
        <["coin_diameter_px" := VInt (r_orig * 2)]> (
        <["coin_radius" := VInt r_orig]> (
        <["coin_center" := VPair (VInt cx_orig) (VInt cy_orig)]> (
        <["detected" := VBool true]> ∅))))))))
  end.

(** [fast_coin_search(img, fruit_bbox)]. *)
Definition fast_coin_search (self : DimensionEstimator) (img : Image)
    (fruit_bbox : option FruitBox) : gmap string Val :=
  let h_orig := shape_h img in
  let w_orig := shape_w img in
  (* STEP 0: quick background check *)
  if Qltb (border_brightness img) 165 then not_detected
  else
  (* STEP 1: downscale to 512px *)
  let coin_search_dim := 512%Z in
  let '(scale, h, w) :=
    if (coin_search_dim <? Z.max h_orig w_orig)%Z then
      let scale := fdiv coin_search_dim (Z.max h_orig w_orig) in
      (scale, int (inject_Z h_orig * scale), int (inject_Z w_orig * scale))
    else (1.0, h_orig, w_orig) in
  match fast_circles img with
  | None => not_detected
  | Some circles =>
    let circle_list := firstn 10 circles in
    let fruit_rect :=
      match fruit_bbox with
      | Some {| bbox := Some (b0, b1, b2, b3) |} =>
        let fw := (b2 - b0) * scale in
        let fh := (b3 - b1) * scale in
        let margin_x := fw * 0.15 in
        let margin_y := fh * 0.15 in
        Some (b0 * scale + margin_x, b1 * scale + margin_y,
              b2 * scale - margin_x, b3 * scale - margin_y)
      | _ => None
      end in
    let candidates := omap (fast_candidate h w fruit_rect (fast_observe img)) circle_list in
    match candidates with
    | [] => not_detected
    | _ => validate self scale fruit_bbox (sort_candidates candidates)
    end
  end.

(** *** Contour estimation and calibrated measurement *)

(** [_segment_fruit]: the contour part of its result. *)
Definition _segment_fruit (img : Image) : option FruitContour := segmented img.

(** The ellipse axes with [major >= minor] ensured. *)
Definition ordered_axes (c : FruitContour) : Q * Q :=
  let minor_axis := axis0 c in
  let major_axis := axis1 c in
  if Qltb major_axis minor_axis then (major_axis, minor_axis)
  else (minor_axis, major_axis).

(** [_estimate_from_contour]. *)
Definition _estimate_from_contour (self : DimensionEstimator) (img : Image)
    : gmap string Val :=
  let result : gmap string Val :=
    <["warning" := VStr "No reference object detected. Using contour-based estimation."]> (
    <["detected" := VBool false]> ∅) in
  match _segment_fruit img with
  | Some fruit_contour =>
    if (5 <=? n_pts fruit_contour)%nat then
      let '(minor_axis, major_axis) := ordered_axes fruit_contour in
      let fruit_major_ratio := major_axis / img_diagonal img in
      let estimated_length :=
        if Qltb 0.2 fruit_major_ratio && Qltb fruit_major_ratio 0.8
        then clip (4.5 * (fruit_major_ratio / 0.4)) 3.5 5.5
        else 4.5 in
      let aspect_ratio := if Qltb 0 major_axis then minor_axis / major_axis else 0.7 in
      let estimated_width := estimated_length * aspect_ratio in
      let estimated_width := clip estimated_width 2.0 4.0 in
      let pixels_per_cm := major_axis / estimated_length in
      let volume_cm3 :=
        (4 / 3) * np_pi * (estimated_length / 2) * (estimated_width / 2) *
        (estimated_width / 2 * 0.8) in
      let estimated_weight := volume_cm3 * 0.85 in
      let estimated_weight := clip estimated_weight 15.0 60.0 in
      let kernel_mass := 0.1 + (estimated_length * estimated_width / 35) * 0.6 in
      let kernel_mass := clip kernel_mass 0.1 0.9 in
      <["ellipse" := VEllipse fruit_contour]> (
      <["estimated_kernel_mass_g" := VFloat (round kernel_mass 3)]> (
      <["estimated_weight_g" := VFloat (round estimated_weight 1)]> (
      <["width_cm" := VFloat (round estimated_width 2)]> (
      <["length_cm" := VFloat (round estimated_length 2)]> (
      <["note" := VStr "For accurate measurements, include a coin or reference object"]> (
      <["estimation_method" := VStr "statistical_prior"]> (
      <["confidence" := VFloat 0.40]> (
      <["fruit_contour" := VContour fruit_contour]> (
      <["pixels_per_cm" := VFloat pixels_per_cm]> (
      <["detected" := VBool true]> result))))))))))
    else result
  | None => result
  end.

(** [_measure_fruit(img, pixels_per_cm)]. *)
Definition _measure_fruit (self : DimensionEstimator) (img : Image) (pixels_per_cm : Q)
    : gmap string Val :=
  let result : gmap string Val := ∅ in
  match _segment_fruit img with
  | Some fruit_contour =>
    if (5 <=? n_pts fruit_contour)%nat then
      let '(minor_axis_px, major_axis_px) := ordered_axes fruit_contour in
      let length_cm := major_axis_px / pixels_per_cm in
      let width_cm := minor_axis_px / pixels_per_cm in
      let length_cm := clip length_cm 3.0 8.0 in
      let width_cm := clip width_cm 1.5 6.0 in
      let area_cm2 := np_pi * (length_cm / 2) * (width_cm / 2) in
      let volume_cm3 :=
        (4 / 3) * np_pi * (length_cm / 2) * (width_cm / 2) * (width_cm / 2 * 0.8) in
      let estimated_weight_g := volume_cm3 * 0.85 in
      let estimated_weight_g := clip estimated_weight_g 15.0 60.0 in
      let kernel_mass_g := 0.1 + (length_cm * width_cm / 35) * 0.6 in
      let kernel_mass_g := clip kernel_mass_g 0.1 0.9 in
      <["ellipse" := VEllipse fruit_contour]> (
      <["fruit_contour" := VContour fruit_contour]> (
      <["estimated_kernel_mass_g" := VFloat (round kernel_mass_g 3)]> (
      <["estimated_weight_g" := VFloat (round estimated_weight_g 1)]> (
      <["area_cm2" := VFloat (round area_cm2 2)]> (
      <["width_cm" := VFloat (round width_cm 2)]> (
      <["length_cm" := VFloat (round length_cm 2)]> result))))))
    else result
  | None => result
  end.

(** The float stored under [key], when there is one. *)
Definition get_float (d : gmap string Val) (key : string) : option Q :=
  match d !! key with
  | Some (VFloat q) => Some q
  | Some (VInt z) => Some (inject_Z z)
  | _ => None
  end.

(** [estimate_from_image(image, reference_method)]; [image] is what
    [_load_image] returns, [None] when the input cannot be loaded. *)
Definition estimate_from_image (self : DimensionEstimator) (image : option Image)
    (reference_method : string) : gmap string Val :=
  match image with
  | None =>
    <["success" := VBool false]> (<["error" := VStr "Could not load image"]> ∅)
  | Some img =>
    let result : gmap string Val :=
      <["confidence" := VFloat 0.0]> (
      <["reference_detected" := VBool false]> (
      <["fruit_contour" := VNone]> (
      <["area_cm2" := VNone]> (
      <["width_cm" := VNone]> (
      <["length_cm" := VNone]> (
      <["pixels_per_cm" := VNone]> (
      <["method_used" := VNone]> (
      <["success" := VBool false]> ∅)))))))) in
    let result :=
      if String.eqb reference_method "auto" then
        let aruco_result := _detect_aruco self img in
        if get_truthy aruco_result "detected" then
          <["reference_detected" := VBool true]> (
          <["method_used" := VStr "aruco"]> (update result aruco_result))
        else
          let coin_result := _detect_coin_reference self img in
          if get_truthy coin_result "detected" then
            <["reference_detected" := VBool true]> (
            <["method_used" := VStr "coin"]> (update result coin_result))
          else
            let card_result := _detect_card_reference self img in
            if get_truthy card_result "detected" then
              <["reference_detected" := VBool true]> (
              <["method_used" := VStr "card"]> (update result card_result))
            else
              let contour_result := _estimate_from_contour self img in
              <["method_used" := VStr "contour_estimation"]> (update result contour_result)
      else if String.eqb reference_method "aruco" then
        let aruco_result := _detect_aruco self img in
        <["reference_detected" := default VNone (aruco_result !! "detected")]> (
        <["method_used" := VStr "aruco"]> (update result aruco_result))
      else if String.eqb reference_method "coin" then
        let coin_result := _detect_coin_reference self img in
        <["reference_detected" := default VNone (coin_result !! "detected")]> (
        <["method_used" := VStr "coin"]> (update result coin_result))
      else if String.eqb reference_method "card" then
        let card_result := _detect_card_reference self img in
        <["reference_detected" := default VNone (card_result !! "detected")]> (
        <["method_used" := VStr "card"]> (update result card_result))
      else
        let contour_result := _estimate_from_contour self img in
        <["method_used" := VStr "contour_estimation"]> (update result contour_result) in
    if get_truthy result "pixels_per_cm" then
      match get_float result "pixels_per_cm" with
      | Some ppcm =>
        let fruit_dims := _measure_fruit self img ppcm in
        <["success" := VBool true]> (update result fruit_dims)
      | None => result
      end
    else result
  end.

End Estimator.

(** ** predict.py: the dimension steps of [TalisayPredictor.analyze_image]

    [analyze_image] looks for a size reference in its Step 0a and turns the
    outcome into the reported dimensions in its Step 2; the steps in
    between (segmentation, validation, colour) read [coin_info] and leave
    [dim_result] alone.  The two steps are embedded here for the case in
    which YOLO reported no coin.  Exceptions are values: a step returns
    the exception it raises, or its result; [analyze_image] catches every
    exception, stores its text under "error" and returns with
    "analysis_complete" False. *)

Module Predict.

Import Numeric Estimator.
#[local] Open Scope Q_scope.

Inductive Exception : Type := KeyError | TypeError | ValueError.

(** A computation that may raise. *)
Definition Py (A : Type) : Type := (Exception + A)%type.

Definition ret {A : Type} (a : A) : Py A := inr a.
Definition raise {A : Type} (e : Exception) : Py A := inl e.

Definition bind {A B : Type} (m : Py A) (k : A -> Py B) : Py B :=
  match m with
  | inl e => inl e
  | inr a => k a
  end.

#[local] Notation "x <- m ;; k" := (bind m (fun x => k))
  (at level 100, m at next level, right associativity).

(** [d[key]]. *)
Definition item (d : gmap string Val) (key : string) : Py Val :=
  match d !! key with
  | Some v => ret v
  | None => raise KeyError
  end.

(** [d.get(key, default)]. *)
Definition get (d : gmap string Val) (key : string) (dflt : Val) : Val :=
  default dflt (d !! key).

(** A value as an operand of [<], [>] and [+] with a float on the other
    side, where the result is then tested: None, strings and tuples raise
    TypeError, arrays of more than one element ValueError (the truth value
    of an array is ambiguous); booleans count as 0 and 1. *)
Definition number (v : Val) : Py Q :=
  match v with
  | VFloat q => ret q
  | VInt z => ret (inject_Z z)
  | VBool b => ret (if b then 1 else 0)
  | VNone | VStr _ | VPair _ _ | VEllipse _ => raise TypeError
  | VContour _ | VCorners _ => raise ValueError
  end.

(** *** Step 0a, when YOLO reported no coin *)

(** The branch [elif self.yolo_detector]: the fast coin search, then the
    calibrated measurement or the contour estimate.  The result is
    [(coin_info, dim_result)].  The scale of a detected coin is a float;
    it is handed to [_measure_fruit] as such. *)
Definition yolo_fallback (self : DimensionEstimator) (img : Image)
    (yolo_fruit_info : option FruitBox)
    : Py (option (gmap string Val) * gmap string Val) :=
  let fast_coin := fast_coin_search self img yolo_fruit_info in
  if get_truthy fast_coin "detected" then
    let coin_info := fast_coin in
    pixels_per_cm <- item fast_coin "pixels_per_cm" ;;
    coin_center <- item fast_coin "coin_center" ;;
    coin_radius <- item fast_coin "coin_radius" ;;
    confidence <- item fast_coin "confidence" ;;
    let dim_result : gmap string Val :=
      <["detection_method" := VStr "fast_hough_silver"]> (
      <["method_used" := VStr "fast_hough_silver"]> (
      <["confidence" := confidence]> (
      <["coin_diameter_cm" := get fast_coin "coin_diameter_cm" (VFloat 2.4)]> (
      <["coin_name" := get fast_coin "coin_name" (VStr "₱5 Coin")]> (
      <["coin_radius" := coin_radius]> (
      <["coin_center" := coin_center]> (
      <["pixels_per_cm" := pixels_per_cm]> (
      <["reference_detected" := VBool true]> ∅)))))))) in
    scale <- number pixels_per_cm ;;
    let fruit_dims := _measure_fruit self img scale in
    ret (Some coin_info, update dim_result fruit_dims)
  else
    let dim_result := _estimate_from_contour self img in
    ret (None, <["method_used" := VStr "contour_estimation"]> dim_result).

(** The branch [else]: no YOLO detector, the traditional detection. *)
Definition traditional_detection (self : DimensionEstimator) (img : Image)
    (reference_method : string) : option (gmap string Val) * gmap string Val :=
  let dim_result := estimate_from_image self (Some img) reference_method in
  if get_truthy dim_result "reference_detected" then
    (Some (<["coin_diameter_cm" := get dim_result "coin_diameter_cm" (VFloat 2.5)]> (
           <["coin_name" := get dim_result "coin_name" (VStr "₱5 Coin")]> (
           <["coin_radius" := get dim_result "coin_radius" VNone]> (
           <["coin_center" := get dim_result "coin_center" VNone]> (
           <["detected" := VBool true]> ∅))))),
     dim_result)
  else (None, dim_result).

(** *** Step 2: the reported dimensions *)

(** The keys Step 2 writes into [result]; [None] is a key left unset. *)
Record DimensionReport : Type := {
  dimensions : gmap string Val;
  dimensions_source : Val;
  dimensions_confidence : Val;
  reference_detected : Val;
  measurement_mode : string;
  dimension_warning : option string;
  coin_info : option (gmap string Val);
  measurement_tip : option string
}.

Definition measurement_tip_text : string :=
  "For more accurate measurements, try retaking the photo with a ₱5 coin placed on the LEFT side of the image as a size reference. Position the fruit on the RIGHT side, both at similar vertical center.".

Section Dimensions.

(** [DIMENSION_RANGES["length"]] and [DIMENSION_RANGES["width"]] come from
    [config.py], which is not among the sources at hand: their bounds are
    parameters, and so is the text the warning's f-string renders from
    the raw length and width. *)
Variables length_min length_max width_min width_max : Q.
Variable warning_text : Q -> Q -> string.

(** [max(lo, min(hi, raw))]. *)
Definition clamp (lo hi : Q) (raw : Val) : Py Q :=
  x <- number raw ;;
  ret (Qmax lo (Qmin hi x)).

Definition dimension_step (known_dimensions : option (gmap string Val))
    (dim_result : gmap string Val) (coin_info : option (gmap string Val))
    : Py DimensionReport :=
  if match known_dimensions with
     | Some d => negb (bool_decide (d = ∅))
     | None => false
     end
  then
    ret {| dimensions := default ∅ known_dimensions;
           dimensions_source := VStr "user_provided";
           dimensions_confidence := VFloat 1.0;
           reference_detected := VBool true;
           measurement_mode := "manual";
           dimension_warning := None;
           coin_info := None;
           measurement_tip := None |}
  else
    let raw_length := get dim_result "length_cm" (VFloat 5.0) in
    let raw_width := get dim_result "width_cm" (VFloat 3.5) in
    clamped_length <- clamp length_min length_max raw_length ;;
    clamped_width <- clamp width_min width_max raw_width ;;
    raw_length_value <- number raw_length ;;
    raw_width_value <- number raw_width ;;
    let dimension_clamped :=
      negb (Qeq_bool clamped_length raw_length_value) ||
      negb (Qeq_bool clamped_width raw_width_value) in
    let dimensions : gmap string Val :=
      <["whole_fruit_weight_g" := get dim_result "estimated_weight_g" (VFloat 35.0)]> (
      <["kernel_mass_g" := get dim_result "estimated_kernel_mass_g" (VFloat 0.4)]> (
      <["width_cm" := VFloat clamped_width]> (
      <["length_cm" := VFloat clamped_length]> ∅))) in
    let dimension_warning :=
      if dimension_clamped then Some (warning_text raw_length_value raw_width_value)
      else None in
    if match coin_info with
       | Some c => negb (bool_decide (c = ∅)) && get_truthy c "detected"
       | None => false
       end
    then
      boosted <- number (get dim_result "confidence" (VFloat 0.7)) ;;
      ret {| dimensions := dimensions;
             dimensions_source := get dim_result "method_used" (VStr "estimated");
             dimensions_confidence := VFloat (Qmin 0.95 (boosted + 0.15));
             reference_detected := get dim_result "reference_detected" (VBool false);
             measurement_mode := "coin_reference";
             dimension_warning := dimension_warning;
             coin_info := coin_info;
             measurement_tip := None |}
    else
      ret {| dimensions := dimensions;
             dimensions_source := get dim_result "method_used" (VStr "estimated");
             dimensions_confidence := get dim_result "confidence" (VFloat 0.4);
             reference_detected := get dim_result "reference_detected" (VBool false);
             measurement_mode := "smart_estimation";
             dimension_warning := dimension_warning;
             coin_info := Some (<["detected" := VBool false]> ∅);
             measurement_tip := Some measurement_tip_text |}.

End Dimensions.

End Predict.

(** * Sample inputs

    Concrete images used to evaluate the embedded functions.  The colour
    triples of each pixel kind are what OpenCV's 8-bit conversions give for
    the stated RGB value.  The pixels of a sample are listed kind by kind
    rather than row by row: what the guard computes from the pixel list and
    the mask flags (counts, means, variances, medians) does not change when
    pixels and flags are rearranged together. *)

Module Samples.

Import Numeric Guard.
#[local] Open Scope Z_scope.

Definition px (h y : triple) (g l : Z) : Pixel :=
  {| hsv := h; ycrcb := y; gray := g; lap := l |}.

(** Fruit green, RGB (120, 150, 90), on a textured surface. *)
Definition fruit_green (l : Z) : Pixel := px (45, 102, 150) (134, 118, 103) 134 l.

(** A darker fruit green, RGB (98, 123, 74). *)
Definition fruit_green_dark (l : Z) : Pixel := px (45, 102, 123) (110, 119, 108) 110 l.

(** Foliage green, RGB (40, 160, 40): saturation 191. *)
Definition leaf_green (l : Z) : Pixel := px (60, 191, 160) (110, 78, 88) 110 l.

(** A darker foliage green, RGB (30, 120, 30): saturation 191. *)
Definition leaf_green_dark (l : Z) : Pixel := px (60, 191, 120) (83, 90, 98) 83 l.

(** Skin, RGB (224, 172, 105). *)
Definition skin : Pixel := px (17, 135, 224) (180, 159, 86) 180 0.

(** Dark brown outside the skin ranges, RGB (100, 60, 32). *)
Definition brown : Pixel := px (12, 173, 100) (69, 150, 107) 69 0.

(** Light background, RGB (235, 235, 235). *)
Definition paper : Pixel := px (0, 0, 235) (235, 128, 128) 235 0.

(** A near-circular outline: aspect ratio 30.2 / 30, circularity about 0.95. *)
Definition disc : Contour :=
  {| area := 700%Q; perimeter := 96%Q; n_points := 48;
     minor := 30%Q; major := 30.2%Q; rect_w := 31; rect_h := 31;
     hull_area := 705%Q |}.

(** A round fruit outline: aspect ratio 1.05, circularity about 0.84. *)
Definition roundish : Contour :=
  {| area := 495%Q; perimeter := 86%Q; n_points := 52;
     minor := 24.5%Q; major := 25.725%Q; rect_w := 26; rect_h := 25;
     hull_area := 500%Q |}.

(** A 40 x 50 photo of a green fruit (800 pixels) on paper. *)
Definition fruit_photo : Image :=
  {| h_img := 40; w_img := 50;
     pixels := repeat (fruit_green 10) 400 ++ repeat (fruit_green_dark (-12)) 400 ++
               repeat paper 1200;
     edge_count := 100; faces := 0;
     built_mask := {| bits := repeat true 800 ++ repeat false 1200;
                      largest := Some {| area := 790%Q; perimeter := 110%Q;
                                         n_points := 60; minor := 25%Q; major := 40%Q;
                                         rect_w := 40; rect_h := 25;
                                         hull_area := 800%Q |} |} |}.

(** A 20 x 20 photo of a hand holding a small brown fruit with a little
    green: 30% skin, 7% green, 14% brown, no face. *)
Definition hand_photo : Image :=
  {| h_img := 20; w_img := 20;
     pixels := repeat skin 120 ++ repeat (fruit_green 10) 28 ++ repeat brown 56 ++
               repeat paper 196;
     edge_count := 40; faces := 0;
     built_mask := {| bits := repeat false 400; largest := None |} |}.

(** A 50 x 100 photo of a hand (30% skin) holding a round green object made
    of [2 * n] pixels of the two given greens, on paper.  The mask is the
    green object. *)
Definition held_object (a b : Pixel) (n : nat) : Image :=
  {| h_img := 50; w_img := 100;
     pixels := repeat skin 1500 ++ repeat a n ++ repeat b n ++
               repeat paper (3500 - 2 * n);
     edge_count := 150; faces := 0;
     built_mask := {| bits := repeat false 1500 ++ repeat true (2 * n) ++
                              repeat false (3500 - 2 * n);
                      largest := Some roundish |} |}.

(** The hand holds a fruit-green object covering exactly 10% of the photo. *)
Definition held_fruit : Image :=
  held_object (fruit_green 10) (fruit_green_dark (-12)) 250.

(** The same photo with the green at foliage saturation (191). *)
Definition held_leaf : Image :=
  held_object (leaf_green 10) (leaf_green_dark (-12)) 250.

(** Foliage green covering 11% of the photo. *)
Definition held_leaf_large : Image :=
  held_object (leaf_green 10) (leaf_green_dark (-12)) 275.

(** A perfect circle of perimeter 94: circularity exactly 1, aspect ratio
    exactly 1. *)
Definition perfect_circle : Contour :=
  {| area := Qred (2209 / np_pi)%Q; perimeter := 94%Q; n_points := 48;
     minor := 30%Q; major := 30%Q; rect_w := 30; rect_h := 30;
     hull_area := Qred (2209 / np_pi)%Q |}.

(** A square photo of side [side] showing one round green object of [n]
    pixels with outline [c], on paper. *)
Definition round_object (side : Z) (n : nat) (c : Contour) : Image :=
  {| h_img := side; w_img := side;
     pixels := repeat (fruit_green 10) n ++
               repeat paper (Z.to_nat (side * side) - n);
     edge_count := 96; faces := 0;
     built_mask := {| bits := repeat true n ++
                              repeat false (Z.to_nat (side * side) - n);
                      largest := Some c |} |}.

(** A 60 x 60 photo of a small disc: 400 pixels, 11.1% of the photo,
    circularity about 0.96. *)
Definition small_disc : Image :=
  round_object 60 400
    {| area := 390%Q; perimeter := 71.5%Q; n_points := 40;
       minor := 22.4%Q; major := 22.6%Q; rect_w := 23; rect_h := 23;
       hull_area := 393%Q |}.

(** An 80 x 80 photo of a disc: 710 pixels, 11.1% of the photo. *)
Definition disc_photo : Image := round_object 80 710 disc.

(** An 80 x 80 photo of a perfect circle of 710 pixels. *)
Definition circle_photo : Image := round_object 80 710 perfect_circle.

(** An 80 x 80 photo of a round object of 720 pixels whose outline has
    circularity 0.9004 and aspect ratio 1. *)
Definition near_disc_photo : Image :=
  round_object 80 720
    {| area := 716.5%Q; perimeter := 100%Q; n_points := 48;
       minor := 30%Q; major := 30%Q; rect_w := 30; rect_h := 30;
       hull_area := 720%Q |}.

(** Tanned skin, RGB (224, 180, 105): inside the skin ranges and inside the
    Talisay yellow band. *)
Definition tan_skin : Pixel := px (19, 135, 224) (185, 156, 83) 185 0.

(** A darker tan, RGB (200, 160, 95). *)
Definition tan_skin_dark : Pixel := px (19, 134, 200) (165, 153, 89) 165 0.

(** A 30 x 30 close-up of a tanned palm: every pixel is one of the two
    tans, and the colour mask covers the photo. *)
Definition palm_photo : Image :=
  {| h_img := 30; w_img := 30;
     pixels := repeat tan_skin 450 ++ repeat tan_skin_dark 450;
     edge_count := 60; faces := 0;
     built_mask := {| bits := repeat true 900;
                      largest := Some {| area := 841%Q; perimeter := 116%Q;
                                         n_points := 4; minor := 0%Q; major := 0%Q;
                                         rect_w := 30; rect_h := 30;
                                         hull_area := 841%Q |} |} |}.

(** A 10 x 10 photo of an evenly lit wall: every pixel is the same. *)
Definition wall_photo : Image :=
  {| h_img := 10; w_img := 10;
     pixels := repeat paper 100;
     edge_count := 0; faces := 0;
     built_mask := {| bits := repeat false 100; largest := None |} |}.

(** A 60 x 80 photo of a green chili (900 pixels) on paper: its outline is
    five times as long as it is wide, circularity about 0.39. *)
Definition chili_photo : Image :=
  {| h_img := 60; w_img := 80;
     pixels := repeat (leaf_green 10) 450 ++ repeat (leaf_green_dark (-12)) 450 ++
               repeat paper 3900;
     edge_count := 170; faces := 0;
     built_mask := {| bits := repeat true 900 ++ repeat false 3900;
                      largest := Some {| area := 900%Q; perimeter := 170%Q;
                                         n_points := 70; minor := 14%Q; major := 70%Q;
                                         rect_w := 70; rect_h := 14;
                                         hull_area := 960%Q |} |} |}.



End Samples.

(** Inputs of the dimension estimator. *)

Module CoinSamples.

Import Numeric Estimator.
#[local] Open Scope Q_scope.

(** Measurements of a silver coin on paper: a nearly complete rim, low
    saturation, bright and uniform interior, clear contrast with the
    surroundings. *)
Definition coin_obs : CoinObs :=
  {| n_inner := 7800; mean_hue := 20; mean_sat := 30; mean_val := 170;
     std_gray := 20; sector_hits := 34; ring_area := 2500; edge_on_ring := 450;
     n_outer := 7500; mean_outer_gray := 230; mean_inner_gray := 165 |}.

(** A fruit outline of 80 points whose fitted ellipse has axes 300 and 450
    pixels. *)
Definition fruit_outline : FruitContour := {| n_pts := 80; axis0 := 300; axis1 := 450 |}.

(** A 1000 x 1000 photo in which the Hough transform reports the single
    circle [c] and every circle measures like a coin; the fruit is
    segmented when [fruit] is given. *)
Definition coin_photo (c : list Circle) (fruit : option FruitContour) : Image :=
  {| shape_h := 1000; shape_w := 1000;
     marker := None;
     work := {| all_circles := c; observe := fun _ _ _ => coin_obs |};
     border_brightness := 228;
     fast_circles := None;
     fast_observe := fun _ _ _ =>
       {| n_valid := 24; edge_hits := 22; interior_size := 900; n_ext := 24;
          int_mean := 165; ext_mean := 230; int_std := 20; roi_size := 2700;
          mean_s := 30; high_sat_ratio := 0.02; ext_sat := 10 |};
     segmented := fruit;
     img_diagonal := 1414.2135623730951 |}.


(** A coin of radius 50 at the left of the photo. *)
Definition coin_left : Image :=
  coin_photo [{| c0 := 300.4; c1 := 500.2; c2 := 50.7 |}] (Some fruit_outline).


(** A photo with no marker, no circle and no fruit-coloured region. *)
Definition empty_scene : Image := coin_photo [] None.

(** A 1000 x 1000 photo on a light surface in which the fast search's Hough
    transform reports one circle of radius 26 on the 512-pixel image (radius
    50 on the original), at the left. *)
Definition fast_photo : Image :=
  {| shape_h := 1000; shape_w := 1000;
     marker := None;
     work := {| all_circles := []; observe := fun _ _ _ => coin_obs |};
     border_brightness := 228;
     fast_circles := Some [{| c0 := 150.3; c1 := 256.1; c2 := 26.2 |}];
     fast_observe := fun _ _ _ =>
       {| n_valid := 24; edge_hits := 22; interior_size := 900; n_ext := 24;
          int_mean := 165; ext_mean := 230; int_std := 20; roi_size := 2700;
          mean_s := 30; high_sat_ratio := 0.02; ext_sat := 10 |};
     segmented := Some fruit_outline;
     img_diagonal := 1414.2135623730951 |}.

(** The photo of [coin_left] with a printed ArUco marker in it: marker 7,
    its sides 200 and 202 pixels long. *)
Definition marker_photo : Image :=
  {| shape_h := 1000; shape_w := 1000;
     marker := Some {| marker_width_px := 200; marker_height_px := 202; marker_id := 7 |};
     work := {| all_circles := [{| c0 := 300.4; c1 := 500.2; c2 := 50.7 |}];
                observe := fun _ _ _ => coin_obs |};
     border_brightness := 228;
     fast_circles := None;
     fast_observe := fun _ _ _ =>
       {| n_valid := 24; edge_hits := 22; interior_size := 900; n_ext := 24;
          int_mean := 165; ext_mean := 230; int_std := 20; roi_size := 2700;
          mean_s := 30; high_sat_ratio := 0.02; ext_sat := 10 |};
     segmented := Some fruit_outline;
     img_diagonal := 1414.2135623730951 |}.

(** The fruit YOLO reports in [fast_photo]: a box of 300 x 200 pixels to the
    right of the coin. *)
Definition fruit_box : FruitBox :=
  {| bbox := Some (400, 300, 700, 500); fruit_size := Some (300, 200) |}.

(** [fast_photo] without the fruit: a coin on a light surface, and nothing
    of a fruit's colour. *)
Definition coin_only : Image :=
  {| shape_h := 1000; shape_w := 1000;
     marker := None;
     work := {| all_circles := []; observe := fun _ _ _ => coin_obs |};
     border_brightness := 228;
     fast_circles := Some [{| c0 := 150.3; c1 := 256.1; c2 := 26.2 |}];
     fast_observe := fun _ _ _ =>
       {| n_valid := 24; edge_hits := 22; interior_size := 900; n_ext := 24;
          int_mean := 165; ext_mean := 230; int_std := 20; roi_size := 2700;
          mean_s := 30; high_sat_ratio := 0.02; ext_sat := 10 |};
     segmented := None;
     img_diagonal := 1414.2135623730951 |}.




End CoinSamples.

(** * Vocabulary of the statements about TalisayGuard *)

Module GuardTerms.

Import Numeric Guard.
#[local] Open Scope Q_scope.

(** ** Coverages, the mask and the stages of the cascade *)

(** Coverages of the whole image, as [_check_person] computes them. *)
Definition skin_cov (image : Image) : Q :=
  fdiv (count is_skin (pixels image)) (h_img image * w_img image).

Definition strong_cov (image : Image) : Q :=
  fdiv (count is_strong_rescue (pixels image)) (h_img image * w_img image).

Definition total_rescue_cov (image : Image) : Q :=
  fdiv (count is_total_rescue (pixels image)) (h_img image * w_img image).

(** Coverage of Talisay brown outside the skin mask, on its own. *)
Definition brown_nonskin_cov (image : Image) : Q :=
  fdiv (count is_brown_nonskin (pixels image)) (h_img image * w_img image).

(** The number of faces the layer works with. *)
Definition faces_seen (self : TalisayGuard) (image : Image) : Z :=
  if _face_cascade self then faces image else 0%Z.

(** The mask [verify] works on. *)
Definition mask_used (image : Image) (fruit_mask : option Mask) : Mask :=
  match fruit_mask with
  | None => built_mask image
  | Some m => m
  end.

Definition fruit_area (m : Mask) : Z := count (fun b : bool => b) (bits m).

Definition mask_coverage (image : Image) (m : Mask) : Q :=
  fdiv (fruit_area m) (h_img image * w_img image).

(** No layer before the shape gate rejected the image. *)
Definition reaches_shape_gate (self : TalisayGuard) (image : Image)
    (fruit_mask : option Mask) : Prop :=
  is_blank (_check_blank_image image) = false /\
  is_person (_check_person self image) = false /\
  (500 <= fruit_area (mask_used image fruit_mask))%Z /\
  is_capsicum (_check_capsicum self image (mask_used image fruit_mask)) = false /\
  is_non_talisay (_check_non_talisay_colours self image (mask_used image fruit_mask)) = false.

(** The values the shape gate reads from the shape layer's result. *)
Definition gate_circularity (self : TalisayGuard) (m : Mask) : Q :=
  default 1.0 (circularity (_check_talisay_shape self m)).

Definition gate_aspect (self : TalisayGuard) (m : Mask) : Q :=
  default 1.0 (aspect_ratio (_check_talisay_shape self m)).

(** The shape gate fires. *)
Definition shape_gate (self : TalisayGuard) (image : Image) (m : Mask) : Prop :=
  mask_coverage image m < 0.12 /\ 0.90 < gate_circularity self m /\
  gate_aspect self m < 1.08.

(** The image reaches the composite decision. *)
Definition reaches_composite (self : TalisayGuard) (image : Image)
    (fruit_mask : option Mask) : Prop :=
  reaches_shape_gate self image fruit_mask /\
  ~ shape_gate self image (mask_used image fruit_mask).

(** The person-layer rescue was triggered: significant skin, not rejected. *)
Definition was_rescued (self : TalisayGuard) (image : Image) : Prop :=
  is_person (_check_person self image) = false /\ 0.25 < skin_cov image.

(** The green of the image looks like vegetation: more than 100 pixels in the
    Talisay green band, with a median saturation above 140. *)
Definition vegetation_green (image : Image) : Prop :=
  (100 < List.length (green_sat_vals image))%nat /\ 140 < median (green_sat_vals image).

(** The skin-sensitivity veto, given the number of positive layers. *)
Definition skin_veto (self : TalisayGuard) (image : Image) (passed : Z) : Prop :=
  was_rescued self image /\ (passed < 3)%Z /\
  (0.45 < skin_cov image \/
   (0.10 < strong_cov image /\ vegetation_green image)).

(** ** The composite decision *)

(** The part of [verify] that follows the texture layer, as a function of
    the three positive layers' results. *)
Definition decision (self : TalisayGuard) (image : Image) (m : Mask) : bool :=
  let c := _check_talisay_colour self image m in
  let s := _check_talisay_shape self m in
  let t := _check_talisay_texture self image m in
  let passed := sum_checks [colour_passes c; shape_passes s; texture_passes t] in
  let composite :=
    colour_score c * 0.45 + shape_score s * 0.30 + texture_score t * 0.25 in
  let accepted :=
    (3 <=? passed)%Z || ((2 <=? passed)%Z && Qleb 0.55 composite) in
  let accepted := if Qltb composite 0.35 then false else accepted in
  let skin := skin_cov image in
  if Qltb 0.25 skin && (passed <? 3)%Z then
    if Qltb 0.45 skin then false
    else if Qltb 0.10 (strong_cov image) then
      if (100 <? List.length (green_sat_vals image))%nat then
        if Qltb 140 (median (green_sat_vals image)) then false else accepted
      else accepted
    else accepted
  else accepted.

(** ** Green coverage *)

(** Coverage of the Talisay green band over the whole image. *)
Definition green_cov (image : Image) : Q :=
  fdiv (count (fun p => in_band (hsv p) TALISAY_GREEN_HSV) (pixels image))
       (h_img image * w_img image).

(** ** The colour layer *)

(** Coverage of a band within the masked pixels. *)
Definition cov (f : triple -> bool) (px : list triple) : Q :=
  fdiv (count f px) (Z.of_nat (List.length px)).

(** Coverage of the dominant band. *)
Definition dominant_cov (px : list triple) : Q :=
  Qmax (cov green_match px) (Qmax (cov yellow_match px) (cov brown_match px)).

(** The score before rounding. *)
Definition raw_colour_score (px : list triple) : Q :=
  let s := Qmin 1.0 (cov talisay_any px / 0.60) in
  if Qltb (dominant_cov px) 0.15 then s * 0.5 else s.

(** [q] is [p] with, at most, membership in the green band gained: the
    yellow and brown memberships are the same. *)
Definition green_upgrade (p q : triple) : Prop :=
  (green_match p = true -> green_match q = true) /\
  yellow_match q = yellow_match p /\ brown_match q = brown_match p.

(** ** The layers a verdict records *)

(** Which of the seven layers, in cascade order, left a result in the
    verdict's [layers]. *)
Definition layers_run (L : Layers) : list bool :=
  [bool_decide (is_Some (blank L)); bool_decide (is_Some (person L));
   bool_decide (is_Some (capsicum L)); bool_decide (is_Some (non_talisay_colour L));
   bool_decide (is_Some (talisay_colour L)); bool_decide (is_Some (talisay_shape L));
   bool_decide (is_Some (talisay_texture L))].

(** The HSV box of the "orange fruit" entry of [reject_colours]. *)
Definition orange_box (p : triple) : bool := in_range p (10, 100, 100)%Z (22, 255, 255)%Z.

End GuardTerms.

(** * Vocabulary of the statements about DimensionEstimator *)

Module EstimatorTerms.

Import Numeric Estimator.
#[local] Open Scope Q_scope.

(** ** The thorough coin search *)


(** [c] is significantly larger than [best], at a similar position, with a
    reasonably close score: the three tests of the post-processing loop. *)
Definition larger_similar (best c : Scored) : Prop :=
  inject_Z (sr best) * 1.3 < inject_Z (sr c) /\
  dist2 (inject_Z (sx c)) (inject_Z (sy c)) (inject_Z (sx best)) (inject_Z (sy best)) <
    (inject_Z (sr best) * 1.5) * (inject_Z (sr best) * 1.5) /\
  sscore best * 0.85 < sscore c.

(** Scores do not increase along the list. *)
Fixpoint descending (l : list Scored) : Prop :=
  match l with
  | [] => True
  | a :: t => List.Forall (fun b => sscore b <= sscore a) t /\ descending t
  end.



(** ** Calibrated measurement *)

(** Length and width in centimetres before clamping. *)
Definition raw_length (c : FruitContour) (pixels_per_cm : Q) : Q :=
  snd (ordered_axes c) / pixels_per_cm.

Definition raw_width (c : FruitContour) (pixels_per_cm : Q) : Q :=
  fst (ordered_axes c) / pixels_per_cm.

(** ** Contour estimation *)

(** A fruit contour with at least five points was segmented. *)
Definition fruit_found (img : Image) : Prop :=
  exists c, segmented img = Some c /\ (5 <= n_pts c)%nat.


(** ** The automatic mode *)

(** The result dict [estimate_from_image] starts from. *)
Definition base_result : gmap string Val :=
  <["confidence" := VFloat 0.0]> (
  <["reference_detected" := VBool false]> (
  <["fruit_contour" := VNone]> (
  <["area_cm2" := VNone]> (
  <["width_cm" := VNone]> (
  <["length_cm" := VNone]> (
  <["pixels_per_cm" := VNone]> (
  <["method_used" := VNone]> (
  <["success" := VBool false]> ∅)))))))).


(** ** Ranges *)

Definition between (lo hi x : Q) : Prop := lo <= x /\ x <= hi.

(** ** The fast coin search *)

(** The fruit's pixel size, when YOLO gave one, is a plausible fruit at the
    scale [ppcm]: the larger side within 2.5 .. 9.0 cm, the smaller within
    1.5 .. 7.0 cm. *)
Definition fruit_size_plausible (fruit_bbox : option FruitBox) (ppcm : Q) : Prop :=
  forall fb s0 s1, fruit_bbox = Some fb -> fruit_size fb = Some (s0, s1) ->
    2.5 <= Qmax (s0 / ppcm) (s1 / ppcm) /\ Qmax (s0 / ppcm) (s1 / ppcm) <= 9.0 /\
    1.5 <= Qmin (s0 / ppcm) (s1 / ppcm) /\ Qmin (s0 / ppcm) (s1 / ppcm) <= 7.0.

(** The fruit box shrunk by 15% on each side, in the coordinates of the
    image the fast search works on. *)
Definition shrunk_fruit_rect (fruit_bbox : option FruitBox) (scale : Q)
    : option (Q * Q * Q * Q) :=
  match fruit_bbox with
  | Some {| bbox := Some (b0, b1, b2, b3) |} =>
    let fw := (b2 - b0) * scale in
    let fh := (b3 - b1) * scale in
    let margin_x := fw * 0.15 in
    let margin_y := fh * 0.15 in
    Some (b0 * scale + margin_x, b1 * scale + margin_y,
          b2 * scale - margin_x, b3 * scale - margin_y)
  | _ => None
  end.

(** Scale, height and width of the image the fast search works on. *)
Definition search_frame (img : Image) : Q * Z * Z :=
  if (512 <? Z.max (shape_h img) (shape_w img))%Z then
    let scale := fdiv 512 (Z.max (shape_h img) (shape_w img)) in
    (scale, int (inject_Z (shape_h img) * scale), int (inject_Z (shape_w img) * scale))
  else (1.0, shape_h img, shape_w img).

(** The candidates of the fast search when the Hough transform reports
    [circles]: the first ten circles that pass the tests of the candidate
    loop, each with its score. *)
Definition fast_candidates (img : Image) (fruit_bbox : option FruitBox)
    (circles : list Circle) : list (Q * Z * Z * Z) :=
  let '(scale, h, w) := search_frame img in
  omap (fast_candidate h w (shrunk_fruit_rect fruit_bbox scale) (fast_observe img))
       (firstn 10 circles).


(** [N] is the length [n] of the search image in pixels of the original
    image: [n / scale] truncated, to within one pixel.  (The code truncates
    the binary64 quotient, which is one less than the exact quotient's
    truncation when the rounded quotient falls just below an integer.) *)
Definition scaled_back (scale : Q) (n N : Z) : Prop :=
  inject_Z N <= inject_Z n / scale /\ inject_Z n / scale <= inject_Z N + 1.






(** ** The circles of the thorough search *)

(** [c] duplicates [u]: the centres are closer than the threshold and the
    radii within a factor 1.25. *)
Definition near_duplicate (dedup_thr : Z) (c u : Circle) : Prop :=
  dist2 (c0 c) (c1 c) (c0 u) (c1 u) < inject_Z dedup_thr * inject_Z dedup_thr /\
  Qmax (c2 c) (c2 u) / Qmax 1 (Qmin (c2 c) (c2 u)) < 1.25.

(** ** The statistical prior *)



(** ** The stages of [estimate_from_image] *)

(** The result of [estimate_from_image] once the reference has been looked
    for, before the fruit is measured. *)
Definition calibration (self : DimensionEstimator) (img : Image)
    (reference_method : string) : gmap string Val :=
  let result := base_result in
  if String.eqb reference_method "auto" then
    let aruco_result := _detect_aruco self img in
    if get_truthy aruco_result "detected" then
      <["reference_detected" := VBool true]> (
      <["method_used" := VStr "aruco"]> (update result aruco_result))
    else
      let coin_result := _detect_coin_reference self img in
      if get_truthy coin_result "detected" then
        <["reference_detected" := VBool true]> (
        <["method_used" := VStr "coin"]> (update result coin_result))
      else
        let card_result := _detect_card_reference self img in
        if get_truthy card_result "detected" then
          <["reference_detected" := VBool true]> (
          <["method_used" := VStr "card"]> (update result card_result))
        else
          let contour_result := _estimate_from_contour self img in
          <["method_used" := VStr "contour_estimation"]> (update result contour_result)
  else if String.eqb reference_method "aruco" then
    let aruco_result := _detect_aruco self img in
    <["reference_detected" := default VNone (aruco_result !! "detected")]> (
    <["method_used" := VStr "aruco"]> (update result aruco_result))
  else if String.eqb reference_method "coin" then
    let coin_result := _detect_coin_reference self img in
    <["reference_detected" := default VNone (coin_result !! "detected")]> (
    <["method_used" := VStr "coin"]> (update result coin_result))
  else if String.eqb reference_method "card" then
    let card_result := _detect_card_reference self img in
    <["reference_detected" := default VNone (card_result !! "detected")]> (
    <["method_used" := VStr "card"]> (update result card_result))
  else
    let contour_result := _estimate_from_contour self img in
    <["method_used" := VStr "contour_estimation"]> (update result contour_result).

(** The keys only the measurement of the fruit may set. *)
Definition measured_keys : list string :=
  ["success"; "length_cm"; "width_cm"; "area_cm2"]%string.

(** The value a result dict holds under [k] is a float, when it holds one. *)
Definition float_or_absent (d : gmap string Val) (k : string) : Prop :=
  d !! k = None \/ exists q, d !! k = Some (VFloat q).

(** The detection results [estimate_from_image] may merge into its result. *)
Definition sources (self : DimensionEstimator) (img : Image) : list (gmap string Val) :=
  [_detect_aruco self img; _detect_coin_reference self img;
   _detect_card_reference self img; _estimate_from_contour self img].

End EstimatorTerms.

(** * Facts about the numeric operations *)

Module NumericFacts.

Import Numeric.
#[local] Open Scope Q_scope.

(** The operations on a few values. *)

Example round_half_even :
  round 0.125 2 == 0.12 /\ round 0.135 2 == 0.14 /\ round 2.5 0 == 2 /\
  round 3.5343 2 == 3.53 /\ round (-0.5) 0 == 0.
Proof. repeat split; vm_compute; reflexivity. Qed.

Example int_truncates : int 50.7 = 50%Z /\ int (-2.5) = (-2)%Z /\ int 3 = 3%Z.
Proof. repeat split; vm_compute; reflexivity. Qed.

Example median_values :
  median [3; 1; 2]%Z == 2 /\ median [4; 1; 3; 2]%Z == 2.5 /\
  sort [3; 1; 2; 1]%Z = [1; 1; 2; 3]%Z.
Proof. repeat split; vm_compute; reflexivity. Qed.

Example var_values : var [1; 2; 3; 4] == 1.25 /\ mean [1; 2; 3; 4] == 2.5.
Proof. split; vm_compute; reflexivity. Qed.

Example contains_values :
  contains "dark" "very dark object (dark screen)" = true /\
  contains "white" "white/bright object (paper, screen)" = true /\
  contains "dark" "red fruit (apple, tomato, red pepper)" = false.
Proof. repeat split; reflexivity. Qed.

Lemma Qleb_true (x y : Q) : Qleb x y = true <-> x <= y.
Proof. unfold Qleb. apply Qle_bool_iff. Qed.

Lemma Qleb_false (x y : Q) : Qleb x y = false <-> y < x.
Proof.
  unfold Qleb. split; intro H.
  - apply Qnot_le_lt. intro Hle. apply Qle_bool_iff in Hle. congruence.
  - destruct (Qle_bool x y) eqn:E; [|reflexivity].
    apply Qle_bool_iff in E. lra.
Qed.

Lemma Qltb_true (x y : Q) : Qltb x y = true <-> x < y.
Proof.
  unfold Qltb. rewrite negb_true_iff. apply (Qleb_false y x).
Qed.

Lemma Qltb_false (x y : Q) : Qltb x y = false <-> y <= x.
Proof.
  unfold Qltb. rewrite negb_false_iff. apply (Qleb_true y x).
Qed.

(** Case analysis on the boolean comparisons, leaving the order facts as
    hypotheses. *)
Ltac cmp_cases :=
  repeat match goal with
  | |- context [Qltb ?a ?b] =>
    let E := fresh "E" in
    destruct (Qltb a b) eqn:E;
    [apply Qltb_true in E | apply Qltb_false in E]
  | |- context [Qleb ?a ?b] =>
    let E := fresh "E" in
    destruct (Qleb a b) eqn:E;
    [apply Qleb_true in E | apply Qleb_false in E]
  end.

(** Computation on closed inputs: goals are evaluated by the virtual
    machine, and a contradictory hypothesis is evaluated before it is used. *)
Ltac compute_closed :=
  repeat match goal with
  | |- _ /\ _ => split
  | |- ~ _ => intro
  | H : _ /\ _ |- _ => destruct H
  | H : _ \/ _ |- _ => destruct H
  end;
  lazymatch goal with
  | |- (_ < _)%nat => apply Nat.ltb_lt; vm_compute; reflexivity
  | |- False =>
    match goal with
    | H : _ |- _ => vm_compute in H; first [discriminate H | exact (H eq_refl)]
    end
  | |- _ => vm_compute; first [reflexivity | discriminate | (let Hx := fresh in intro Hx; discriminate Hx)]
  end.


Lemma floor_bounds (x : Q) : inject_Z (Qfloor x) <= x /\ x < inject_Z (Qfloor x) + 1.
Proof.
  split; [apply Qfloor_le|].
  pose proof (Qlt_floor x) as H. rewrite inject_Z_plus in H. exact H.
Qed.

Lemma rint_cases (x : Q) :
  (rint x = Qfloor x /\ x - inject_Z (Qfloor x) <= 1 # 2) \/
  (rint x = (Qfloor x + 1)%Z /\ 1 # 2 <= x - inject_Z (Qfloor x)).
Proof.
  unfold rint. cbv zeta. cmp_cases.
  - left. split; [reflexivity | lra].
  - right. split; [reflexivity | lra].
  - destruct (Z.even (Qfloor x)); [left | right]; (split; [reflexivity | lra]).
Qed.

Lemma rint_comp (x y : Q) : x == y -> rint x = rint y.
Proof.
  intro H. unfold rint. cbv zeta.
  rewrite (Qfloor_comp _ _ H).
  assert (Hd : x - inject_Z (Qfloor y) == y - inject_Z (Qfloor y)) by (rewrite H; reflexivity).
  unfold Qltb. rewrite !(Qleb_comp _ _ (reflexivity _) _ _ Hd).
  rewrite (Qleb_comp _ _ Hd _ _ (reflexivity _)). reflexivity.
Qed.

Lemma rint_Z (z : Z) : rint (inject_Z z) = z.
Proof.
  unfold rint. cbv zeta. rewrite Qfloor_Z.
  assert (H : inject_Z z - inject_Z z == 0) by ring.
  cmp_cases; try reflexivity; lra.
Qed.

Lemma rint_mono (x y : Q) : x <= y -> (rint x <= rint y)%Z.
Proof.
  intro Hxy.
  pose proof (Qfloor_resp_le _ _ Hxy) as Hf.
  destruct (Z.eq_dec (Qfloor x) (Qfloor y)) as [Heq | Hne].
  - unfold rint. cbv zeta. rewrite Heq.
    assert (Hd : x - inject_Z (Qfloor y) <= y - inject_Z (Qfloor y)) by lra.
    cmp_cases; try lia; try lra.
    all: destruct (Z.even (Qfloor y)); lia.
  - assert (Hlt : (Qfloor x < Qfloor y)%Z) by lia.
    destruct (rint_cases x) as [[Hx _] | [Hx _]], (rint_cases y) as [[Hy _] | [Hy _]];
      lia.
Qed.

Lemma rint_ge (a : Z) (x : Q) : inject_Z a <= x -> (a <= rint x)%Z.
Proof. intro H. rewrite <- (rint_Z a). apply rint_mono, H. Qed.

Lemma rint_le (b : Z) (x : Q) : x <= inject_Z b -> (rint x <= b)%Z.
Proof. intro H. rewrite <- (rint_Z b). apply rint_mono, H. Qed.

(** [rint] moves its argument by at most one half. *)
Lemma rint_close (x : Q) : Qabs (inject_Z (rint x) - x) <= 1 # 2.
Proof.
  destruct (floor_bounds x) as [Hlo Hhi].
  apply Qabs_Qle_condition.
  destruct (rint_cases x) as [[-> H] | [-> H]].
  - split; lra.
  - rewrite inject_Z_plus. change (inject_Z 1) with 1. split; lra.
Qed.

Lemma pow10_pos (n : nat) : 0 < pow10 n.
Proof.
  unfold pow10. change 0 with (inject_Z 0). rewrite <- Zlt_Qlt.
  apply Z.pow_pos_nonneg; lia.
Qed.

Lemma round_mono (x y : Q) (n : nat) : x <= y -> round x n <= round y n.
Proof.
  intro H. unfold round. pose proof (pow10_pos n) as Hp.
  apply Qmult_le_compat_r.
  - rewrite <- Zle_Qle. apply rint_mono.
    apply Qmult_le_compat_r; [exact H | lra].
  - apply Qlt_le_weak, Qinv_lt_0_compat, Hp.
Qed.

(** A value that already has [n] decimals is unchanged by [round]. *)
Lemma round_exact (x : Q) (n : nat) (k : Z) :
  x * pow10 n == inject_Z k -> round x n == x.
Proof.
  intro H. unfold round. pose proof (pow10_pos n) as Hp.
  rewrite (rint_comp _ _ H), rint_Z, <- H. field. lra.
Qed.

Lemma round_ge (a x : Q) (n : nat) (k : Z) :
  a * pow10 n == inject_Z k -> a <= x -> a <= round x n.
Proof.
  intros Ha H. rewrite <- (round_exact a n k Ha). apply round_mono, H.
Qed.

Lemma round_le (b x : Q) (n : nat) (k : Z) :
  b * pow10 n == inject_Z k -> x <= b -> round x n <= b.
Proof.
  intros Hb H. rewrite <- (round_exact b n k Hb). apply round_mono, H.
Qed.

Lemma round_comp (x y : Q) (n : nat) : x == y -> round x n == round y n.
Proof.
  intro H. unfold round. rewrite (rint_comp (x * pow10 n) (y * pow10 n)).
  - reflexivity.
  - rewrite H. reflexivity.
Qed.

Lemma clip_bounds (x lo hi : Q) : lo <= hi -> lo <= clip x lo hi /\ clip x lo hi <= hi.
Proof.
  intro H. unfold clip. split.
  - apply Q.min_glb; [apply Q.le_max_r | exact H].
  - apply Q.le_min_r.
Qed.




(** A value rounded to three decimals is a number of thousandths, at most
    half a thousandth away. *)
Lemma round3_grid (x : Q) : exists k : Z, round x 3 == inject_Z k / 1000.
Proof. exists (rint (x * pow10 3)). reflexivity. Qed.

Lemma round3_close (x : Q) : Qabs (round x 3 - x) <= 0.0005.
Proof.
  pose proof (rint_close (x * pow10 3)) as H.
  apply Qabs_Qle_condition in H. destruct H as [H1 H2].
  unfold round. change (pow10 3) with (inject_Z 1000) in *.
  set (k := inject_Z (rint (x * inject_Z 1000))) in *.
  assert (E : k / inject_Z 1000 == k * (1 # 1000)) by (field; discriminate).
  rewrite E. change (inject_Z 1000) with 1000 in *.
  apply Qabs_Qle_condition. split; lra.
Qed.

End NumericFacts.

(** * Properties of TalisayGuard *)

Module GuardFacts.

Import Numeric Guard GuardTerms NumericFacts.
#[local] Open Scope Q_scope.

(** ** The person layer *)

Lemma check_person_is_person (self : TalisayGuard) (image : Image) :
  is_person (_check_person self image) =
  ((0 <? faces_seen self image)%Z && Qltb (strong_cov image) 0.05) ||
  (Qltb 0.25 (skin_cov image) &&
   negb (Qleb 0.08 (strong_cov image) ||
         (Qleb 0.20 (total_rescue_cov image) && Qltb (skin_cov image) 0.45))).
Proof.
  unfold _check_person, faces_seen, strong_cov, skin_cov, total_rescue_cov,
    MAX_SKIN_COVERAGE.
  cbv zeta.
  destruct ((0 <? (if _face_cascade self then faces image else 0))%Z &&
            Qltb (fdiv (count is_strong_rescue (pixels image))
                       (h_img image * w_img image)) 0.05); [reflexivity|].
  destruct (Qltb 0.25 (fdiv (count is_skin (pixels image)) (h_img image * w_img image)));
    [|reflexivity].
  destruct (Qleb 0.08 (fdiv (count is_strong_rescue (pixels image))
                            (h_img image * w_img image))); [reflexivity|].
  destruct (Qleb 0.20 (fdiv (count is_total_rescue (pixels image))
                            (h_img image * w_img image)) &&
            Qltb (fdiv (count is_skin (pixels image)) (h_img image * w_img image)) 0.45);
    reflexivity.
Qed.

Lemma check_person_skin (self : TalisayGuard) (image : Image) :
  is_person (_check_person self image) = false ->
  skin_coverage (_check_person self image) = Some (skin_cov image).
Proof.
  unfold _check_person, skin_cov. cbv zeta.
  repeat match goal with
  | |- context [if ?b then _ else _] => destruct b
  end; cbn; intro H; try discriminate; reflexivity.
Qed.

Lemma check_person_strong (self : TalisayGuard) (image : Image) :
  strong_rescue_coverage (_check_person self image) = strong_cov image.
Proof.
  unfold _check_person, strong_cov. cbv zeta.
  repeat match goal with
  | |- context [if ?b then _ else _] => destruct b
  end; reflexivity.
Qed.

(** C3, the claim as stated, fails: [Samples.hand_photo] has 30% skin, 7%
    green and yellow, and only 14% brown outside the skin mask, so neither
    rescue condition of the claim holds; yet the layer does not report a
    person, because the code compares the combined green, yellow and
    non-skin brown coverage (21%) with the 20% threshold. *)
Lemma C3_counterexample :
  0.25 < skin_cov Samples.hand_photo /\
  ~ (0.08 <= strong_cov Samples.hand_photo \/
     (0.20 <= brown_nonskin_cov Samples.hand_photo /\
      skin_cov Samples.hand_photo < 0.45)) /\
  is_person (_check_person (init true) Samples.hand_photo) = false.
Proof.
  split; [|split].
  - vm_compute. reflexivity.
  - intros [H | [H _]]; vm_compute in H; apply H; reflexivity.
  - vm_compute. reflexivity.
Qed.

(** C3 (amended): a detected face with less than 5% green and yellow coverage
    makes the layer report a person; when that rule does not apply and skin
    coverage exceeds 25%, the layer does not report a person exactly when
    green and yellow coverage is at least 8%, or the combined coverage of
    green, yellow and non-skin brown is at least 20% while skin coverage is
    below 45%. *)
Theorem C3_person_layer (self : TalisayGuard) (image : Image) :
  let p := _check_person self image in
  let face_rule := (0 < faces_seen self image)%Z /\ strong_cov image < 0.05 in
  (face_rule -> is_person p = true) /\
  (~ face_rule -> 0.25 < skin_cov image ->
   (is_person p = false <->
    0.08 <= strong_cov image \/
    (0.20 <= total_rescue_cov image /\ skin_cov image < 0.45))).
Proof.
  cbv zeta. rewrite check_person_is_person.
  destruct (Z.ltb_spec 0 (faces_seen self image)) as [Hf | Hf]; cmp_cases; cbn;
    (split; [intros [? ?] | intros Hn ?; split; intro]);
    try reflexivity; try discriminate; try lra; try lia;
    try (exfalso; apply Hn; split; [lia | lra]);
    try (left; lra); try (right; split; lra);
    try (match goal with H : _ \/ _ |- _ => destruct H as [? | [? ?]]; lra end).
Qed.

(** C3 at [Samples.hand_photo]: no face, 30% skin, 7% green and yellow, 21%
    combined rescue coverage; the layer does not report a person. *)
Lemma C3_witness :
  ~ ((0 < faces_seen (init true) Samples.hand_photo)%Z /\
     strong_cov Samples.hand_photo < 0.05) /\
  0.25 < skin_cov Samples.hand_photo /\
  0.20 <= total_rescue_cov Samples.hand_photo /\
  skin_cov Samples.hand_photo < 0.45 /\
  is_person (_check_person (init true) Samples.hand_photo) = false.
Proof.
  assert (Hf : ~ ((0 < faces_seen (init true) Samples.hand_photo)%Z /\
                  strong_cov Samples.hand_photo < 0.05)) by compute_closed.
  assert (Hs : 0.25 < skin_cov Samples.hand_photo) by compute_closed.
  assert (Ht : 0.20 <= total_rescue_cov Samples.hand_photo) by compute_closed.
  assert (Hk : skin_cov Samples.hand_photo < 0.45) by compute_closed.
  split; [exact Hf|]. split; [exact Hs|]. split; [exact Ht|]. split; [exact Hk|].
  pose proof (C3_person_layer (init true) Samples.hand_photo) as Hthm.
  cbv zeta in Hthm. destruct Hthm as [_ Hthm].
  apply (Hthm Hf Hs). right. split; [exact Ht | exact Hk].
Defined.

(** ** The cascade up to the composite decision *)

Lemma sum_checks_3 (a b c : bool) :
  sum_checks [a; b; c] =
  ((if a then 1 else 0) + ((if b then 1 else 0) + ((if c then 1 else 0) + 0)))%Z.
Proof. reflexivity. Qed.

Lemma shape_gate_test (self : TalisayGuard) (image : Image) (m : Mask) :
  (Qltb (fdiv (count (fun b : bool => b) (bits m)) (h_img image * w_img image)) 0.12 &&
   Qltb 0.90 (default 1.0 (circularity (_check_talisay_shape self m))) &&
   Qltb (default 1.0 (aspect_ratio (_check_talisay_shape self m))) 1.08) = true <->
  shape_gate self image m.
Proof.
  unfold shape_gate, mask_coverage, gate_circularity, gate_aspect, fruit_area.
  rewrite !andb_true_iff, !Qltb_true. tauto.
Qed.

Lemma verify_composite (self : TalisayGuard) (image : Image) (fruit_mask : option Mask) :
  reaches_composite self image fruit_mask ->
  let m := mask_used image fruit_mask in
  let c := _check_talisay_colour self image m in
  let s := _check_talisay_shape self m in
  let t := _check_talisay_texture self image m in
  let composite :=
    colour_score c * 0.45 + shape_score s * 0.30 + texture_score t * 0.25 in
  let v := verify self image fruit_mask in
  accepted v = decision self image m /\
  score v = round composite 3 /\
  verdict v =
    (if decision self image m then value ACCEPT
     else if negb (colour_passes c) then value REJECT_WRONG_COLOUR
     else if negb (shape_passes s) then value REJECT_WRONG_SHAPE
     else value REJECT_LOW_CONFIDENCE).
Proof.
  intros [(Hb & Hp & Ha & Hc & Hn) Hg]. cbv zeta.
  unfold verify, decision. cbv zeta.
  rewrite Hb, Hp.
  fold (mask_used image fruit_mask).
  unfold fruit_area in Ha. apply Z.ltb_ge in Ha. rewrite Ha.
  rewrite Hc, Hn.
  destruct (Qltb _ 0.12 && _ && _) eqn:Eg.
  { exfalso. apply Hg. apply shape_gate_test. exact Eg. }
  cbn [person blank capsicum non_talisay_colour talisay_colour talisay_shape
       talisay_texture from_option default mbind option_bind].
  rewrite Hp, (check_person_skin self image Hp), (check_person_strong self image).
  cbn [negb andb default from_option]. unfold id.
  unfold MAX_SKIN_COVERAGE, MIN_POSITIVE_LAYERS, MIN_GUARD_SCORE.
  match goal with
  | |- context [if ?b then _make_verdict true _ _ _ _ else _] => destruct b
  end.
  - cbn. auto.
  - destruct (colour_passes _); cbn; [|auto].
    destruct (shape_passes _); cbn; auto.
Qed.

Lemma decision_spec (self : TalisayGuard) (image : Image) (m : Mask) :
  is_person (_check_person self image) = false ->
  let c := _check_talisay_colour self image m in
  let s := _check_talisay_shape self m in
  let t := _check_talisay_texture self image m in
  let composite :=
    0.45 * colour_score c + 0.30 * shape_score s + 0.25 * texture_score t in
  let passed := sum_checks [colour_passes c; shape_passes s; texture_passes t] in
  decision self image m = true <->
  ((3 <= passed)%Z \/ ((2 <= passed)%Z /\ 0.55 <= composite)) /\
  0.35 <= composite /\ ~ skin_veto self image passed.
Proof.
  intro Hp. cbv zeta. unfold decision, skin_veto, was_rescued, vegetation_green.
  cbv zeta. rewrite !sum_checks_3.
  set (cs := colour_score _). set (ss := shape_score _). set (ts := texture_score _).
  set (sk := skin_cov image). set (st := strong_cov image).
  set (md := median _). set (n := List.length _).
  destruct (colour_passes _), (shape_passes _), (texture_passes _);
    cbn [Z.add Z.leb Z.ltb Z.compare Pos.compare Pos.compare_cont Pos.add Pos.succ
         orb andb];
    destruct (Nat.ltb_spec 100 n); cmp_cases;
    (split; [intro Hd; try discriminate Hd | intros (Hc & Hlo & Hv)]);
    try reflexivity;
    try (exfalso; destruct Hc as [Hc | [Hc Hc']]; (lia || lra));
    try (exfalso; lra);
    try (exfalso; apply Hv; repeat split; try assumption; try lia;
         first [left; lra | right; repeat split; (lra || lia)]);
    try (repeat split; try lra; try (first [left; lia | right; split; [lia | lra]]);
         intros ((_ & Hs) & Hlt & [Hsk | (Hst & Hn & Hmd)]); (lia || lra)).
Qed.

(** The composite decision, shared by the statements below. *)
Lemma verify_accept_iff (self : TalisayGuard) (image : Image)
    (fruit_mask : option Mask) :
  reaches_composite self image fruit_mask ->
  let m := mask_used image fruit_mask in
  let c := _check_talisay_colour self image m in
  let s := _check_talisay_shape self m in
  let t := _check_talisay_texture self image m in
  let composite :=
    0.45 * colour_score c + 0.30 * shape_score s + 0.25 * texture_score t in
  let passed := sum_checks [colour_passes c; shape_passes s; texture_passes t] in
  let v := verify self image fruit_mask in
  score v == round composite 3 /\
  (verdict v = value ACCEPT <->
   ((3 <= passed)%Z \/ ((2 <= passed)%Z /\ 0.55 <= composite)) /\
   0.35 <= composite /\ ~ skin_veto self image passed) /\
  (accepted v = true <-> verdict v = value ACCEPT) /\
  (composite < 0.35 -> accepted v = false /\ verdict v <> value ACCEPT).
Proof.
  intros H. cbv zeta.
  destruct (verify_composite self image fruit_mask H) as (Ha & Hs & Hv).
  destruct H as [(_ & Hp & _) _].
  pose proof (decision_spec self image (mask_used image fruit_mask) Hp) as Hd.
  cbv zeta in Hd, Ha, Hs, Hv.
  assert (Hrej : decision self image (mask_used image fruit_mask) = false ->
                 verdict (verify self image fruit_mask) <> value ACCEPT).
  { intros D. rewrite Hv, D.
    destruct (colour_passes _); cbn; [|discriminate].
    destruct (shape_passes _); cbn; discriminate. }
  split; [|split; [|split]].
  - rewrite Hs. apply round_comp. ring.
  - rewrite <- Hd.
    destruct (decision self image (mask_used image fruit_mask)) eqn:D.
    + rewrite Hv. tauto.
    + split; [intro Hacc; exfalso; exact (Hrej eq_refl Hacc) | discriminate].
  - rewrite Ha.
    destruct (decision self image (mask_used image fruit_mask)) eqn:D.
    + rewrite Hv. tauto.
    + split; [discriminate | intro Hacc; exfalso; exact (Hrej eq_refl Hacc)].
  - intro Hlow. rewrite Ha.
    destruct (decision self image (mask_used image fruit_mask)) eqn:D.
    + exfalso. destruct (proj1 Hd eq_refl) as (_ & Hge & _). lra.
    + split; [reflexivity | exact (Hrej eq_refl)].
Qed.

(** ** The shape gate *)

Lemma verify_shape_gate (self : TalisayGuard) (image : Image) (fruit_mask : option Mask) :
  reaches_shape_gate self image fruit_mask ->
  shape_gate self image (mask_used image fruit_mask) ->
  let v := verify self image fruit_mask in
  verdict v = value REJECT_WRONG_SHAPE /\ accepted v = false /\ score v == 0.
Proof.
  intros (Hb & Hp & Ha & Hc & Hn) Hg. cbv zeta.
  apply shape_gate_test in Hg.
  unfold verify. cbv zeta.
  rewrite Hb, Hp.
  fold (mask_used image fruit_mask).
  unfold fruit_area in Ha. apply Z.ltb_ge in Ha. rewrite Ha.
  rewrite Hc, Hn, Hg. cbn [verdict accepted score _make_verdict].
  split; [reflexivity|]. split; [reflexivity|]. vm_compute. reflexivity.
Qed.

(** What the gate reads for a contour of circularity 1 and aspect ratio 1. *)
Lemma gate_reads_perfect_circle (self : TalisayGuard) (m : Mask) (c : Contour) :
  largest m = Some c -> circularity_of c == 1 -> aspect_of 1.0 c == 1 ->
  0.90 < gate_circularity self m /\ gate_aspect self m < 1.08.
Proof.
  intros Hl Hc Ha. unfold gate_circularity, gate_aspect, _check_talisay_shape.
  rewrite Hl. cbv zeta.
  destruct (_talisay_aspect_range self) as [ar_min ar_max].
  destruct (_talisay_circularity_range self) as [c_min c_max].
  destruct (Qltb (area c) 300 || Qeq_bool (perimeter c) 0).
  - cbn. split; reflexivity.
  - cbn [circularity aspect_ratio default from_option]. unfold id.
    assert (H1 : round 1 3 == 1) by (vm_compute; reflexivity).
    rewrite (round_comp _ _ 3 Hc), (round_comp _ _ 3 Ha), H1. lra.
Qed.

(** C2, the claim as stated, fails, in two ways.  In [Samples.small_disc]
    the mask covers 11.1% of the photo and its contour has circularity above
    0.90 and aspect ratio below 1.08, but the mask has fewer than 500
    pixels, so [verify] returns REJECT_GENERIC before the shape gate is
    reached.  In [Samples.near_disc_photo] the mask covers 11.25% of the
    photo and its contour has circularity 0.9004 and aspect ratio 1; the
    shape layer reports the circularity rounded to 0.900, which is not above
    0.90, so the gate does not fire, and the photo is accepted. *)
Lemma C2_counterexample :
  (let image := Samples.small_disc in
   let m := mask_used image None in
   mask_coverage image m < 0.12 /\
   (exists c, largest m = Some c /\ 0.90 < circularity_of c /\ aspect_of 1.0 c < 1.08) /\
   verdict (verify (init true) image None) = value REJECT_GENERIC /\
   verdict (verify (init true) image None) <> value REJECT_WRONG_SHAPE) /\
  (let image := Samples.near_disc_photo in
   let m := mask_used image None in
   reaches_shape_gate (init true) image None /\
   mask_coverage image m < 0.12 /\
   (exists c, largest m = Some c /\ 0.90 < circularity_of c /\ aspect_of 1.0 c < 1.08) /\
   gate_circularity (init true) m == 0.90 /\
   verdict (verify (init true) image None) = value ACCEPT /\
   verdict (verify (init true) image None) <> value REJECT_WRONG_SHAPE).
Proof.
  cbv zeta. split.
  - split; [compute_closed|]. split.
    + eexists. split; [reflexivity|]. compute_closed.
    + compute_closed.
  - split; [unfold reaches_shape_gate; compute_closed|].
    split; [compute_closed|]. split.
    + eexists. split; [reflexivity|]. compute_closed.
    + compute_closed.
Qed.

(** C2 (amended): for every image that reaches the shape gate (no earlier
    layer rejected it and the mask has at least 500 pixels), whose mask
    covers less than 12% of the image and for which the shape layer reports
    a circularity above 0.90 and an aspect ratio below 1.08 (both rounded to
    three decimals, and 1.0 when the layer found no usable contour),
    [verify] returns REJECT_WRONG_SHAPE with score 0, whatever the colour,
    texture and composite scores; in particular this holds when the mask's
    largest contour is a perfect circle (circularity 1, aspect ratio 1). *)
Theorem C2_shape_gate (self : TalisayGuard) (image : Image) (fruit_mask : option Mask) :
  let m := mask_used image fruit_mask in
  let v := verify self image fruit_mask in
  (reaches_shape_gate self image fruit_mask ->
   mask_coverage image m < 0.12 ->
   0.90 < gate_circularity self m -> gate_aspect self m < 1.08 ->
   verdict v = value REJECT_WRONG_SHAPE /\ accepted v = false /\ score v == 0) /\
  (reaches_shape_gate self image fruit_mask ->
   mask_coverage image m < 0.12 ->
   forall c, largest m = Some c -> circularity_of c == 1 -> aspect_of 1.0 c == 1 ->
   verdict v = value REJECT_WRONG_SHAPE /\ accepted v = false /\ score v == 0).
Proof.
  cbv zeta. split.
  - intros H Hcov Hc Ha. apply verify_shape_gate; [exact H|].
    unfold shape_gate. auto.
  - intros H Hcov c Hl Hc Ha. apply verify_shape_gate; [exact H|].
    destruct (gate_reads_perfect_circle self _ c Hl Hc Ha) as [H1 H2].
    unfold shape_gate. auto.
Qed.

(** C2 at two 80 x 80 photos of a round object covering 11.1% of the photo:
    a disc of circularity 0.954 and aspect ratio 1.007, and a perfect
    circle. *)
Lemma C2_witness :
  (reaches_shape_gate (init true) Samples.disc_photo None /\
   mask_coverage Samples.disc_photo (mask_used Samples.disc_photo None) < 0.12 /\
   0.90 < gate_circularity (init true) (mask_used Samples.disc_photo None) /\
   gate_aspect (init true) (mask_used Samples.disc_photo None) < 1.08 /\
   verdict (verify (init true) Samples.disc_photo None) = value REJECT_WRONG_SHAPE) /\
  (reaches_shape_gate (init true) Samples.circle_photo None /\
   mask_coverage Samples.circle_photo (mask_used Samples.circle_photo None) < 0.12 /\
   circularity_of Samples.perfect_circle == 1 /\
   aspect_of 1.0 Samples.perfect_circle == 1 /\
   verdict (verify (init true) Samples.circle_photo None) = value REJECT_WRONG_SHAPE).
Proof.
  split.
  - assert (H : reaches_shape_gate (init true) Samples.disc_photo None).
    { unfold reaches_shape_gate. compute_closed. }
    assert (Hcov : mask_coverage Samples.disc_photo (mask_used Samples.disc_photo None) < 0.12)
      by compute_closed.
    assert (Hc : 0.90 < gate_circularity (init true) (mask_used Samples.disc_photo None))
      by compute_closed.
    assert (Ha : gate_aspect (init true) (mask_used Samples.disc_photo None) < 1.08)
      by compute_closed.
    split; [exact H|]. split; [exact Hcov|]. split; [exact Hc|]. split; [exact Ha|].
    pose proof (C2_shape_gate (init true) Samples.disc_photo None) as Hthm.
    cbv zeta in Hthm. destruct Hthm as [Hthm _].
    exact (proj1 (Hthm H Hcov Hc Ha)).
  - assert (H : reaches_shape_gate (init true) Samples.circle_photo None).
    { unfold reaches_shape_gate. compute_closed. }
    assert (Hcov : mask_coverage Samples.circle_photo (mask_used Samples.circle_photo None) < 0.12)
      by compute_closed.
    assert (Hc : circularity_of Samples.perfect_circle == 1) by compute_closed.
    assert (Ha : aspect_of 1.0 Samples.perfect_circle == 1) by compute_closed.
    split; [exact H|]. split; [exact Hcov|]. split; [exact Hc|]. split; [exact Ha|].
    pose proof (C2_shape_gate (init true) Samples.circle_photo None) as Hthm.
    cbv zeta in Hthm. destruct Hthm as [_ Hthm].
    exact (proj1 (Hthm H Hcov Samples.perfect_circle eq_refl Hc Ha)).
Defined.

(** ** Ranges of the layer scores *)

Lemma count_nonneg {A : Type} (f : A -> bool) (l : list A) : (0 <= count f l)%Z.
Proof. unfold count. lia. Qed.

Lemma fdiv_nonneg (a b : Z) : (0 <= a)%Z -> (0 < b)%Z -> 0 <= fdiv a b.
Proof.
  intros Ha Hb. unfold fdiv.
  apply Qle_shift_div_l.
  - change 0 with (inject_Z 0). rewrite <- Zlt_Qlt. exact Hb.
  - rewrite Qmult_0_l. change 0 with (inject_Z 0). rewrite <- Zle_Qle. exact Ha.
Qed.

Lemma round3_unit (x : Q) : 0 <= x -> x <= 1 -> 0 <= round x 3 /\ round x 3 <= 1.
Proof.
  intros H0 H1. split.
  - apply (round_ge 0 x 3 0); [vm_compute; reflexivity | exact H0].
  - apply (round_le 1 x 3 1000); [vm_compute; reflexivity | exact H1].
Qed.

Lemma colour_score_range (px : list triple) :
  0 <= colour_score (colour_of_pixels px) /\ colour_score (colour_of_pixels px) <= 1.
Proof.
  unfold colour_of_pixels.
  destruct (Nat.ltb_spec (List.length px) 200) as [Hlt | Hge].
  - cbn. split; discriminate.
  - cbv zeta. destruct (dominant_of _ _ _) as [dominant dominant_cov].
    set (cov := fdiv (count talisay_any px) (Z.of_nat (List.length px))).
    assert (Hcov : 0 <= cov).
    { apply fdiv_nonneg; [apply count_nonneg | lia]. }
    assert (Hs : 0 <= Qmin 1.0 (cov / 0.60) /\ Qmin 1.0 (cov / 0.60) <= 1).
    { split.
      - apply Q.min_glb; [lra|]. apply Qle_shift_div_l; lra.
      - apply Qle_trans with 1.0; [apply Q.le_min_l | lra]. }
    destruct Hs as [Hs0 Hs1].
    destruct (Qltb dominant_cov 0.15); cbn [colour_score]; apply round3_unit; lra.
Qed.

Lemma shape_score_range (cascade : bool) (m : Mask) :
  0 <= shape_score (_check_talisay_shape (init cascade) m) /\
  shape_score (_check_talisay_shape (init cascade) m) <= 1.
Proof.
  unfold _check_talisay_shape.
  destruct (largest m) as [c|]; [|cbn; split; discriminate].
  destruct (Qltb (area c) 300 || Qeq_bool (perimeter c) 0);
    [cbn; split; discriminate|].
  cbn [init _talisay_aspect_range _talisay_circularity_range _talisay_solidity_range fst].
  cbv zeta. cbn [shape_score].
  set (aspect := aspect_of 1.0 c). set (circ := circularity_of c).
  set (sol := if Qltb 0 (hull_area c) then area c / hull_area c else 0).
  assert (Hmid : (1.25 + 2.40) / 2 == 1.825) by reflexivity.
  assert (Hhalf : (2.40 - 1.25) / 2 == 0.575) by reflexivity.
  apply round3_unit.
  - cmp_cases; cbn [andb]; try lra.
    all: rewrite Hmid, Hhalf.
    all: assert (Hab : Qabs (aspect - 1.825) / 0.575 <= 1)
           by (apply Qle_shift_div_r; [lra | apply Qabs_Qle_condition; lra]).
    all: lra.
  - cmp_cases; cbn [andb]; try lra.
    all: rewrite Hmid, Hhalf.
    all: assert (Hab : 0 <= Qabs (aspect - 1.825) / 0.575)
           by (apply Qle_shift_div_l; [lra | rewrite Qmult_0_l; apply Qabs_nonneg]).
    all: lra.
Qed.

Lemma texture_score_range (self : TalisayGuard) (image : Image) (m : Mask) :
  0 <= texture_score (_check_talisay_texture self image m) /\
  texture_score (_check_talisay_texture self image m) <= 1.
Proof.
  unfold _check_talisay_texture. cbv zeta.
  destruct (List.length _ <? 200)%nat; [cbn; split; discriminate|].
  cbn [texture_score].
  set (v := var (map (fun p => inject_Z (gray p)) _)).
  set (lsv := fdiv _ _). set (hv := var (map (fun p => inject_Z (hue p)) _)).
  set (lv := if (0 <? _)%nat then _ else _).
  apply round3_unit; cmp_cases; cbn [andb]; lra.
Qed.

(** ** The verdict record *)

Lemma members_complete (k : GuardVerdict) : In k members.
Proof. destruct k; cbn; tauto. Qed.

Lemma members_nodup : List.NoDup members.
Proof.
  unfold members.
  repeat (apply List.NoDup_cons; [cbn; intuition discriminate|]).
  apply List.NoDup_nil.
Qed.

Lemma value_inj (j k : GuardVerdict) : value j = value k -> j = k.
Proof. destruct j, k; cbn; intro H; first [reflexivity | discriminate H]. Qed.

(** C9, the claim as stated, fails: the enumeration has ten kinds, so no
    duplicate-free listing of all verdict kinds has thirteen entries. *)
Lemma C9_counterexample :
  ~ exists l : list GuardVerdict,
      List.NoDup l /\ (forall k, In k l) /\ List.length l = 13%nat.
Proof.
  intros (l & Hnd & Hall & Hlen).
  assert (Hle : (List.length l <= List.length members)%nat).
  { apply List.NoDup_incl_length; [exact Hnd|]. intros k _. apply members_complete. }
  rewrite Hlen in Hle. cbn in Hle. lia.
Qed.

(** Every return of [verify] goes through [_make_verdict] with the accepted
    flag set exactly for ACCEPT, and with score 0 or the composite. *)
Lemma verify_shape (self : TalisayGuard) (image : Image) (fruit_mask : option Mask) :
  let m := mask_used image fruit_mask in
  let composite :=
    colour_score (_check_talisay_colour self image m) * 0.45 +
    shape_score (_check_talisay_shape self m) * 0.30 +
    texture_score (_check_talisay_texture self image m) * 0.25 in
  let v := verify self image fruit_mask in
  exists k,
    verdict v = value k /\
    accepted v = (if k is ACCEPT then true else false) /\
    (score v = round 0.0 3 \/ score v = round composite 3).
Proof.
  cbv zeta. unfold verify. cbv zeta. fold (mask_used image fruit_mask).
  repeat match goal with
  | |- context [if ?b then _make_verdict _ _ _ _ _ else _] => destruct b
  end;
  eexists; cbn [verdict accepted score _make_verdict];
  (split; [reflexivity | split; [reflexivity | auto]]).
Qed.

(** C9 (amended): every verdict returned by [verify] has its kind drawn from
    the closed enumeration [GuardVerdict], which has exactly ten kinds; its
    accepted flag is true exactly when the kind is ACCEPT; and its score
    lies in [0, 1]. *)
Theorem C9_verdict_wellformed (cascade : bool) (image : Image)
    (fruit_mask : option Mask) :
  let v := verify (init cascade) image fruit_mask in
  (exists k, In k members /\ verdict v = value k) /\
  (accepted v = true <-> verdict v = value ACCEPT) /\
  (0 <= score v /\ score v <= 1) /\
  List.length members = 10%nat /\ List.NoDup members /\
  (forall k : GuardVerdict, In k members).
Proof.
  cbv zeta.
  destruct (verify_shape (init cascade) image fruit_mask) as (k & Hk & Ha & Hs).
  cbv zeta in Hs.
  split; [|split; [|split; [|split; [|split]]]].
  - exists k. split; [apply members_complete | exact Hk].
  - rewrite Hk, Ha. split.
    + destruct k; first [reflexivity | discriminate].
    + intro H. apply value_inj in H. subst k. reflexivity.
  - destruct Hs as [Hs | Hs]; rewrite Hs.
    + split; vm_compute; discriminate.
    + pose proof (colour_score_range
                    (map hsv (masked (pixels image)
                                     (bits (mask_used image fruit_mask))))) as [Hc0 Hc1].
      fold (_check_talisay_colour (init cascade) image (mask_used image fruit_mask))
        in Hc0, Hc1.
      pose proof (shape_score_range cascade (mask_used image fruit_mask)) as [Hs0 Hs1].
      pose proof (texture_score_range (init cascade) image (mask_used image fruit_mask))
        as [Ht0 Ht1].
      apply round3_unit; lra.
  - reflexivity.
  - apply members_nodup.
  - apply members_complete.
Qed.

(** ** The colour layer *)

Lemma count_mono {A : Type} (f g : A -> bool) (R : A -> A -> Prop) (l1 l2 : list A) :
  (forall p q, R p q -> f p = true -> g q = true) ->
  List.Forall2 R l1 l2 -> (count f l1 <= count g l2)%Z.
Proof.
  intros HR H. unfold count. induction H as [| p q l1 l2 Hpq _ IH]; [cbn; lia|].
  cbn [List.filter]. destruct (f p) eqn:Ef.
  - rewrite (HR p q Hpq Ef). cbn [List.length]. lia.
  - destruct (g q); cbn [List.length]; lia.
Qed.

Lemma count_eq {A : Type} (f : A -> bool) (R : A -> A -> Prop) (l1 l2 : list A) :
  (forall p q, R p q -> f q = f p) ->
  List.Forall2 R l1 l2 -> count f l2 = count f l1.
Proof.
  intros HR H. unfold count. induction H as [| p q l1 l2 Hpq _ IH]; [reflexivity|].
  cbn [List.filter]. rewrite (HR p q Hpq).
  destruct (f p); cbn [List.length]; lia.
Qed.

Lemma fdiv_mono (a b c : Z) : (a <= b)%Z -> (0 < c)%Z -> fdiv a c <= fdiv b c.
Proof.
  intros Hab Hc. unfold fdiv. apply Qmult_le_compat_r.
  - rewrite <- Zle_Qle. exact Hab.
  - apply Qlt_le_weak, Qinv_lt_0_compat.
    change 0 with (inject_Z 0). rewrite <- Zlt_Qlt. exact Hc.
Qed.

Lemma dominant_of_max (g y b : Q) :
  snd (dominant_of g y b) == Qmax g (Qmax y b).
Proof.
  unfold dominant_of. cbv zeta. cbn [snd].
  destruct (Qltb g y) eqn:E1; cbn [snd].
  - apply Qltb_true in E1. destruct (Qltb y b) eqn:E2; cbn [snd].
    + apply Qltb_true in E2. rewrite (Q.max_r y b), (Q.max_r g b); [reflexivity | lra | lra].
    + apply Qltb_false in E2. rewrite (Q.max_l y b), (Q.max_r g y); [reflexivity | lra | lra].
  - apply Qltb_false in E1. destruct (Qltb g b) eqn:E2; cbn [snd].
    + apply Qltb_true in E2. rewrite (Q.max_r y b), (Q.max_r g b); [reflexivity | lra | lra].
    + apply Qltb_false in E2. rewrite (Q.max_l g (Qmax y b)); [reflexivity|].
      apply Q.max_lub; lra.
Qed.

(** The colour layer on at least 200 pixels, in terms of the coverages. *)
Lemma colour_of_pixels_large (px : list triple) :
  (200 <= List.length px)%nat ->
  colour_score (colour_of_pixels px) == round (raw_colour_score px) 3 /\
  (colour_passes (colour_of_pixels px) = true <->
   0.30 <= cov talisay_any px /\ 0.15 <= dominant_cov px).
Proof.
  intro Hlen. unfold colour_of_pixels, raw_colour_score, dominant_cov.
  destruct (Nat.ltb_spec (List.length px) 200) as [Hlt | _]; [lia|].
  cbv zeta.
  pose proof (dominant_of_max (cov green_match px) (cov yellow_match px)
                              (cov brown_match px)) as Hd.
  fold (cov green_match px) (cov yellow_match px) (cov brown_match px)
       (cov talisay_any px).
  destruct (dominant_of _ _ _) as [dominant dcov]. cbn [snd] in Hd.
  set (mx := Qmax _ _) in *.
  unfold MIN_TALISAY_COLOUR_COV.
  destruct (Qltb dcov 0.15) eqn:E1; destruct (Qltb mx 0.15) eqn:E2;
    try apply Qltb_true in E1; try apply Qltb_false in E1;
    try apply Qltb_true in E2; try apply Qltb_false in E2;
    try (exfalso; lra); cbn [colour_score colour_passes].
  - split; [reflexivity|]. split; [discriminate | lra].
  - split; [reflexivity|].
    rewrite Qleb_true. split; [intro; split; lra | tauto].
Qed.

Lemma colour_of_pixels_small (px : list triple) :
  (List.length px < 200)%nat ->
  colour_score (colour_of_pixels px) == 0 /\
  colour_passes (colour_of_pixels px) = false.
Proof.
  intro Hlen. unfold colour_of_pixels.
  destruct (Nat.ltb_spec (List.length px) 200) as [_ | Hge]; [|lia].
  cbn. split; reflexivity.
Qed.

Lemma raw_colour_score_mono (px1 px2 : list triple) :
  (0 < List.length px1)%nat ->
  List.Forall2 green_upgrade px1 px2 ->
  raw_colour_score px1 <= raw_colour_score px2.
Proof.
  intros Hpos H.
  assert (Hlen : List.length px2 = List.length px1)
    by (symmetry; exact (List.Forall2_length H)).
  assert (Hg : cov green_match px1 <= cov green_match px2).
  { unfold cov. rewrite Hlen. apply fdiv_mono; [|lia].
    apply (count_mono _ _ green_upgrade); [|exact H]. intros p q (Hgq & _) Hp. auto. }
  assert (Hy : cov yellow_match px2 = cov yellow_match px1).
  { unfold cov. rewrite Hlen. f_equal.
    apply (count_eq _ green_upgrade); [|exact H]. intros p q (_ & Hyq & _). exact Hyq. }
  assert (Hb : cov brown_match px2 = cov brown_match px1).
  { unfold cov. rewrite Hlen. f_equal.
    apply (count_eq _ green_upgrade); [|exact H]. intros p q (_ & _ & Hbq). exact Hbq. }
  assert (Ht : cov talisay_any px1 <= cov talisay_any px2).
  { unfold cov. rewrite Hlen. apply fdiv_mono; [|lia].
    apply (count_mono _ _ green_upgrade); [|exact H].
    intros p q (Hgq & Hyq & Hbq). unfold talisay_any. rewrite Hyq, Hbq.
    destruct (green_match p); [rewrite (Hgq eq_refl); reflexivity|].
    destruct (green_match q); [reflexivity | exact (fun Hyb => Hyb)]. }
  assert (Ht0 : 0 <= cov talisay_any px1).
  { unfold cov. apply fdiv_nonneg; [apply count_nonneg | lia]. }
  assert (Hd : dominant_cov px1 <= dominant_cov px2).
  { unfold dominant_cov. rewrite Hy, Hb. apply Q.max_le_compat_r. exact Hg. }
  assert (Hs : Qmin 1.0 (cov talisay_any px1 / 0.60) <=
               Qmin 1.0 (cov talisay_any px2 / 0.60)).
  { apply Q.min_le_compat_l. apply Qmult_le_compat_r; [exact Ht | discriminate]. }
  assert (Hs0 : 0 <= Qmin 1.0 (cov talisay_any px1 / 0.60)).
  { apply Q.min_glb; [lra|]. apply Qle_shift_div_l; lra. }
  unfold raw_colour_score. cbv zeta. cmp_cases; lra.
Qed.

Lemma zero_grid : exists k : Z, 0.0 == inject_Z k / 1000.
Proof. exists 0%Z. reflexivity. Qed.

(** The colour score is a number of thousandths. *)
Lemma colour_score_grid (px : list triple) :
  exists k : Z, colour_score (colour_of_pixels px) == inject_Z k / 1000.
Proof.
  unfold colour_of_pixels.
  destruct (List.length px <? 200)%nat; [exact zero_grid|].
  cbv zeta. destruct (dominant_of _ _ _) as [dominant dominant_cov].
  destruct (Qltb dominant_cov 0.15); cbn [colour_score]; apply round3_grid.
Qed.

(** On at least 200 pixels it is at most half a thousandth away from the
    score before rounding. *)
Lemma colour_score_close (px : list triple) :
  (200 <= List.length px)%nat ->
  Qabs (colour_score (colour_of_pixels px) - raw_colour_score px) <= 0.0005.
Proof.
  intro Hlen. destruct (colour_of_pixels_large px Hlen) as [Hs _].
  rewrite Hs. apply round3_close.
Qed.

(** C10, the claim as stated, fails on two counts.  On 600 masked pixels of
    which 200 are Talisay green the score is 0.556, the three-decimal
    rounding of min(1, (1/3) / 0.60) = 5/9, not 5/9 itself.  On 100 masked
    pixels, all Talisay green, total and dominant coverage are 100%, yet the
    layer does not pass and scores 0, because fewer than 200 pixels are
    never scored. *)
Lemma C10_counterexample :
  let green := (45, 102, 150)%Z in
  let white := (0, 0, 235)%Z in
  let px1 := repeat green 200 ++ repeat white 400 in
  let px2 := repeat green 100 in
  ~ colour_score (colour_of_pixels px1) == raw_colour_score px1 /\
  0.30 <= cov talisay_any px2 /\ 0.15 <= dominant_cov px2 /\
  colour_passes (colour_of_pixels px2) = false /\
  ~ colour_score (colour_of_pixels px2) == raw_colour_score px2.
Proof. cbv zeta. compute_closed. Qed.

(** C10 (amended): the colour-layer score is monotone in Talisay-green
    coverage: if a second masked pixel set differs from the first only in
    that some pixels gained membership in the green band (yellow and brown
    memberships unchanged), its score is at least the first's.  On at least
    200 masked pixels the score is a number of thousandths at most 0.0005
    away from min(1, total coverage / 0.60), halved when the dominant band's
    coverage is below 15% (the nearest thousandth; when that value is
    exactly halfway between two thousandths, as 0.5625 for 81 green pixels
    of 240, binary64 evaluation decides which of the two is stored), and the
    layer passes exactly when total coverage is at least 30% and the
    dominant band at least 15%; on fewer than 200 pixels the score is 0 and
    the layer does not pass. *)
Theorem C10_colour_layer :
  (forall px1 px2 : list triple,
     List.Forall2 green_upgrade px1 px2 ->
     colour_score (colour_of_pixels px1) <= colour_score (colour_of_pixels px2)) /\
  (forall px : list triple,
     (200 <= List.length px)%nat ->
     ((exists k : Z, colour_score (colour_of_pixels px) == inject_Z k / 1000) /\
      Qabs (colour_score (colour_of_pixels px) - raw_colour_score px) <= 0.0005) /\
     (colour_passes (colour_of_pixels px) = true <->
      0.30 <= cov talisay_any px /\ 0.15 <= dominant_cov px)) /\
  (forall px : list triple,
     (List.length px < 200)%nat ->
     colour_score (colour_of_pixels px) == 0 /\
     colour_passes (colour_of_pixels px) = false) /\
  (forall (self : TalisayGuard) (image : Image) (mask : Mask),
     _check_talisay_colour self image mask =
     colour_of_pixels (map hsv (masked (pixels image) (bits mask)))).
Proof.
  split; [|split; [|split]].
  - intros px1 px2 H.
    pose proof (List.Forall2_length H) as Hlen.
    destruct (Nat.lt_ge_cases (List.length px1) 200) as [Hlt | Hge].
    + destruct (colour_of_pixels_small px1 Hlt) as [-> _].
      destruct (colour_of_pixels_small px2) as [-> _]; [lia | apply Qle_refl].
    + destruct (colour_of_pixels_large px1 Hge) as [-> _].
      destruct (colour_of_pixels_large px2) as [-> _]; [lia|].
      apply round_mono, raw_colour_score_mono; [lia | exact H].
  - intros px Hlen. split.
    + split; [apply colour_score_grid | apply colour_score_close, Hlen].
    + exact (proj2 (colour_of_pixels_large px Hlen)).
  - exact colour_of_pixels_small.
  - reflexivity.
Qed.

Lemma Forall2_repeat {A : Type} (R : A -> A -> Prop) (a b : A) (n : nat) :
  R a b -> List.Forall2 R (repeat a n) (repeat b n).
Proof. intro H. induction n; cbn; constructor; assumption. Qed.

(** C10 at 600 masked pixels: turning 100 white pixels green raises the
    score from 0.556 to 0.833. *)
Lemma C10_witness :
  let green := (45, 102, 150)%Z in
  let white := (0, 0, 235)%Z in
  let px1 := repeat green 200 ++ repeat white 100 ++ repeat white 300 in
  let px2 := repeat green 200 ++ repeat green 100 ++ repeat white 300 in
  List.Forall2 green_upgrade px1 px2 /\
  colour_score (colour_of_pixels px1) == 0.556 /\
  colour_score (colour_of_pixels px2) == 0.833 /\
  colour_score (colour_of_pixels px1) <= colour_score (colour_of_pixels px2).
Proof.
  cbv zeta.
  assert (H : List.Forall2 green_upgrade
                (repeat (45, 102, 150)%Z 200 ++ repeat (0, 0, 235)%Z 100 ++
                 repeat (0, 0, 235)%Z 300)
                (repeat (45, 102, 150)%Z 200 ++ repeat (45, 102, 150)%Z 100 ++
                 repeat (0, 0, 235)%Z 300)).
  { apply List.Forall2_app; [|apply List.Forall2_app];
      apply Forall2_repeat; unfold green_upgrade; cbn; repeat split; auto. }
  split; [exact H|]. split; [vm_compute; reflexivity|].
  split; [vm_compute; reflexivity|].
  exact (proj1 C10_colour_layer _ _ H).
Defined.

(** ** The early exits of the cascade *)

Lemma round_zero : round 0.0 3 == 0.
Proof. vm_compute. reflexivity. Qed.

(** One exit of the cascade: the verdict's fields are read off, and the
    characterisation of each verdict is settled from the case at hand. *)
Ltac exit_case :=
  cbn [verdict accepted score _make_verdict value];
  repeat match goal with
  | |- _ /\ _ => split
  | |- _ <-> _ => split
  end;
  try (intros _; split; [reflexivity | exact round_zero]);
  try (let H := fresh in
       intro H;
       repeat match goal with
       | H' : _ /\ _ |- _ => destruct H'
       | H' : _ \/ _ |- _ => destruct H'
       end;
       first [ reflexivity | assumption | lia
             | match goal with H' : _ = _ |- _ => discriminate H' end
             | repeat split; first [reflexivity | assumption | lia] ]).

(** Each of the five early verdicts of [verify] is returned exactly when
    its layer is the first to object: REJECT_BLANK when the blank layer
    fires; REJECT_PERSON when it does not and the person layer fires;
    REJECT_GENERIC when neither fires and the mask has fewer than 500
    pixels; REJECT_CAPSICUM and REJECT_NON_TALISAY_FRUIT when the mask is
    large enough and the capsicum layer, respectively the non-Talisay
    colour layer after it, fires.  Every such verdict is a rejection with
    score 0. *)
Lemma early_exit_verdicts (self : TalisayGuard) (image : Image)
    (fruit_mask : option Mask) :
  let v := verify self image fruit_mask in
  let m := mask_used image fruit_mask in
  let blank := is_blank (_check_blank_image image) in
  let person := is_person (_check_person self image) in
  let capsicum := is_capsicum (_check_capsicum self image m) in
  let other := is_non_talisay (_check_non_talisay_colours self image m) in
  (verdict v = value REJECT_BLANK <-> blank = true) /\
  (verdict v = value REJECT_PERSON <-> blank = false /\ person = true) /\
  (verdict v = value REJECT_GENERIC <->
   blank = false /\ person = false /\ (fruit_area m < 500)%Z) /\
  (verdict v = value REJECT_CAPSICUM <->
   blank = false /\ person = false /\ (500 <= fruit_area m)%Z /\ capsicum = true) /\
  (verdict v = value REJECT_NON_TALISAY_FRUIT <->
   blank = false /\ person = false /\ (500 <= fruit_area m)%Z /\ capsicum = false /\
   other = true) /\
  (blank = true \/ person = true \/ (fruit_area m < 500)%Z \/ capsicum = true \/
   other = true -> accepted v = false /\ score v == 0).
Proof.
  cbv zeta. unfold verify, fruit_area. cbv zeta. fold (mask_used image fruit_mask).
  destruct (is_blank (_check_blank_image image)) eqn:Hb; [exit_case|].
  destruct (is_person (_check_person self image)) eqn:Hp; [exit_case|].
  destruct (Z.ltb_spec (count (fun b : bool => b) (bits (mask_used image fruit_mask))) 500)
    as [Ha | Ha]; [exit_case|].
  destruct (is_capsicum _) eqn:Hc; [exit_case|].
  destruct (is_non_talisay _) eqn:Hn; [exit_case|].
  repeat match goal with
  | |- context [if ?b then _make_verdict _ _ _ _ _ else _] => destruct b
  end; exit_case.
Qed.

(** [verify] never returns REJECT_WRONG_TEXTURE: a failed texture layer
    only lowers the composite and the count of positive layers. *)
Lemma wrong_texture_never_returned (self : TalisayGuard) (image : Image)
    (fruit_mask : option Mask) :
  verdict (verify self image fruit_mask) <> value REJECT_WRONG_TEXTURE.
Proof.
  unfold verify. cbv zeta.
  repeat match goal with
  | |- context [if ?b then _make_verdict _ _ _ _ _ else _] => destruct b
  end; cbn [verdict _make_verdict value]; discriminate.
Qed.

(** The [layers] of a verdict hold the results of the layers that ran, in
    cascade order: the first [k] of the seven, where [k] is never 5 (the
    colour layer's result is only stored together with the shape layer's)
    and is 7 for an accepted image; each stored result is the one its
    layer computes on the image and the mask in use. *)
Lemma layers_recorded_in_order (self : TalisayGuard) (image : Image)
    (fruit_mask : option Mask) :
  let v := verify self image fruit_mask in
  let m := mask_used image fruit_mask in
  let L := layers v in
  (exists k : nat,
     (1 <= k <= 7)%nat /\ k <> 5%nat /\
     layers_run L = repeat true k ++ repeat false (7 - k) /\
     (accepted v = true -> k = 7%nat)) /\
  (forall r, blank L = Some r -> r = _check_blank_image image) /\
  (forall r, person L = Some r -> r = _check_person self image) /\
  (forall r, capsicum L = Some r -> r = _check_capsicum self image m) /\
  (forall r, non_talisay_colour L = Some r ->
             r = _check_non_talisay_colours self image m) /\
  (forall r, talisay_colour L = Some r -> r = _check_talisay_colour self image m) /\
  (forall r, talisay_shape L = Some r -> r = _check_talisay_shape self m) /\
  (forall r, talisay_texture L = Some r -> r = _check_talisay_texture self image m).
Proof.
  cbv zeta. unfold verify. cbv zeta. fold (mask_used image fruit_mask).
  repeat match goal with
  | |- context [if ?b then _make_verdict _ _ _ _ _ else _] => destruct b
  end;
  cbn [layers accepted _make_verdict blank person capsicum non_talisay_colour
       talisay_colour talisay_shape talisay_texture];
  (split;
   [ first [ exists 1%nat; split; [lia|]; split; [lia|]; split; [reflexivity | discriminate]
           | exists 2%nat; split; [lia|]; split; [lia|]; split; [reflexivity | discriminate]
           | exists 3%nat; split; [lia|]; split; [lia|]; split; [reflexivity | discriminate]
           | exists 4%nat; split; [lia|]; split; [lia|]; split; [reflexivity | discriminate]
           | exists 6%nat; split; [lia|]; split; [lia|]; split; [reflexivity | discriminate]
           | exists 7%nat; split; [lia|]; split; [lia|]; split; reflexivity ]
   | repeat split; intros r Hr; first [discriminate Hr | injection Hr as <-; reflexivity] ]).
Qed.

(** ** Three passing layers *)

Lemma half_scaled : 0.5 * pow10 3 == inject_Z 500.
Proof. vm_compute. reflexivity. Qed.

(** A positive layer that passes scores at least one half. *)
Lemma colour_pass_score (px : list triple) :
  colour_passes (colour_of_pixels px) = true -> 0.5 <= colour_score (colour_of_pixels px).
Proof.
  intro Hp.
  destruct (Nat.lt_ge_cases (List.length px) 200) as [Hlt | Hge].
  - destruct (colour_of_pixels_small px Hlt) as [_ Hf]. congruence.
  - destruct (colour_of_pixels_large px Hge) as [Hs Hiff].
    apply Hiff in Hp. destruct Hp as [Ht Hd]. rewrite Hs.
    apply (round_ge 0.5 _ 3 500 half_scaled).
    unfold raw_colour_score. cbv zeta.
    assert (Hq : 0.5 <= cov talisay_any px / 0.60).
    { apply Qle_shift_div_l; lra. }
    destruct (Qltb (dominant_cov px) 0.15) eqn:E.
    + apply Qltb_true in E. lra.
    + apply Q.min_glb; lra.
Qed.

Lemma shape_pass_score (self : TalisayGuard) (m : Mask) :
  shape_passes (_check_talisay_shape self m) = true ->
  0.5 <= shape_score (_check_talisay_shape self m).
Proof.
  unfold _check_talisay_shape.
  destruct (largest m) as [c|]; [|cbn; discriminate].
  destruct (Qltb (area c) 300 || Qeq_bool (perimeter c) 0); [cbn; discriminate|].
  cbv zeta.
  destruct (_talisay_aspect_range self) as [ar_min ar_max].
  destruct (_talisay_circularity_range self) as [c_min c_max].
  cbn [shape_passes shape_score].
  rewrite !andb_true_iff. intros [[[H _] _] _]. apply Qleb_true in H.
  apply (round_ge 0.5 _ 3 500 half_scaled). lra.
Qed.

Lemma texture_pass_score (self : TalisayGuard) (image : Image) (m : Mask) :
  texture_passes (_check_talisay_texture self image m) = true ->
  0.5 <= texture_score (_check_talisay_texture self image m).
Proof.
  unfold _check_talisay_texture. cbv zeta.
  destruct (List.length _ <? 200)%nat; [cbn; discriminate|].
  cbn [texture_passes texture_score].
  intro H. apply Qleb_true in H.
  apply (round_ge 0.5 _ 3 500 half_scaled). lra.
Qed.

(** An image that reaches the composite decision with the colour, shape
    and texture layers all passing is accepted, with a score of at least
    0.5: each passing layer scores at least one half, so neither the 0.35
    floor nor the skin-sensitivity veto can apply. *)
Lemma three_layers_accept (self : TalisayGuard) (image : Image)
    (fruit_mask : option Mask) :
  reaches_composite self image fruit_mask ->
  let m := mask_used image fruit_mask in
  colour_passes (_check_talisay_colour self image m) = true ->
  shape_passes (_check_talisay_shape self m) = true ->
  texture_passes (_check_talisay_texture self image m) = true ->
  let v := verify self image fruit_mask in
  accepted v = true /\ verdict v = value ACCEPT /\ 0.5 <= score v.
Proof.
  intros H. cbv zeta. intros Hc Hs Ht.
  pose proof (verify_accept_iff self image fruit_mask H) as Hthm.
  cbv zeta in Hthm. destruct Hthm as (Hscore & Hiff & Hacc & _).
  pose proof (colour_pass_score _ Hc) as Hc5.
  fold (_check_talisay_colour self image (mask_used image fruit_mask)) in Hc5.
  pose proof (shape_pass_score _ _ Hs) as Hs5.
  pose proof (texture_pass_score _ _ _ Ht) as Ht5.
  rewrite Hc, Hs, Ht in Hiff.
  assert (Hv : verdict (verify self image fruit_mask) = value ACCEPT).
  { apply Hiff. split; [left; cbn; lia|]. split; [lra|].
    unfold skin_veto. intros (_ & Hlt & _). cbn in Hlt. lia. }
  split; [apply Hacc; exact Hv|]. split; [exact Hv|].
  rewrite Hscore. apply (round_ge 0.5 _ 3 500 half_scaled). lra.
Qed.

(** At [Samples.fruit_photo] the three layers pass and the photo is
    accepted. *)
Lemma three_layers_accept_witness :
  let g := init true in
  let image := Samples.fruit_photo in
  let m := mask_used image None in
  reaches_composite g image None /\
  colour_passes (_check_talisay_colour g image m) = true /\
  shape_passes (_check_talisay_shape g m) = true /\
  texture_passes (_check_talisay_texture g image m) = true /\
  accepted (verify g image None) = true.
Proof.
  cbv zeta.
  assert (H : reaches_composite (init true) Samples.fruit_photo None).
  { unfold reaches_composite, reaches_shape_gate, shape_gate. compute_closed. }
  assert (Hc : colour_passes (_check_talisay_colour (init true) Samples.fruit_photo
                                (mask_used Samples.fruit_photo None)) = true)
    by (vm_compute; reflexivity).
  assert (Hs : shape_passes (_check_talisay_shape (init true)
                               (mask_used Samples.fruit_photo None)) = true)
    by (vm_compute; reflexivity).
  assert (Ht : texture_passes (_check_talisay_texture (init true) Samples.fruit_photo
                                 (mask_used Samples.fruit_photo None)) = true)
    by (vm_compute; reflexivity).
  split; [exact H|]. split; [exact Hc|]. split; [exact Hs|]. split; [exact Ht|].
  exact (proj1 (three_layers_accept (init true) Samples.fruit_photo None H Hc Hs Ht)).
Defined.

(** ** The composite decision *)

Lemma shape_score_grid (self : TalisayGuard) (m : Mask) :
  exists k : Z, shape_score (_check_talisay_shape self m) == inject_Z k / 1000.
Proof.
  unfold _check_talisay_shape.
  destruct (largest m) as [c|]; [|exact zero_grid].
  destruct (Qltb (area c) 300 || Qeq_bool (perimeter c) 0); [exact zero_grid|].
  cbv zeta.
  destruct (_talisay_aspect_range self) as [ar_min ar_max].
  destruct (_talisay_circularity_range self) as [c_min c_max].
  cbn [shape_score]. apply round3_grid.
Qed.

Lemma texture_score_grid (self : TalisayGuard) (image : Image) (m : Mask) :
  exists k : Z, texture_score (_check_talisay_texture self image m) == inject_Z k / 1000.
Proof.
  unfold _check_talisay_texture. cbv zeta.
  destruct (List.length _ <? 200)%nat; [exact zero_grid|].
  cbn [texture_score]. apply round3_grid.
Qed.

(** The composite of three scores in thousandths is a multiple of 0.00005:
    it is never strictly between a multiple of 0.00005 and the double
    nearest to it. *)
Lemma composite_grid (self : TalisayGuard) (image : Image) (m : Mask) :
  exists n : Z,
    0.45 * colour_score (_check_talisay_colour self image m) +
    0.30 * shape_score (_check_talisay_shape self m) +
    0.25 * texture_score (_check_talisay_texture self image m) == inject_Z n / 20000.
Proof.
  destruct (colour_score_grid (map hsv (masked (pixels image) (bits m)))) as [a Ha].
  destruct (shape_score_grid self m) as [b Hb].
  destruct (texture_score_grid self image m) as [c Hc].
  exists (9 * a + 6 * b + 5 * c)%Z.
  unfold _check_talisay_colour. rewrite Ha, Hb, Hc.
  rewrite !inject_Z_plus, !inject_Z_mult. field.
Qed.

(** With three positive layers passed, the composite is at least one half. *)
Lemma three_passed_composite (self : TalisayGuard) (image : Image) (m : Mask) :
  let c := _check_talisay_colour self image m in
  let s := _check_talisay_shape self m in
  let t := _check_talisay_texture self image m in
  (3 <= sum_checks [colour_passes c; shape_passes s; texture_passes t])%Z ->
  0.5 <= 0.45 * colour_score c + 0.30 * shape_score s + 0.25 * texture_score t.
Proof.
  cbv zeta. rewrite sum_checks_3. intro H3.
  destruct (colour_passes _) eqn:Ec; [|destruct (shape_passes _), (texture_passes _); lia].
  destruct (shape_passes _) eqn:Es; [|destruct (texture_passes _); lia].
  destruct (texture_passes _) eqn:Et; [|lia].
  pose proof (colour_pass_score _ Ec) as Hc5.
  fold (_check_talisay_colour self image m) in Hc5.
  pose proof (shape_pass_score _ _ Es) as Hs5.
  pose proof (texture_pass_score _ _ _ Et) as Ht5.
  lra.
Qed.

(** The composite decision on each side of the tie at 0.55, shared by the
    statements below. *)
Lemma verify_accept_safe (self : TalisayGuard) (image : Image)
    (fruit_mask : option Mask) :
  reaches_composite self image fruit_mask ->
  let m := mask_used image fruit_mask in
  let c := _check_talisay_colour self image m in
  let s := _check_talisay_shape self m in
  let t := _check_talisay_texture self image m in
  let composite :=
    0.45 * colour_score c + 0.30 * shape_score s + 0.25 * texture_score t in
  let passed := sum_checks [colour_passes c; shape_passes s; texture_passes t] in
  let v := verify self image fruit_mask in
  ((exists n : Z, composite == inject_Z n / 20000) /\
   (exists k : Z, score v == inject_Z k / 1000) /\
   Qabs (score v - composite) <= 0.0005) /\
  (verdict v = value ACCEPT ->
   ((3 <= passed)%Z \/ ((2 <= passed)%Z /\ 0.55 <= composite)) /\
   0.35 <= composite /\ ~ skin_veto self image passed) /\
  ((3 <= passed)%Z \/ ((2 <= passed)%Z /\ 0.55 < composite) ->
   ~ skin_veto self image passed -> verdict v = value ACCEPT) /\
  (accepted v = true <-> verdict v = value ACCEPT) /\
  (composite < 0.35 -> accepted v = false /\ verdict v <> value ACCEPT).
Proof.
  intro H. cbv zeta.
  pose proof (verify_accept_iff self image fruit_mask H) as Hthm.
  cbv zeta in Hthm. destruct Hthm as (Hscore & Hiff & Hacc & Hlow).
  split; [|split; [|split; [|split]]].
  - split; [apply composite_grid|]. split.
    + destruct (round3_grid
        (0.45 * colour_score (_check_talisay_colour self image (mask_used image fruit_mask)) +
         0.30 * shape_score (_check_talisay_shape self (mask_used image fruit_mask)) +
         0.25 * texture_score (_check_talisay_texture self image (mask_used image fruit_mask))))
        as [k Hk].
      exists k. rewrite Hscore. exact Hk.
    + rewrite Hscore. apply round3_close.
  - intro Hv. apply Hiff. exact Hv.
  - intros Hc Hveto. apply Hiff.
    split; [destruct Hc as [H3 | [H2 Hgt]]; [left; exact H3 | right; split; [exact H2 | lra]]|].
    split; [|exact Hveto].
    destruct Hc as [H3 | [H2 Hgt]]; [|lra].
    pose proof (three_passed_composite self image (mask_used image fruit_mask) H3). lra.
  - exact Hacc.
  - exact Hlow.
Qed.




(** ** The skin-sensitivity veto *)

(** C4, the claim as stated, fails: [Samples.held_leaf] is the photo of the
    claim (30% skin, 10% green, green median saturation 191 > 140) with two
    positive layers passed; the rescue was triggered, yet [verify] accepts
    it, because the vegetation test is only made when green and yellow
    coverage is strictly above 10%. *)
Lemma C4_counterexample :
  let g := init true in
  let image := Samples.held_leaf in
  let m := mask_used image None in
  reaches_composite g image None /\
  was_rescued g image /\
  (sum_checks [colour_passes (_check_talisay_colour g image m);
               shape_passes (_check_talisay_shape g m);
               texture_passes (_check_talisay_texture g image m)] < 3)%Z /\
  skin_cov image == 0.30 /\
  green_cov image == 0.10 /\
  140 < median (green_sat_vals image) /\
  accepted (verify g image None) = true /\
  verdict (verify g image None) = value ACCEPT.
Proof.
  cbv zeta.
  unfold reaches_composite, reaches_shape_gate, shape_gate, was_rescued.
  compute_closed.
Qed.

(** C4 (amended): when the person-layer rescue was triggered and fewer than
    three positive layers passed, [verify] rejects if skin coverage exceeds
    45%; it also rejects if green and yellow coverage is strictly above 10%
    and the image's Talisay-green pixels, more than 100 of them, have a
    median saturation above 140; when neither holds the image is accepted
    only if two layers passed with composite at least 0.55, and is accepted
    whenever two layers passed with composite above 0.55.  The person layer
    itself does not reject an image with more than 25% skin and at least 8%
    green and yellow coverage, whatever the saturation. *)
Theorem C4_skin_sensitivity (self : TalisayGuard) (image : Image)
    (fruit_mask : option Mask) :
  let m := mask_used image fruit_mask in
  let c := _check_talisay_colour self image m in
  let s := _check_talisay_shape self m in
  let t := _check_talisay_texture self image m in
  let composite :=
    0.45 * colour_score c + 0.30 * shape_score s + 0.25 * texture_score t in
  let passed := sum_checks [colour_passes c; shape_passes s; texture_passes t] in
  let v := verify self image fruit_mask in
  (reaches_composite self image fruit_mask -> was_rescued self image ->
   (passed < 3)%Z ->
   (0.45 < skin_cov image -> accepted v = false /\ verdict v <> value ACCEPT) /\
   (0.10 < strong_cov image -> vegetation_green image ->
    accepted v = false /\ verdict v <> value ACCEPT) /\
   (skin_cov image <= 0.45 ->
    ~ (0.10 < strong_cov image /\ vegetation_green image) ->
    (verdict v = value ACCEPT -> (2 <= passed)%Z /\ 0.55 <= composite) /\
    ((2 <= passed)%Z -> 0.55 < composite -> verdict v = value ACCEPT))) /\
  (0.25 < skin_cov image -> 0.08 <= strong_cov image ->
   is_person (_check_person self image) = false).
Proof.
  cbv zeta. split.
  - intros H Hr Hlt.
    pose proof (verify_accept_safe self image fruit_mask H) as Hthm.
    cbv zeta in Hthm. destruct Hthm as (_ & Hnec & Hsuff & Hacc & _).
    assert (Hveto : skin_veto self image
              (sum_checks
                 [colour_passes (_check_talisay_colour self image (mask_used image fruit_mask));
                  shape_passes (_check_talisay_shape self (mask_used image fruit_mask));
                  texture_passes
                    (_check_talisay_texture self image (mask_used image fruit_mask))]) ->
            accepted (verify self image fruit_mask) = false /\
            verdict (verify self image fruit_mask) <> value ACCEPT).
    { intro Hv.
      assert (Hn : verdict (verify self image fruit_mask) <> value ACCEPT).
      { intro Hacc'. apply Hnec in Hacc'. tauto. }
      split; [|exact Hn].
      destruct (accepted (verify self image fruit_mask)); [|reflexivity].
      exfalso. apply Hn, Hacc. reflexivity. }
    split; [|split].
    + intro Hsk. apply Hveto. unfold skin_veto. tauto.
    + intros Hst Hveg. apply Hveto. unfold skin_veto. tauto.
    + intros Hsk Hno. split.
      * intro Hv. destruct (Hnec Hv) as ([H3 | H2] & _ & _); [lia | exact H2].
      * intros H2 Hc. apply Hsuff; [right; split; assumption|].
        unfold skin_veto. intros (_ & _ & [Hsk' | Hveg]); [lra | tauto].
  - intros Hsk Hst. rewrite check_person_is_person.
    cmp_cases; cbn; try reflexivity; try lra.
    all: rewrite ?andb_false_r; try reflexivity.
Qed.

(** C4 at two photos of a hand (30% skin) holding a round green object, both
    with two positive layers passed: with 11% foliage-green (median
    saturation 191) the veto rejects; with 10% fruit-green (median
    saturation 102) and composite 0.776 the image is accepted. *)
Lemma C4_witness :
  (reaches_composite (init true) Samples.held_leaf_large None /\
   was_rescued (init true) Samples.held_leaf_large /\
   0.10 < strong_cov Samples.held_leaf_large /\
   vegetation_green Samples.held_leaf_large /\
   accepted (verify (init true) Samples.held_leaf_large None) = false) /\
  (reaches_composite (init true) Samples.held_fruit None /\
   was_rescued (init true) Samples.held_fruit /\
   ~ vegetation_green Samples.held_fruit /\
   verdict (verify (init true) Samples.held_fruit None) = value ACCEPT).
Proof.
  split.
  - assert (H : reaches_composite (init true) Samples.held_leaf_large None).
    { unfold reaches_composite, reaches_shape_gate, shape_gate. compute_closed. }
    assert (Hr : was_rescued (init true) Samples.held_leaf_large).
    { unfold was_rescued. compute_closed. }
    assert (Hs : 0.10 < strong_cov Samples.held_leaf_large) by compute_closed.
    assert (Hv : vegetation_green Samples.held_leaf_large).
    { unfold vegetation_green. compute_closed. }
    split; [exact H|]. split; [exact Hr|]. split; [exact Hs|]. split; [exact Hv|].
    pose proof (C4_skin_sensitivity (init true) Samples.held_leaf_large None) as Hthm.
    cbv zeta in Hthm. destruct Hthm as [Hthm _].
    destruct (Hthm H Hr) as (_ & Hveg & _); [compute_closed|].
    exact (proj1 (Hveg Hs Hv)).
  - assert (H : reaches_composite (init true) Samples.held_fruit None).
    { unfold reaches_composite, reaches_shape_gate, shape_gate. compute_closed. }
    assert (Hr : was_rescued (init true) Samples.held_fruit).
    { unfold was_rescued. compute_closed. }
    assert (Hv : ~ vegetation_green Samples.held_fruit).
    { unfold vegetation_green. compute_closed. }
    split; [exact H|]. split; [exact Hr|]. split; [exact Hv|].
    pose proof (C4_skin_sensitivity (init true) Samples.held_fruit None) as Hthm.
    cbv zeta in Hthm. destruct Hthm as [Hthm _].
    destruct (Hthm H Hr) as (_ & _ & Hfruit); [compute_closed|].
    apply Hfruit; [compute_closed | intros [_ Hveg]; exact (Hv Hveg) | compute_closed
                  | compute_closed].
Defined.

(** ** Uniform images *)

Lemma Qsum_const (c : Q) (l : list Q) :
  List.Forall (fun x => x == c) l ->
  Qsum l == inject_Z (Z.of_nat (List.length l)) * c.
Proof.
  induction 1 as [| x l Hx _ IH].
  - cbn. ring.
  - cbn [Qsum fold_right List.length]. fold (Qsum l).
    rewrite Qred_correct, Hx, IH, Nat2Z.inj_succ.
    unfold Z.succ. rewrite inject_Z_plus. ring.
Qed.

Lemma mean_const (c : Q) (l : list Q) :
  l <> [] -> List.Forall (fun x => x == c) l -> mean l == c.
Proof.
  intros Hne H. unfold mean. rewrite (Qsum_const c l H).
  assert (Hn : ~ inject_Z (Z.of_nat (List.length l)) == 0).
  { destruct l; [congruence|]. cbn [List.length]. rewrite Nat2Z.inj_succ.
    change 0 with (inject_Z 0). rewrite inject_Z_injective. lia. }
  field. exact Hn.
Qed.

Lemma var_const (c : Q) (l : list Q) :
  List.Forall (fun x => x == c) l -> var l == 0.
Proof.
  intro H. unfold var. cbv zeta.
  destruct l as [| a l]; [vm_compute; reflexivity|].
  pose proof (mean_const c (a :: l) ltac:(discriminate) H) as Hm.
  set (m := mean (a :: l)) in *.
  apply mean_const; [discriminate|].
  apply List.Forall_forall. intros y Hy. apply in_map_iff in Hy.
  destruct Hy as (x & <- & Hx).
  rewrite List.Forall_forall in H. rewrite (H x Hx), Hm. ring.
Qed.

(** A predicate that a boolean test decides holds of every element of a
    list on which the test succeeds throughout. *)
Lemma Forall_bool {A : Type} (P : A -> Prop) (f : A -> bool) (l : list A) :
  (forall x, f x = true -> P x) -> forallb f l = true -> List.Forall P l.
Proof.
  intros Hf H. apply List.Forall_forall. intros x Hx.
  apply Hf. rewrite forallb_forall in H. exact (H x Hx).
Qed.

(** An image whose pixels all have the same grey level is rejected as
    blank, for the reason "extremely_low_variance", whatever its colour,
    its edges and the mask supplied: the verdict is REJECT_BLANK with
    score 0. *)
Lemma uniform_image_is_blank (self : TalisayGuard) (image : Image)
    (fruit_mask : option Mask) (g : Z) :
  pixels image <> [] ->
  List.Forall (fun p => gray p = g) (pixels image) ->
  let v := verify self image fruit_mask in
  blank_reason (_check_blank_image image) = Some "extremely_low_variance"%string /\
  verdict v = value REJECT_BLANK /\ accepted v = false /\ score v == 0.
Proof.
  intros _ H. cbv zeta.
  assert (Hv : var (map (fun p => inject_Z (gray p)) (pixels image)) == 0).
  { apply (var_const (inject_Z g)). apply List.Forall_forall. intros y Hy.
    apply in_map_iff in Hy. destruct Hy as (p & <- & Hp).
    rewrite List.Forall_forall in H. rewrite (H p Hp). reflexivity. }
  assert (Hb : Qltb (var (map (fun p => inject_Z (gray p)) (pixels image))) 80 = true).
  { apply Qltb_true. rewrite Hv. reflexivity. }
  assert (Hblank : _check_blank_image image =
                   {| is_blank := true;
                      blank_reason := Some "extremely_low_variance"%string |}).
  { unfold _check_blank_image. cbv zeta. rewrite Hb. reflexivity. }
  split; [rewrite Hblank; reflexivity|].
  unfold verify. cbv zeta. rewrite Hblank. cbn [is_blank].
  cbn [verdict accepted score _make_verdict].
  split; [reflexivity|]. split; [reflexivity|]. exact round_zero.
Qed.

(** At [Samples.wall_photo], whose pixels all have grey level 235. *)
Lemma uniform_image_is_blank_witness :
  pixels Samples.wall_photo <> [] /\
  List.Forall (fun p => gray p = 235%Z) (pixels Samples.wall_photo) /\
  verdict (verify (init true) Samples.wall_photo None) = value REJECT_BLANK.
Proof.
  assert (Hne : pixels Samples.wall_photo <> []) by discriminate.
  assert (H : List.Forall (fun p => gray p = 235%Z) (pixels Samples.wall_photo)).
  { apply (Forall_bool _ (fun p => (gray p =? 235)%Z)).
    - intros p Hp. apply Z.eqb_eq. exact Hp.
    - vm_compute. reflexivity. }
  split; [exact Hne|]. split; [exact H|].
  exact (proj1 (proj2 (uniform_image_is_blank (init true) Samples.wall_photo None
                         235%Z Hne H))).
Defined.

(** ** The shape layer and the shape gate *)

(** What a passing shape layer guarantees. *)
Lemma shape_pass_facts (self : TalisayGuard) (m : Mask) :
  shape_passes (_check_talisay_shape self m) = true ->
  exists c, largest m = Some c /\ 300 <= area c /\
    1.1 <= aspect_of 1.0 c /\ aspect_of 1.0 c <= 3.0 /\ circularity_of c <= 0.90 /\
    aspect_ratio (_check_talisay_shape self m) = Some (round (aspect_of 1.0 c) 3) /\
    circularity (_check_talisay_shape self m) = Some (round (circularity_of c) 3).
Proof.
  unfold _check_talisay_shape.
  destruct (largest m) as [c|]; [|cbn; discriminate].
  destruct (Qltb (area c) 300 || Qeq_bool (perimeter c) 0) eqn:Ea; [cbn; discriminate|].
  apply orb_false_iff in Ea. destruct Ea as [Ea _]. apply Qltb_false in Ea.
  cbv zeta.
  destruct (_talisay_aspect_range self) as [ar_min ar_max].
  destruct (_talisay_circularity_range self) as [c_min c_max].
  cbn [shape_passes aspect_ratio circularity].
  rewrite !andb_true_iff. intros [[[_ H1] H2] H3].
  apply Qleb_true in H1, H2, H3.
  exists c. repeat split; try assumption; reflexivity.
Qed.

(** The shape gate only ever fires on a mask the shape layer has already
    failed: a passing shape has aspect ratio at least 1.1, the gate needs
    a reported aspect ratio below 1.08. *)
Lemma gate_implies_shape_failed (self : TalisayGuard) (image : Image) (m : Mask) :
  shape_gate self image m -> shape_passes (_check_talisay_shape self m) = false.
Proof.
  intros (_ & _ & Ha).
  destruct (shape_passes (_check_talisay_shape self m)) eqn:Hp; [|reflexivity].
  exfalso. destruct (shape_pass_facts self m Hp) as (c & _ & _ & H1 & _ & _ & Har & _).
  unfold gate_aspect in Ha. rewrite Har in Ha. cbn [default from_option] in Ha.
  unfold id in Ha.
  assert (Hr : 1.1 <= round (aspect_of 1.0 c) 3).
  { apply (round_ge 1.1 _ 3 1100); [vm_compute; reflexivity | exact H1]. }
  lra.
Qed.

(** At [Samples.disc_photo], on which the gate fires. *)
Lemma gate_implies_shape_failed_witness :
  let m := built_mask Samples.disc_photo in
  shape_gate (init true) Samples.disc_photo m /\
  shape_passes (_check_talisay_shape (init true) m) = false.
Proof.
  cbv zeta.
  assert (H : shape_gate (init true) Samples.disc_photo (built_mask Samples.disc_photo)).
  { unfold shape_gate. compute_closed. }
  split; [exact H|].
  exact (gate_implies_shape_failed (init true) Samples.disc_photo
           (built_mask Samples.disc_photo) H).
Defined.

(** What the shape layer reports for a contour it scores, and its own test
    of the circularity, made on the value before rounding. *)
Lemma shape_layer_reports (self : TalisayGuard) (m : Mask) (c : Contour) :
  largest m = Some c -> 300 <= area c -> ~ perimeter c == 0 ->
  circularity (_check_talisay_shape self m) = Some (round (circularity_of c) 3) /\
  (shape_passes (_check_talisay_shape self m) = true -> circularity_of c <= 0.90).
Proof.
  intros Hl Ha Hp. unfold _check_talisay_shape. rewrite Hl. cbv zeta.
  assert (E1 : Qltb (area c) 300 = false) by (apply Qltb_false; exact Ha).
  assert (E2 : Qeq_bool (perimeter c) 0 = false).
  { destruct (Qeq_bool (perimeter c) 0) eqn:E; [|reflexivity].
    exfalso. apply Hp. apply Qeq_bool_iff. exact E. }
  rewrite E1, E2. cbn [orb].
  destruct (_talisay_aspect_range self) as [ar_min ar_max].
  destruct (_talisay_circularity_range self) as [c_min c_max].
  cbn [circularity shape_passes]. split; [reflexivity|].
  rewrite !andb_true_iff. intros [_ H]. apply Qleb_true in H. exact H.
Qed.

Lemma round_900 (x : Q) : 0.9 <= x -> x <= 0.9004 -> round x 3 == 0.9.
Proof.
  intros H1 H2. apply Qle_antisym.
  - assert (Hr : round x 3 <= round 0.9004 3) by (apply round_mono; exact H2).
    assert (E : round 0.9004 3 == 0.9) by (vm_compute; reflexivity).
    rewrite E in Hr. exact Hr.
  - apply (round_ge 0.9 x 3 900); [vm_compute; reflexivity | exact H1].
Qed.

(** The shape gate compares the three-decimal circularity the shape layer
    reports, not the circularity itself.  For every mask whose largest
    contour is scored by the shape layer (area at least 300, perimeter not
    0) and has a circularity between 0.9001 and 0.9004, the reported
    circularity is 0.900, so the gate does not fire, whatever the mask's
    coverage and aspect ratio, although the shape layer itself, which tests
    the unrounded circularity, finds the contour too round and does not
    pass.  An image that reached the gate then reaches the composite
    decision, where it is rejected for its colour when the colour layer
    fails and accepted only if the colour and texture layers both pass. *)
Lemma shape_gate_reads_rounded_values (self : TalisayGuard) (image : Image)
    (fruit_mask : option Mask) (c : Contour) :
  let m := mask_used image fruit_mask in
  let v := verify self image fruit_mask in
  largest m = Some c -> 300 <= area c -> ~ perimeter c == 0 ->
  0.9001 <= circularity_of c -> circularity_of c <= 0.9004 ->
  gate_circularity self m == 0.90 /\
  ~ shape_gate self image m /\
  shape_passes (_check_talisay_shape self m) = false /\
  (reaches_shape_gate self image fruit_mask ->
   reaches_composite self image fruit_mask /\
   (colour_passes (_check_talisay_colour self image m) = false ->
    verdict v = value REJECT_WRONG_COLOUR) /\
   (verdict v = value ACCEPT ->
    colour_passes (_check_talisay_colour self image m) = true /\
    texture_passes (_check_talisay_texture self image m) = true)).
Proof.
  cbv zeta. intros Hl Ha Hp Hlo Hhi.
  destruct (shape_layer_reports self _ c Hl Ha Hp) as [Hc Hpass].
  assert (Hg : gate_circularity self (mask_used image fruit_mask) == 0.90).
  { unfold gate_circularity. rewrite Hc. cbn [default from_option]. unfold id.
    rewrite round_900 by lra. reflexivity. }
  assert (Hno : ~ shape_gate self image (mask_used image fruit_mask)).
  { unfold shape_gate. intros (_ & H & _). rewrite Hg in H. lra. }
  assert (Hs : shape_passes (_check_talisay_shape self (mask_used image fruit_mask)) = false).
  { destruct (shape_passes _) eqn:E; [|reflexivity].
    specialize (Hpass eq_refl). lra. }
  split; [exact Hg|]. split; [exact Hno|]. split; [exact Hs|].
  intro Hr.
  assert (H : reaches_composite self image fruit_mask) by (split; assumption).
  split; [exact H|].
  destruct (verify_composite self image fruit_mask H) as (_ & _ & Hv).
  cbv zeta in Hv.
  pose proof (verify_accept_safe self image fruit_mask H) as Hthm.
  cbv zeta in Hthm. destruct Hthm as (_ & Hnec & _).
  rewrite Hs in Hnec.
  split.
  - intro Hcf. rewrite Hv.
    destruct (decision self image (mask_used image fruit_mask)) eqn:D.
    + exfalso. destruct (Hnec Hv) as (Hcnt & _).
      rewrite Hcf in Hcnt. rewrite sum_checks_3 in Hcnt.
      destruct (texture_passes _); destruct Hcnt as [Hcnt | [Hcnt _]]; lia.
    + rewrite Hcf. reflexivity.
  - intro Hacc. destruct (Hnec Hacc) as (Hcnt & _).
    rewrite sum_checks_3 in Hcnt.
    destruct (colour_passes _), (texture_passes _);
      try (split; reflexivity); destruct Hcnt as [Hcnt | [Hcnt _]]; lia.
Qed.

(** At [Samples.near_disc_photo]: the mask covers 11.25% of the photo, its
    contour has circularity 0.9004 and aspect ratio 1, the gate reads a
    circularity of 0.900 and the photo reaches the composite decision. *)
Lemma shape_gate_reads_rounded_values_witness :
  let image := Samples.near_disc_photo in
  let m := mask_used image None in
  (exists c, largest m = Some c /\ 0.9001 <= circularity_of c /\
             circularity_of c <= 0.9004) /\
  mask_coverage image m < 0.12 /\ gate_aspect (init true) m < 1.08 /\
  gate_circularity (init true) m == 0.90 /\
  reaches_composite (init true) image None.
Proof.
  cbv zeta.
  pose (c := {| area := 716.5; perimeter := 100; n_points := 48;
                minor := 30; major := 30; rect_w := 30; rect_h := 30;
                hull_area := 720 |}).
  assert (Hl : largest (mask_used Samples.near_disc_photo None) = Some c) by reflexivity.
  assert (Ha : 300 <= area c) by (vm_compute; discriminate).
  assert (Hp : ~ perimeter c == 0) by (vm_compute; discriminate).
  assert (Hlo : 0.9001 <= circularity_of c) by (vm_compute; discriminate).
  assert (Hhi : circularity_of c <= 0.9004) by (vm_compute; discriminate).
  destruct (shape_gate_reads_rounded_values (init true) Samples.near_disc_photo None c
              Hl Ha Hp Hlo Hhi) as (Hg & _ & _ & Hrest).
  split; [exists c; split; [exact Hl|]; split; assumption|].
  split; [compute_closed|]. split; [compute_closed|]. split; [exact Hg|].
  apply Hrest. unfold reaches_shape_gate. compute_closed.
Defined.

(** ** The capsicum layer *)

(** The capsicum score lies between 0 and 1.1. *)
Lemma capsicum_score_range (self : TalisayGuard) (image : Image) (mask : Mask) :
  0 <= capsicum_score (_check_capsicum self image mask) /\
  capsicum_score (_check_capsicum self image mask) <= 1.1.
Proof.
  unfold _check_capsicum. cbv zeta.
  destruct (List.length _ <? 200)%nat; [cbn; split; discriminate|].
  destruct (largest mask) as [c|]; [|cbn; split; discriminate].
  destruct (Qltb (area c) 100 || Qeq_bool (perimeter c) 0); [cbn; split; discriminate|].
  cbn [capsicum_score].
  destruct (5 <=? n_points c)%nat.
  - split.
    + apply (round_ge 0 _ 3 0); [vm_compute; reflexivity|]. cmp_cases; lra.
    + apply (round_le 1.1 _ 3 1100); [vm_compute; reflexivity|]. cmp_cases; lra.
  - split.
    + apply (round_ge 0 _ 3 0); [vm_compute; reflexivity|]. cmp_cases; lra.
    + apply (round_le 1.1 _ 3 1100); [vm_compute; reflexivity|]. cmp_cases; lra.
Qed.

(** The capsicum layer never fires on colour, texture and saturation
    alone (together they score 0.40, below the threshold 0.45): the mask
    has a contour of area at least 100 that is elongated (aspect ratio
    above 2.5), or of circularity below 0.45, or whose fitted ellipse is
    narrower than 6% of the image's longer side. *)
Lemma capsicum_needs_shape (self : TalisayGuard) (image : Image) (mask : Mask) :
  is_capsicum (_check_capsicum self image mask) = true ->
  exists c, largest mask = Some c /\ 100 <= area c /\
    (2.5 < aspect_of 0 c \/ circularity_of c < 0.45 \/
     ((5 <= n_points c)%nat /\
      minor c / inject_Z (Z.max (w_img image) (h_img image)) < 0.06)).
Proof.
  unfold _check_capsicum. cbv zeta.
  destruct (List.length _ <? 200)%nat; [cbn; discriminate|].
  destruct (largest mask) as [c|]; [|cbn; discriminate].
  destruct (Qltb (area c) 100 || Qeq_bool (perimeter c) 0) eqn:Ea; [cbn; discriminate|].
  apply orb_false_iff in Ea. destruct Ea as [Ea _]. apply Qltb_false in Ea.
  cbn [is_capsicum]. unfold MAX_CAPSICUM_SCORE.
  intro H. exists c. split; [reflexivity|]. split; [exact Ea|].
  revert H.
  destruct (Nat.leb_spec 5 (n_points c)) as [Hn | Hn]; cmp_cases; intro H;
    try discriminate H;
    first [ left; assumption | right; left; assumption
          | right; right; split; assumption
          | exfalso; lra ].
Qed.

(** At [Samples.chili_photo]: the layer fires, and the outline is five
    times as long as it is wide. *)
Lemma capsicum_needs_shape_witness :
  let m := built_mask Samples.chili_photo in
  is_capsicum (_check_capsicum (init true) Samples.chili_photo m) = true /\
  exists c, largest m = Some c /\ 100 <= area c /\
    (2.5 < aspect_of 0 c \/ circularity_of c < 0.45 \/
     ((5 <= n_points c)%nat /\
      minor c / inject_Z (Z.max (w_img Samples.chili_photo)
                                (h_img Samples.chili_photo)) < 0.06)).
Proof.
  cbv zeta.
  assert (H : is_capsicum (_check_capsicum (init true) Samples.chili_photo
                             (built_mask Samples.chili_photo)) = true)
    by (vm_compute; reflexivity).
  split; [exact H|].
  exact (capsicum_needs_shape (init true) Samples.chili_photo
           (built_mask Samples.chili_photo) H).
Defined.

(** ** The coverages of the person layer *)

Lemma count_le {A : Type} (f g : A -> bool) (l : list A) :
  (forall x, f x = true -> g x = true) -> (count f l <= count g l)%Z.
Proof.
  intro H. unfold count. induction l as [| a l IH]; [cbn; lia|].
  cbn [List.filter]. destruct (f a) eqn:Ef.
  - rewrite (H a Ef). cbn [List.length]. lia.
  - destruct (g a); cbn [List.length]; lia.
Qed.

Lemma count_le_length {A : Type} (f : A -> bool) (l : list A) :
  (count f l <= Z.of_nat (List.length l))%Z.
Proof.
  unfold count. induction l as [| a l IH]; [cbn; lia|].
  cbn [List.filter]. destruct (f a); cbn [List.length]; lia.
Qed.

Lemma count_all {A : Type} (f : A -> bool) (l : list A) :
  List.Forall (fun x => f x = true) l -> count f l = Z.of_nat (List.length l).
Proof.
  intro H. unfold count. induction H as [| a l Ha _ IH]; [reflexivity|].
  cbn [List.filter]. rewrite Ha. cbn [List.length]. lia.
Qed.

Lemma count_none {A : Type} (f : A -> bool) (l : list A) :
  List.Forall (fun x => f x = false) l -> count f l = 0%Z.
Proof.
  intro H. unfold count. induction H as [| a l Ha _ IH]; [reflexivity|].
  cbn [List.filter]. rewrite Ha. exact IH.
Qed.

Lemma fdiv_le_1 (a b : Z) : (a <= b)%Z -> (0 < b)%Z -> fdiv a b <= 1.
Proof.
  intros Hab Hb. unfold fdiv. apply Qle_shift_div_r.
  - change 0 with (inject_Z 0). rewrite <- Zlt_Qlt. exact Hb.
  - rewrite Qmult_1_l, <- Zle_Qle. exact Hab.
Qed.

Lemma fdiv_ge_1 (a b : Z) : (0 < b)%Z -> (b <= a)%Z -> 1 <= fdiv a b.
Proof.
  intros Hb Hab. unfold fdiv. apply Qle_shift_div_l.
  - change 0 with (inject_Z 0). rewrite <- Zlt_Qlt. exact Hb.
  - rewrite Qmult_1_l, <- Zle_Qle. exact Hab.
Qed.

Lemma fdiv_same (a : Z) : (0 < a)%Z -> fdiv a a == 1.
Proof.
  intro H. unfold fdiv. field. change 0 with (inject_Z 0).
  rewrite inject_Z_injective. lia.
Qed.

Lemma fdiv_zero (b : Z) : fdiv 0 b == 0.
Proof. unfold fdiv. change (inject_Z 0) with 0. apply Qmult_0_l. Qed.

(** On an image with as many pixels as its height times its width, the
    coverages the person layer reports are fractions: the green-and-yellow
    coverage is at most the total Talisay coverage, which is at most 1, and
    the skin coverage, when reported, lies between 0 and 1. *)
Lemma person_coverages (self : TalisayGuard) (image : Image) :
  (0 < h_img image * w_img image)%Z ->
  Z.of_nat (List.length (pixels image)) = (h_img image * w_img image)%Z ->
  let r := _check_person self image in
  0 <= strong_rescue_coverage r /\
  strong_rescue_coverage r <= talisay_coverage r /\
  talisay_coverage r <= 1 /\
  (forall s, skin_coverage r = Some s -> 0 <= s /\ s <= 1).
Proof.
  intros Hpos Hlen. cbv zeta.
  assert (H0 : 0 <= fdiv (count is_strong_rescue (pixels image))
                         (h_img image * w_img image)).
  { apply fdiv_nonneg; [apply count_nonneg | exact Hpos]. }
  assert (H1 : fdiv (count is_strong_rescue (pixels image)) (h_img image * w_img image) <=
               fdiv (count is_total_rescue (pixels image)) (h_img image * w_img image)).
  { apply fdiv_mono; [|exact Hpos]. apply count_le. intros p Hp.
    unfold is_total_rescue. rewrite Hp. reflexivity. }
  assert (H2 : fdiv (count is_total_rescue (pixels image)) (h_img image * w_img image) <= 1).
  { apply fdiv_le_1; [|exact Hpos]. rewrite <- Hlen. apply count_le_length. }
  assert (H3 : 0 <= fdiv (count is_skin (pixels image)) (h_img image * w_img image) /\
               fdiv (count is_skin (pixels image)) (h_img image * w_img image) <= 1).
  { split; [apply fdiv_nonneg; [apply count_nonneg | exact Hpos]|].
    apply fdiv_le_1; [|exact Hpos]. rewrite <- Hlen. apply count_le_length. }
  unfold _check_person. cbv zeta.
  repeat match goal with
  | |- context [if ?b then _ else _] => destruct b
  end; cbn [strong_rescue_coverage talisay_coverage skin_coverage];
  (split; [exact H0|]); (split; [exact H1|]); (split; [exact H2|]);
  intros s Hs; first [discriminate Hs | injection Hs as <-; exact H3].
Qed.

(** At [Samples.hand_photo]. *)
Lemma person_coverages_witness :
  let image := Samples.hand_photo in
  let r := _check_person (init true) image in
  (0 < h_img image * w_img image)%Z /\
  Z.of_nat (List.length (pixels image)) = (h_img image * w_img image)%Z /\
  strong_rescue_coverage r <= talisay_coverage r /\ talisay_coverage r <= 1.
Proof.
  cbv zeta.
  assert (Hpos : (0 < h_img Samples.hand_photo * w_img Samples.hand_photo)%Z)
    by (vm_compute; reflexivity).
  assert (Hlen : Z.of_nat (List.length (pixels Samples.hand_photo)) =
                 (h_img Samples.hand_photo * w_img Samples.hand_photo)%Z)
    by (vm_compute; reflexivity).
  split; [exact Hpos|]. split; [exact Hlen|].
  pose proof (person_coverages (init true) Samples.hand_photo Hpos Hlen) as H.
  cbv zeta in H. destruct H as (_ & H1 & H2 & _).
  split; [exact H1 | exact H2].
Defined.

(** ** Skin in the Talisay yellow band *)

(** The skin band (H 0-25) and the Talisay yellow band (H 18-38) overlap:
    an image every pixel of which is skin and also in the yellow band has
    skin coverage 1, well above the 25% limit, and the person layer still
    lets it through, for the reason "skin_detected_but_talisay_present". *)
Lemma yellow_skin_not_person (self : TalisayGuard) (image : Image) :
  (0 < h_img image * w_img image)%Z ->
  Z.of_nat (List.length (pixels image)) = (h_img image * w_img image)%Z ->
  List.Forall (fun p => is_skin p = true /\ in_band (hsv p) TALISAY_YELLOW_HSV = true)
              (pixels image) ->
  skin_cov image == 1 /\
  is_person (_check_person self image) = false /\
  person_reason (_check_person self image) =
    Some "skin_detected_but_talisay_present"%string.
Proof.
  intros Hpos Hlen H.
  assert (Hs : skin_cov image == 1).
  { unfold skin_cov. rewrite (count_all is_skin), Hlen; [apply fdiv_same, Hpos|].
    eapply List.Forall_impl; [|exact H]. intros p [Hp _]. exact Hp. }
  assert (Hst : strong_cov image == 1).
  { unfold strong_cov. rewrite (count_all is_strong_rescue), Hlen; [apply fdiv_same, Hpos|].
    eapply List.Forall_impl; [|exact H]. intros p [_ Hp].
    unfold is_strong_rescue. rewrite Hp. apply orb_true_r. }
  split; [exact Hs|].
  unfold skin_cov in Hs. unfold strong_cov in Hst.
  unfold _check_person. cbv zeta. unfold MAX_SKIN_COVERAGE.
  destruct (Qltb (fdiv (count is_strong_rescue (pixels image))
                       (h_img image * w_img image)) 0.05) eqn:E1.
  { apply Qltb_true in E1. lra. }
  rewrite andb_false_r.
  destruct (Qltb 0.25 (fdiv (count is_skin (pixels image)) (h_img image * w_img image)))
    eqn:E2; [|apply Qltb_false in E2; lra].
  destruct (Qleb 0.08 (fdiv (count is_strong_rescue (pixels image))
                            (h_img image * w_img image))) eqn:E3;
    [|apply Qleb_false in E3; lra].
  split; reflexivity.
Qed.

(** At [Samples.palm_photo], a close-up of a tanned palm. *)
Lemma yellow_skin_not_person_witness :
  let image := Samples.palm_photo in
  (0 < h_img image * w_img image)%Z /\
  Z.of_nat (List.length (pixels image)) = (h_img image * w_img image)%Z /\
  List.Forall (fun p => is_skin p = true /\ in_band (hsv p) TALISAY_YELLOW_HSV = true)
              (pixels image) /\
  is_person (_check_person (init true) image) = false.
Proof.
  cbv zeta.
  assert (Hpos : (0 < h_img Samples.palm_photo * w_img Samples.palm_photo)%Z)
    by (vm_compute; reflexivity).
  assert (Hlen : Z.of_nat (List.length (pixels Samples.palm_photo)) =
                 (h_img Samples.palm_photo * w_img Samples.palm_photo)%Z)
    by (vm_compute; reflexivity).
  assert (H : List.Forall
                (fun p => is_skin p = true /\ in_band (hsv p) TALISAY_YELLOW_HSV = true)
                (pixels Samples.palm_photo)).
  { apply (Forall_bool _ (fun p => is_skin p && in_band (hsv p) TALISAY_YELLOW_HSV)).
    - intros p Hp. apply andb_true_iff in Hp. exact Hp.
    - vm_compute. reflexivity. }
  split; [exact Hpos|]. split; [exact Hlen|]. split; [exact H|].
  exact (proj1 (proj2 (yellow_skin_not_person (init true) Samples.palm_photo
                         Hpos Hlen H))).
Defined.

(** ** The non-Talisay colour layer *)

(** A reject colour none of whose boxes contains a pixel leaves the running
    maximum unchanged. *)
Lemma reject_step_none (px : list triple) (total : Z) (max_cov : Q)
    (detected : option string) (ranges : list (triple * triple)) (label : string) :
  0 <= max_cov ->
  List.Forall (fun r => List.Forall (fun p => in_range p (fst r) (snd r) = false) px) ranges ->
  reject_step px total (max_cov, detected) (ranges, label) = (max_cov, detected).
Proof.
  intros Hm H. unfold reject_step.
  assert (Hc : fold_left (fun c r => (c + count (fun p => in_range p (fst r) (snd r)) px)%Z)
                         ranges 0%Z = 0%Z).
  { induction H as [| r rs Hr _ IH]; [reflexivity|].
    cbn [fold_left]. rewrite (count_none _ px Hr). exact IH. }
  rewrite Hc.
  destruct (Qltb max_cov (fdiv 0 total)) eqn:E; [|reflexivity].
  apply Qltb_true in E. rewrite fdiv_zero in E. lra.
Qed.

(** A reject colour with a single box that contains every pixel. *)
Lemma reject_step_all (px : list triple) (total : Z) (max_cov : Q)
    (detected : option string) (entry : list (triple * triple) * string)
    (lo hi : triple) :
  fst entry = [(lo, hi)] ->
  total = Z.of_nat (List.length px) -> (0 < total)%Z -> max_cov < 1 ->
  List.Forall (fun p => in_range p lo hi = true) px ->
  reject_step px total (max_cov, detected) entry = (fdiv total total, Some (snd entry)).
Proof.
  destruct entry as [ranges label]. cbn [fst snd]. intros -> Ht Hpos Hm H.
  unfold reject_step. cbn [fold_left fst snd].
  rewrite (count_all _ px H), Z.add_0_l, <- Ht.
  destruct (Qltb max_cov (fdiv total total)) eqn:E; [reflexivity|].
  apply Qltb_false in E. rewrite (fdiv_same total Hpos) in E. lra.
Qed.

(** The Talisay yellow band and the "orange fruit" box overlap (H 18-22,
    S and V at least 100): a mask of at least 100 pixels, all of them both
    Talisay yellow and inside that box, is rejected by the non-Talisay
    colour layer as "orange fruit (orange, tangerine)", with coverage 1. *)
Lemma yellow_orange_rejected (self : TalisayGuard) (image : Image) (mask : Mask) :
  let px := map hsv (masked (pixels image) (bits mask)) in
  (100 <= List.length px)%nat ->
  List.Forall (fun p => yellow_match p = true /\ orange_box p = true) px ->
  let r := _check_non_talisay_colours self image mask in
  is_non_talisay r = true /\
  detected_type r = Some "orange fruit (orange, tangerine)"%string /\
  non_talisay_coverage r = Some (round 1 3).
Proof.
  cbv zeta. intros Hlen H.
  set (px := map hsv (masked (pixels image) (bits mask))) in *.
  assert (Hbox : forall lo hi,
            (forall p, yellow_match p = true -> orange_box p = true ->
                       in_range p lo hi = false) ->
            List.Forall (fun p => in_range p lo hi = false) px).
  { intros lo hi Hx. eapply List.Forall_impl; [|exact H]. intros p [Hy Ho]. auto. }
  assert (Hdis : forall (l0 l1 l2 h0 h1 h2 : Z) (p : triple),
            (h0 < 18 \/ 22 < l0 \/ h1 < 100 \/ h2 < 100)%Z ->
            yellow_match p = true -> orange_box p = true ->
            in_range p (l0, l1, l2) (h0, h1, h2) = false).
  { intros l0 l1 l2 h0 h1 h2 [[ph ps] pv] Hd.
    unfold yellow_match, orange_box, in_band, in_range, TALISAY_YELLOW_HSV.
    cbn [lower upper].
    rewrite !andb_true_iff, !andb_false_iff, !Z.leb_le, !Z.leb_gt. intros ? ?. lia. }
  assert (Hone : fdiv (Z.of_nat (List.length px)) (Z.of_nat (List.length px)) == 1)
    by (apply fdiv_same; lia).
  set (total := Z.of_nat (List.length px)) in *.
  assert (Hc0 : 0 <= fdiv total total) by lra.
  unfold _check_non_talisay_colours. fold px. cbv zeta.
  destruct (Nat.ltb_spec (List.length px) 100) as [Hlt | _]; [lia|].
  fold total. unfold reject_colours. cbn [fold_left].
  rewrite (reject_step_none px _ 0.0 None); [|discriminate|].
  2:{ repeat constructor; apply Hbox; intros p; cbn [fst snd]; apply Hdis; lia. }
  match goal with
  | |- context [reject_step px total (0.0, None) ?e] =>
    rewrite (reject_step_all px total 0.0 None e (10, 100, 100)%Z (22, 255, 255)%Z
               eq_refl eq_refl ltac:(unfold total; lia) ltac:(reflexivity))
  end.
  2:{ eapply List.Forall_impl; [|exact H]. intros p [_ Ho]. exact Ho. }
  cbn [snd].
  do 5 (rewrite (reject_step_none px _ (fdiv total total)); [|exact Hc0|];
        [|repeat constructor; apply Hbox; intros p; cbn [fst snd]; apply Hdis; lia]).
  assert (Hbad : Qltb 0.30 (fdiv total total) = true) by (apply Qltb_true; lra).
  rewrite Hbad.
  change (contains "dark" "orange fruit (orange, tangerine)") with false.
  change (contains "white" "orange fruit (orange, tangerine)") with false.
  rewrite andb_false_r. cbn [is_non_talisay detected_type non_talisay_coverage].
  split; [reflexivity|]. split; [reflexivity|].
  f_equal. unfold round. rewrite (rint_comp _ (1 * pow10 3)); [reflexivity|].
  rewrite Hone. reflexivity.
Qed.

(** At [Samples.palm_photo]: the tans of the palm are Talisay yellow and
    inside the orange box. *)
Lemma yellow_orange_rejected_witness :
  let image := Samples.palm_photo in
  let px := map hsv (masked (pixels image) (bits (built_mask image))) in
  (100 <= List.length px)%nat /\
  List.Forall (fun p => yellow_match p = true /\ orange_box p = true) px /\
  detected_type (_check_non_talisay_colours (init true) image (built_mask image)) =
    Some "orange fruit (orange, tangerine)"%string.
Proof.
  cbv zeta.
  assert (Hlen : (100 <= List.length (map hsv (masked (pixels Samples.palm_photo)
                                          (bits (built_mask Samples.palm_photo)))))%nat).
  { apply Nat.leb_le. vm_compute. reflexivity. }
  assert (H : List.Forall (fun p => yellow_match p = true /\ orange_box p = true)
                (map hsv (masked (pixels Samples.palm_photo)
                                 (bits (built_mask Samples.palm_photo))))).
  { apply (Forall_bool _ (fun p => yellow_match p && orange_box p)).
    - intros p Hp. apply andb_true_iff in Hp. exact Hp.
    - vm_compute. reflexivity. }
  split; [exact Hlen|]. split; [exact H|].
  exact (proj1 (proj2 (yellow_orange_rejected (init true) Samples.palm_photo
                         (built_mask Samples.palm_photo) Hlen H))).
Defined.

(** A mask whose pixels are all in the Talisay green band passes both
    colour layers: the non-Talisay colour layer never rejects it (a large
    white or dark coverage cannot count against it, its Talisay coverage
    being 1), and on at least 200 pixels the Talisay colour layer passes
    with score 1. *)
Lemma green_mask_passes_colour (self : TalisayGuard) (image : Image) (mask : Mask) :
  let px := map hsv (masked (pixels image) (bits mask)) in
  List.Forall (fun p => green_match p = true) px ->
  is_non_talisay (_check_non_talisay_colours self image mask) = false /\
  ((200 <= List.length px)%nat ->
   colour_passes (_check_talisay_colour self image mask) = true /\
   colour_score (_check_talisay_colour self image mask) == 1).
Proof.
  cbv zeta. intros H. split.
  - set (px := map hsv (masked (pixels image) (bits mask))) in *.
    assert (Hbox : forall lo hi,
              (forall p, green_match p = true -> in_range p lo hi = false) ->
              List.Forall (fun p => in_range p lo hi = false) px).
    { intros lo hi Hx. eapply List.Forall_impl; [|exact H]. intros p Hg. auto. }
    assert (Hdis : forall (l0 l1 l2 h0 h1 h2 : Z) (p : triple),
              (h0 < 30 \/ 80 < l0 \/ h2 < 35)%Z ->
              green_match p = true -> in_range p (l0, l1, l2) (h0, h1, h2) = false).
    { intros l0 l1 l2 h0 h1 h2 [[ph ps] pv] Hd.
      unfold green_match, in_band, in_range, TALISAY_GREEN_HSV. cbn [lower upper].
      rewrite !andb_true_iff, !andb_false_iff, !Z.leb_le, !Z.leb_gt. intros ?. lia. }
    unfold _check_non_talisay_colours. fold px. cbv zeta.
    destruct (Nat.ltb_spec (List.length px) 100) as [Hlt | Hge]; [reflexivity|].
    set (total := Z.of_nat (List.length px)) in *.
    assert (Hpos : (0 < total)%Z) by (unfold total; lia).
    unfold reject_colours. cbn [fold_left].
    do 5 (rewrite (reject_step_none px _ 0.0 None); [|discriminate|];
          [|repeat constructor; apply Hbox; intros p; cbn [fst snd]; apply Hdis; lia]).
    match goal with
    | |- context [reject_step px total (reject_step px total (0.0, None) ?e) _] =>
      assert (Hw : reject_step px total (0.0, None) e = (0.0, None) \/
                   exists cov, 0 <= cov /\
                     reject_step px total (0.0, None) e =
                     (cov, Some "white/bright object (paper, screen)"%string));
      [ unfold reject_step; cbn [fold_left fst snd];
        match goal with
        | |- context [Qltb 0.0 ?c] =>
          destruct (Qltb 0.0 c) eqn:E;
          [ apply Qltb_true in E; right; exists c; split; [lra | reflexivity]
          | left; reflexivity ]
        end
      | destruct Hw as [-> | (cov & Hcov & ->)] ]
    end.
    + rewrite (reject_step_none px _ 0.0 None); [|discriminate|];
        [|repeat constructor; apply Hbox; intros p; cbn [fst snd]; apply Hdis; lia].
      cbn [is_non_talisay]. reflexivity.
    + rewrite (reject_step_none px _ cov); [|exact Hcov|];
        [|repeat constructor; apply Hbox; intros p; cbn [fst snd]; apply Hdis; lia].
      cbn [is_non_talisay].
      destruct (Qltb 0.30 cov); [|reflexivity].
      change (contains "white" "white/bright object (paper, screen)") with true.
      rewrite orb_true_r. cbn [andb negb String.eqb].
      match goal with
      | |- (if Qltb 0.12 ?t then false else true) = false =>
        assert (Ht : 1 <= t); [|destruct (Qltb 0.12 t) eqn:E;
                                 [reflexivity | apply Qltb_false in E; lra]]
      end.
      apply fdiv_ge_1; [exact Hpos|].
      unfold green_match in H.
      rewrite (count_all (fun p => in_band p TALISAY_GREEN_HSV) px H).
      fold total.
      pose proof (count_nonneg (fun p => in_band p TALISAY_YELLOW_HSV) px).
      pose proof (count_nonneg (fun p => in_band p TALISAY_BROWN_HSV) px).
      lia.
  - intro Hlen. unfold _check_talisay_colour.
    set (px := map hsv (masked (pixels image) (bits mask))) in *.
    destruct (colour_of_pixels_large px Hlen) as [Hs Hiff].
    assert (Hg : cov green_match px == 1).
    { unfold cov. rewrite (count_all green_match px H). apply fdiv_same. lia. }
    assert (Ha : cov talisay_any px == 1).
    { unfold cov. rewrite (count_all talisay_any px); [apply fdiv_same; lia|].
      eapply List.Forall_impl; [|exact H]. intros p Hp.
      unfold talisay_any. rewrite Hp. reflexivity. }
    assert (Hd : 1 <= dominant_cov px).
    { unfold dominant_cov. rewrite <- Hg. apply Q.le_max_l. }
    split.
    + apply Hiff. split; lra.
    + rewrite Hs. unfold round.
      rewrite (rint_comp _ (1 * pow10 3)); [vm_compute; reflexivity|].
      apply Qmult_comp; [|reflexivity].
      unfold raw_colour_score. cbv zeta.
      destruct (Qltb (dominant_cov px) 0.15) eqn:E; [apply Qltb_true in E; lra|].
      rewrite Ha. vm_compute. reflexivity.
Qed.

(** At the mask of [Samples.fruit_photo], 800 green pixels. *)
Lemma green_mask_passes_colour_witness :
  let image := Samples.fruit_photo in
  let px := map hsv (masked (pixels image) (bits (built_mask image))) in
  List.Forall (fun p => green_match p = true) px /\
  is_non_talisay (_check_non_talisay_colours (init true) image (built_mask image)) = false.
Proof.
  cbv zeta.
  assert (H : List.Forall (fun p => green_match p = true)
                (map hsv (masked (pixels Samples.fruit_photo)
                                 (bits (built_mask Samples.fruit_photo))))).
  { apply (Forall_bool _ green_match); [intros p Hp; exact Hp|].
    vm_compute. reflexivity. }
  split; [exact H|].
  exact (proj1 (green_mask_passes_colour (init true) Samples.fruit_photo
                  (built_mask Samples.fruit_photo) H)).
Defined.

End GuardFacts.

(** * Properties of DimensionEstimator *)

Module EstimatorFacts.

Import Numeric Estimator EstimatorTerms NumericFacts.
#[local] Open Scope Q_scope.

(** ** The reference table *)

Example reference_lookup :
  REFERENCE_OBJECTS !! "peso_5"%string = Some peso_5 /\
  reference_info (init "peso_5" true) = peso_5 /\
  reference_info (init "unknown" true) = peso_5 /\
  diameter (reference_info (init "peso_5_old" true)) = Some 2.5 /\
  diameter (reference_info (init "credit_card" true)) = None.
Proof. repeat split; vm_compute; reflexivity. Qed.

(** ** Sorting and selection in the thorough search *)

Lemma insert_scored_In (c x : Scored) (l : list Scored) :
  In c (insert_scored x l) <-> c = x \/ In c l.
Proof.
  induction l as [| d ds IH]; cbn.
  - intuition congruence.
  - destruct (Qleb (sscore x) (sscore d)); cbn; rewrite ?IH; intuition congruence.
Qed.

Lemma fold_insert_In (c : Scored) (l acc : list Scored) :
  In c (fold_left (fun a x => insert_scored x a) l acc) <-> In c l \/ In c acc.
Proof.
  revert acc. induction l as [| x xs IH]; intro acc; cbn.
  - tauto.
  - rewrite IH, insert_scored_In. intuition congruence.
Qed.

Lemma sort_scored_In (c : Scored) (l : list Scored) :
  In c (sort_scored l) <-> In c l.
Proof. unfold sort_scored. rewrite fold_insert_In. cbn. tauto. Qed.

Lemma insert_scored_descending (x : Scored) (l : list Scored) :
  descending l -> descending (insert_scored x l).
Proof.
  induction l as [| d ds IH]; cbn; intro H.
  - split; [constructor | exact I].
  - destruct H as [Hall Hd].
    destruct (Qleb (sscore x) (sscore d)) eqn:E; cbn.
    + apply Qleb_true in E. split; [|exact (IH Hd)].
      apply List.Forall_forall. intros b Hb. apply insert_scored_In in Hb.
      destruct Hb as [-> | Hb]; [exact E|].
      rewrite List.Forall_forall in Hall. exact (Hall b Hb).
    + apply Qleb_false in E. split; [|split; assumption].
      constructor; [lra|].
      rewrite List.Forall_forall in Hall |- *. intros b Hb.
      specialize (Hall b Hb). lra.
Qed.

Lemma sort_scored_descending (l : list Scored) : descending (sort_scored l).
Proof.
  unfold sort_scored.
  assert (H : forall acc, descending acc ->
              descending (fold_left (fun a x => insert_scored x a) l acc)).
  { induction l as [| x xs IH]; intros acc Hacc; cbn; [exact Hacc|].
    apply IH, insert_scored_descending, Hacc. }
  apply H. exact I.
Qed.

Lemma sort_scored_head (l : list Scored) (first : Scored) (rest : list Scored) :
  sort_scored l = first :: rest ->
  forall c, In c l -> sscore c <= sscore first.
Proof.
  intros Hs c Hc. apply sort_scored_In in Hc. rewrite Hs in Hc.
  pose proof (sort_scored_descending l) as Hd. rewrite Hs in Hd.
  destruct Hd as [Hall _]. destruct Hc as [<- | Hc]; [apply Qle_refl|].
  rewrite List.Forall_forall in Hall. exact (Hall c Hc).
Qed.

Lemma prefer_larger_spec (best c : Scored) :
  (prefer_larger best c = c /\ larger_similar best c) \/
  (prefer_larger best c = best /\ ~ larger_similar best c).
Proof.
  unfold prefer_larger, larger_similar. cbv zeta. cmp_cases.
  - left. tauto.
  - right. split; [reflexivity | lra].
  - right. split; [reflexivity | lra].
  - right. split; [reflexivity | lra].
Qed.

Lemma fold_prefer_larger (cands : list Scored) (first : Scored) :
  let best := fold_left prefer_larger cands first in
  (best = first \/
   (In best cands /\
    exists prev, (prev = first \/ In prev cands) /\ larger_similar prev best)) /\
  ((forall c, In c cands -> ~ larger_similar first c) -> best = first).
Proof.
  cbv zeta. revert first. induction cands as [| c cs IH]; intro first; cbn.
  - split; [left; reflexivity | reflexivity].
  - destruct (IH (prefer_larger first c)) as [IH1 IH2].
    destruct (prefer_larger_spec first c) as [[Hp Hls] | [Hp Hls]]; rewrite Hp in *.
    + split.
      * right. destruct IH1 as [-> | (Hin & prev & Hprev & Hl)].
        -- split; [left; reflexivity|]. exists first. split; [left; reflexivity | exact Hls].
        -- split; [right; exact Hin|]. exists prev. split; [|exact Hl].
           destruct Hprev as [-> | Hprev]; right; [left; reflexivity | right; exact Hprev].
      * intro Hno. exfalso. apply (Hno c); [left; reflexivity | exact Hls].
    + split.
      * destruct IH1 as [-> | (Hin & prev & Hprev & Hl)]; [left; reflexivity|].
        right. split; [right; exact Hin|]. exists prev. split; [|exact Hl].
        destruct Hprev as [-> | Hprev]; [left; reflexivity | right; right; exact Hprev].
      * intro Hno. apply IH2. intros c' Hc'. apply Hno. right. exact Hc'.
Qed.

Lemma firstn_In {A : Type} (n : nat) (l : list A) (x : A) :
  In x (firstn n l) -> In x l.
Proof.
  revert l. induction n as [| n IH]; intros [| a l]; cbn; try tauto.
  intros [-> | H]; [left; reflexivity | right; exact (IH l H)].
Qed.

Lemma sort_scored_nil (l : list Scored) : sort_scored l = [] -> l = [].
Proof.
  destruct l as [| c l]; [reflexivity|]. intro H.
  assert (Hc : In c (sort_scored (c :: l))) by (apply sort_scored_In; left; reflexivity).
  rewrite H in Hc. destruct Hc.
Qed.

(** What [_detect_coin_single_pass] returns, in terms of the scored
    circles. *)
Lemma single_pass_spec (h w : Z) (v : View) :
  match _detect_coin_single_pass h w v with
  | (Some (x, y, r), s) =>
    exists first rest best,
      sort_scored (scored_circles h w v) = first :: rest /\
      (forall c, In c (scored_circles h w v) -> sscore c <= sscore first) /\
      best = fold_left prefer_larger (firstn 9 rest) first /\
      In best (scored_circles h w v) /\
      (x, y, r) = (sx best, sy best, sr best) /\ s = sscore best /\
      (best = first \/
       (In best (firstn 9 rest) /\
        exists prev, (prev = first \/ In prev (firstn 9 rest)) /\
                     larger_similar prev best)) /\
      ((forall c, In c (firstn 9 rest) -> ~ larger_similar first c) -> best = first)
  | (None, s) => scored_circles h w v = [] /\ s = 0
  end.
Proof.
  unfold _detect_coin_single_pass.
  destruct (all_circles v) as [| a l] eqn:Ea.
  - split; [|reflexivity]. unfold scored_circles. rewrite Ea. reflexivity.
  - destruct (sort_scored (scored_circles h w v)) as [| first rest] eqn:Es.
    + split; [apply sort_scored_nil, Es | reflexivity].
    + destruct (fold_prefer_larger (firstn 9 rest) first) as [H1 H2].
      cbv zeta in H1, H2.
      exists first, rest, (fold_left prefer_larger (firstn 9 rest) first).
      split; [reflexivity|]. split; [exact (sort_scored_head _ _ _ Es)|].
      split; [reflexivity|]. split.
      { apply sort_scored_In. rewrite Es.
        destruct H1 as [-> | [Hin _]]; [left; reflexivity|].
        right. exact (firstn_In _ _ _ Hin). }
      split; [reflexivity|]. split; [reflexivity|]. split; [exact H1 | exact H2].
Qed.



(** ** The calibration scale *)

(** Lookups in a dict built by successive stores. *)
Ltac lookup_simpl :=
  repeat first
    [ rewrite lookup_insert_eq
    | rewrite lookup_insert_ne by (let Hx := fresh in intro Hx; discriminate Hx)
    | rewrite lookup_empty ].

(** The thorough search, when it accepts a circle, reports its diameter
    divided by 2.5 cm, whatever coin the estimator is configured for. *)
Lemma coin_reference_scale (self : DimensionEstimator) (img : Image) :
  get_truthy (_detect_coin_reference self img) "detected" = true ->
  exists D : Z,
    _detect_coin_reference self img !! "coin_diameter_px"%string = Some (VInt D) /\
    exists ppcm : Q,
      _detect_coin_reference self img !! "pixels_per_cm"%string = Some (VFloat ppcm) /\
      ppcm == inject_Z D / 2.5.
Proof.
  unfold get_truthy, _detect_coin_reference. cbv zeta.
  destruct (1200 <? shape_w img)%Z;
    destruct (_detect_coin_single_pass _ _ _) as [[[[x y] r] |] s];
    try (lookup_simpl; cbn; discriminate);
    destruct (Qleb 0.40 s); try (lookup_simpl; cbn; discriminate);
    destruct (negb _); intros _; eexists; lookup_simpl;
    (split; [reflexivity|]); eexists; (split; [reflexivity|]); field.
Qed.

(** The validation loop of the fast search reports, when it accepts a
    circle, its diameter divided by the configured coin's diameter (2.4 cm
    when the configured reference has none). *)
Lemma validate_scale (self : DimensionEstimator) (scale : Q)
    (fruit_bbox : option FruitBox) (candidates : list (Q * Z * Z * Z)) :
  exists b : bool,
    validate self scale fruit_bbox candidates !! "detected"%string = Some (VBool b) /\
    (b = true ->
     exists D : Z,
       validate self scale fruit_bbox candidates !! "coin_diameter_px"%string =
         Some (VInt D) /\
       validate self scale fruit_bbox candidates !! "pixels_per_cm"%string =
         Some (VFloat (inject_Z D / default 2.4 (diameter (reference_info self))))).
Proof.
  induction candidates as [| [[[score cx] cy] r] rest IH]; cbn [validate].
  - exists false. split; [reflexivity | discriminate].
  - destruct (Qltb score 0.55); [exists false; split; [reflexivity | discriminate]|].
    match goal with
    | |- context [if ?c then validate _ _ _ _ else _] => destruct c
    end; [exact IH|].
    exists true. split; [lookup_simpl; reflexivity|]. intros _.
    eexists. split; lookup_simpl; reflexivity.
Qed.

Lemma fast_search_scale (self : DimensionEstimator) (img : Image)
    (fruit_bbox : option FruitBox) :
  exists b : bool,
    fast_coin_search self img fruit_bbox !! "detected"%string = Some (VBool b) /\
    (b = true ->
     exists D : Z,
       fast_coin_search self img fruit_bbox !! "coin_diameter_px"%string = Some (VInt D) /\
       fast_coin_search self img fruit_bbox !! "pixels_per_cm"%string =
         Some (VFloat (inject_Z D / default 2.4 (diameter (reference_info self))))).
Proof.
  unfold fast_coin_search. cbv zeta.
  destruct (Qltb (border_brightness img) 165);
    [exists false; split; [reflexivity | discriminate]|].
  destruct (512 <? Z.max (shape_h img) (shape_w img))%Z;
    (destruct (fast_circles img) as [circles|];
     [|exists false; split; [reflexivity | discriminate]]);
    match goal with
    | |- context [match ?l with [] => not_detected | _ :: _ => _ end] =>
      destruct l; [exists false; split; [reflexivity | discriminate] | apply validate_scale]
    end.
Qed.

(** C6, at a failing input: an estimator configured for the 1-peso coin
    (2.0 cm) on [CoinSamples.coin_left], where the thorough search accepts a
    circle of diameter 100 pixels.  It reports 40 pixels per cm, the
    diameter divided by a fixed 2.5 cm, which is 20% away from
    100 / 2.0 = 50; the fast search, on a photo with the same coin, reports
    100 / 2.0 = 50. *)
Theorem C6_thorough_scale_at_peso_1 :
  let est := init "peso_1" true in
  let thorough := _detect_coin_reference est CoinSamples.coin_left in
  let fast := fast_coin_search est CoinSamples.fast_photo None in
  diameter (reference_info est) = Some 2.0 /\
  thorough !! "detected"%string = Some (VBool true) /\
  thorough !! "coin_diameter_px"%string = Some (VInt 100) /\
  (exists ppcm,
     thorough !! "pixels_per_cm"%string = Some (VFloat ppcm) /\ ppcm == 40 /\
     ~ Qabs (ppcm - 100 / 2.0) <= 0.05 * (100 / 2.0)) /\
  fast !! "detected"%string = Some (VBool true) /\
  fast !! "coin_diameter_px"%string = Some (VInt 100) /\
  (exists ppcm,
     fast !! "pixels_per_cm"%string = Some (VFloat ppcm) /\ ppcm == 100 / 2.0).
Proof.
  cbv zeta.
  split; [vm_compute; reflexivity|]. split; [vm_compute; reflexivity|].
  split; [vm_compute; reflexivity|]. split.
  { eexists. split; [vm_compute; reflexivity|].
    split; [vm_compute; reflexivity|]. vm_compute. intro H. apply H. reflexivity. }
  split; [vm_compute; reflexivity|]. split; [vm_compute; reflexivity|].
  eexists. split; vm_compute; reflexivity.
Qed.

(** ** Calibrated measurement *)





(** ** Fallback when no coin is found *)



Lemma contour_not_found (self : DimensionEstimator) (img : Image) :
  ~ fruit_found img ->
  _estimate_from_contour self img =
  <["warning" := VStr "No reference object detected. Using contour-based estimation."]> (
  <["detected" := VBool false]> ∅).
Proof.
  intro Hno. unfold _estimate_from_contour, _segment_fruit. cbv zeta.
  destruct (segmented img) as [c|] eqn:Hc; [|reflexivity].
  destruct (Nat.leb_spec 5 (n_pts c)) as [Hn | Hn]; [|reflexivity].
  exfalso. apply Hno. exists c. split; [exact Hc | exact Hn].
Qed.





(** ** Two further facts about the calibration scale *)

(** Whenever the thorough search accepts a circle of pixel diameter [D], it
    reports [D / 2.5] pixels per cm, whatever coin is configured. *)
Lemma thorough_scale_is_fixed (self : DimensionEstimator) (img : Image) :
  get_truthy (_detect_coin_reference self img) "detected" = true ->
  exists D : Z,
    _detect_coin_reference self img !! "coin_diameter_px"%string = Some (VInt D) /\
    exists ppcm : Q,
      _detect_coin_reference self img !! "pixels_per_cm"%string = Some (VFloat ppcm) /\
      ppcm == inject_Z D / 2.5.
Proof. exact (coin_reference_scale self img). Qed.

Lemma thorough_scale_is_fixed_witness :
  get_truthy (_detect_coin_reference (init "peso_20" true) CoinSamples.coin_left)
             "detected" = true /\
  exists D : Z,
    _detect_coin_reference (init "peso_20" true) CoinSamples.coin_left
      !! "coin_diameter_px"%string = Some (VInt D) /\
    exists ppcm : Q,
      _detect_coin_reference (init "peso_20" true) CoinSamples.coin_left
        !! "pixels_per_cm"%string = Some (VFloat ppcm) /\
      ppcm == inject_Z D / 2.5.
Proof.
  assert (H : get_truthy (_detect_coin_reference (init "peso_20" true)
                            CoinSamples.coin_left) "detected" = true)
    by (vm_compute; reflexivity).
  split; [exact H|].
  exact (thorough_scale_is_fixed (init "peso_20" true) CoinSamples.coin_left H).
Defined.

(** Whenever the fast search accepts a circle of pixel diameter [D], it
    reports [D / C] pixels per cm, [C] being the configured coin's diameter
    in cm (2.4 when the configured reference has no diameter). *)
Lemma fast_scale_law (self : DimensionEstimator) (img : Image)
    (fruit_bbox : option FruitBox) :
  exists b : bool,
    fast_coin_search self img fruit_bbox !! "detected"%string = Some (VBool b) /\
    (b = true ->
     exists D : Z,
       fast_coin_search self img fruit_bbox !! "coin_diameter_px"%string = Some (VInt D) /\
       fast_coin_search self img fruit_bbox !! "pixels_per_cm"%string =
         Some (VFloat (inject_Z D / default 2.4 (diameter (reference_info self))))).
Proof. exact (fast_search_scale self img fruit_bbox). Qed.

(** ** What the thorough search reports *)

(** Peeling one [let] off the goal without expanding it. *)
Ltac pull_let :=
  lazymatch goal with
  | |- ?P (let x := ?v in @?b x) =>
    let y := fresh x in
    change (let y := v in P (b y)); intro y; cbv beta
  end.

(** Bounds of one stage of a running score, from those of the stage
    before. *)
Ltac stage x lo hi :=
  let H := fresh "B" in
  assert (H : lo <= x /\ x <= hi)
    by (subst x; cbv zeta; cmp_cases; cbn [andb]; split; lra);
  clearbody x; destruct H.

(** The score of a circle that is not to the left of the image lies
    between 0.06 and 1. *)
Lemma coin_score_range (pos_x size_ratio : Q) (o : CoinObs) :
  0 <= pos_x -> between 0.06 1 (coin_score pos_x size_ratio o).
Proof.
  intro Hpos. cbv beta delta [coin_score].
  repeat pull_let.
  subst score. stage score0 0.02 0.30. stage score1 0.03 0.48.
  stage score2 0.03 0.58.
  assert (B3 : 0.03 <= score3 /\ score3 <= 0.73).
  { subst score3. destruct (50 <? n_outer o)%Z; cbv zeta; cmp_cases; split; lra. }
  clearbody score3. destruct B3.
  stage score4 0.03 0.83.
  assert (B5 : 0.03 <= score5 /\ score5 <= 0.90).
  { subst score5.
    assert (Hp : 0 <= Qmax 0 ((0.55 - pos_x) / 0.55) /\ Qmax 0 ((0.55 - pos_x) / 0.55) <= 1).
    { split; [apply Q.le_max_l|]. apply Q.max_lub; [lra|].
      apply Qle_shift_div_r; lra. }
    destruct Hp. split; nra. }
  clearbody score5. destruct B5.
  stage score6 0.06 1.
  split; assumption.
Qed.

(** A circle that is scored lies inside the image with a margin of five
    pixels, in the left 55% of it, with a diameter between 4% and 25% of
    the width. *)
Lemma score_circle_some (h w : Z) (observe : Z -> Z -> Z -> CoinObs) (circle : Circle)
    (sc : Scored) :
  (0 < w)%Z ->
  score_circle h w observe circle = Some sc ->
  (5 <= sx sc - sr sc)%Z /\ (sx sc + sr sc < w - 5)%Z /\
  (5 <= sy sc - sr sc)%Z /\ (sy sc + sr sc < h - 5)%Z /\
  (0 < sr sc)%Z /\
  fdiv (sx sc) w <= 0.55 /\
  0.04 < fdiv (2 * sr sc) w /\ fdiv (2 * sr sc) w < 0.25 /\
  0.06 <= sscore sc /\ sscore sc <= 1.
Proof.
  intros Hw. unfold score_circle. cbv zeta.
  set (x := int (c0 circle)). set (y := int (c1 circle)). set (r := int (c2 circle)).
  destruct ((x - r <? Z.max 5 (r / 10)) || (w - Z.max 5 (r / 10) <=? x + r) ||
            (y - r <? Z.max 5 (r / 10)) || (h - Z.max 5 (r / 10) <=? y + r))%Z eqn:Eb;
    [discriminate|].
  rewrite !orb_false_iff in Eb. destruct Eb as (((E1 & E2) & E3) & E4).
  apply Z.ltb_ge in E1, E3. apply Z.leb_gt in E2, E4.
  destruct (Qltb 0.55 (fdiv x w)) eqn:Ep; [discriminate|]. apply Qltb_false in Ep.
  destruct (Qltb 0.04 (fdiv (2 * r) w) && Qltb (fdiv (2 * r) w) 0.25) eqn:Es;
    [|discriminate].
  apply andb_true_iff in Es. destruct Es as [Es1 Es2]. apply Qltb_true in Es1, Es2.
  cbn [negb].
  repeat match goal with
  | |- (if ?b then None else _) = Some _ -> _ => destruct b; [discriminate|]
  end.
  intro H. injection H as <-. cbn [sx sy sr sscore].
  assert (Hr : (0 < r)%Z).
  { destruct (Z.lt_ge_cases 0 r) as [Hr | Hr]; [exact Hr | exfalso].
    assert (Hn : fdiv (2 * r) w <= 0).
    { unfold fdiv. apply Qle_shift_div_r.
      - change 0 with (inject_Z 0). rewrite <- Zlt_Qlt. exact Hw.
      - rewrite Qmult_0_l. change 0 with (inject_Z 0). rewrite <- Zle_Qle. lia. }
    lra. }
  assert (Hx : 0 <= fdiv x w).
  { apply GuardFacts.fdiv_nonneg; lia. }
  destruct (coin_score_range (fdiv x w) (fdiv (2 * r) w) (observe x y r) Hx) as [Hl Hu].
  repeat split; try assumption; lia.
Qed.

Lemma single_pass_facts (h w : Z) (v : View) (x y r : Z) (s : Q) :
  (0 < w)%Z ->
  _detect_coin_single_pass h w v = (Some (x, y, r), s) ->
  (5 <= x - r)%Z /\ (x + r < w - 5)%Z /\ (5 <= y - r)%Z /\ (y + r < h - 5)%Z /\
  (0 < r)%Z /\ fdiv x w <= 0.55 /\
  0.04 < fdiv (2 * r) w /\ fdiv (2 * r) w < 0.25 /\
  0.06 <= s /\ s <= 1.
Proof.
  intros Hw H. pose proof (single_pass_spec h w v) as Hspec. rewrite H in Hspec.
  destruct Hspec as (first & rest & best & _ & _ & _ & Hin & Hxyr & Hs & _).
  injection Hxyr as -> -> ->. subst s.
  unfold scored_circles in Hin. cbv zeta in Hin.
  apply list_elem_of_In, list_elem_of_omap in Hin.
  destruct Hin as (circle & _ & Hsc).
  exact (score_circle_some h w (observe v) circle best Hw Hsc).
Qed.

(** ** The thorough coin search *)









(** ** The position of the reported coin *)

Lemma int_nonneg (q : Q) : 0 <= q -> (0 <= int q)%Z /\ inject_Z (int q) <= q.
Proof.
  intro H. unfold int.
  destruct (Qltb q 0) eqn:E; [apply Qltb_true in E; lra|].
  split; [|apply Qfloor_le].
  change 0%Z with (Qfloor 0). apply Qfloor_resp_le. exact H.
Qed.

(** A centre in the left 55% of the 1200-pixel work image is in the left
    55% of the original image once scaled back. *)
Lemma rescale_left (x0 w : Z) :
  (0 <= x0)%Z -> (1200 < w)%Z -> fdiv x0 1200 <= 0.55 ->
  (0 <= int (inject_Z x0 / fdiv 1200 w))%Z /\
  fdiv (int (inject_Z x0 / fdiv 1200 w)) w <= 0.55.
Proof.
  intros Hx Hw Hp.
  assert (Hw' : 1200 < inject_Z w).
  { change 1200 with (inject_Z 1200). rewrite <- Zlt_Qlt. exact Hw. }
  assert (Hx0 : 0 <= inject_Z x0).
  { change 0 with (inject_Z 0). rewrite <- Zle_Qle. exact Hx. }
  set (q := inject_Z x0 / fdiv 1200 w).
  assert (Hq : q == inject_Z x0 / 1200 * inject_Z w).
  { unfold q, fdiv. change (inject_Z 1200) with 1200. field; repeat split; lra. }
  unfold fdiv in Hp. change (inject_Z 1200) with 1200 in Hp.
  assert (Hd : 0 <= inject_Z x0 / 1200).
  { apply Qle_shift_div_l; lra. }
  assert (Hq0 : 0 <= q) by (rewrite Hq; apply Qmult_le_0_compat; lra).
  destruct (int_nonneg q Hq0) as [Hi0 Hi].
  split; [exact Hi0|].
  unfold fdiv. apply Qle_shift_div_r; [lra|].
  clearbody q. nra.
Qed.

Lemma shrink_left (x0 w : Z) :
  (0 <= x0)%Z -> (1200 < w)%Z -> fdiv x0 1200 <= 0.55 -> fdiv x0 w <= 0.55.
Proof.
  intros Hx Hw Hp.
  assert (Hw' : 1200 < inject_Z w).
  { change 1200 with (inject_Z 1200). rewrite <- Zlt_Qlt. exact Hw. }
  assert (Hx0 : 0 <= inject_Z x0).
  { change 0 with (inject_Z 0). rewrite <- Zle_Qle. exact Hx. }
  unfold fdiv in *. change (inject_Z 1200) with 1200 in Hp.
  apply Qle_shift_div_r; [lra|].
  assert (Hd : inject_Z x0 <= 0.55 * 1200).
  { destruct (Qlt_le_dec (0.55 * 1200) (inject_Z x0)) as [Hc | Hc]; [|exact Hc].
    exfalso. assert (0.55 < inject_Z x0 / 1200) by (apply Qlt_shift_div_l; lra). lra. }
  nra.
Qed.

(** What [_detect_coin_reference] reports when it detects a coin: a centre,
    a radius [r] and the diameter [2 * r] in pixels of the original image,
    the score [s] of the circle, between 0.40 and 1, the confidence
    [min(0.95, 0.5 + s / 2)], hence between 0.70 and 0.95, the coin type
    "peso_5" with diameter 2.5 cm; the centre lies in the left 55% of the
    original image, also when the search ran on a reduced copy. *)
Lemma thorough_detection_report (self : DimensionEstimator) (img : Image) :
  (0 < shape_w img)%Z ->
  get_truthy (_detect_coin_reference self img) "detected" = true ->
  let res := _detect_coin_reference self img in
  exists (x y r : Z) (s conf : Q),
    res !! "coin_center"%string = Some (VPair (VInt x) (VInt y)) /\
    res !! "coin_radius"%string = Some (VInt r) /\
    res !! "coin_diameter_px"%string = Some (VInt (2 * r)) /\
    res !! "detection_score"%string = Some (VFloat s) /\
    res !! "confidence"%string = Some (VFloat conf) /\
    res !! "coin_type"%string = Some (VStr "peso_5") /\
    res !! "coin_diameter_cm"%string = Some (VFloat 2.5) /\
    0.40 <= s /\ s <= 1 /\
    conf == Qmin 0.95 (0.5 + s * 0.5) /\ 0.70 <= conf /\ conf <= 0.95 /\
    (0 <= x)%Z /\ fdiv x (shape_w img) <= 0.55.
Proof.
  intros Hw. cbv zeta. unfold get_truthy, _detect_coin_reference. cbv zeta.
  assert (Hconf : forall s, 0.40 <= s -> s <= 1 ->
            0.70 <= Qmin 0.95 (0.5 + s * 0.5) /\ Qmin 0.95 (0.5 + s * 0.5) <= 0.95).
  { intros s H1 H2. split; [apply Q.min_glb; lra | apply Q.le_min_l]. }
  destruct (Z.ltb_spec 1200 (shape_w img)) as [Hbig | Hsmall].
  - destruct (_detect_coin_single_pass _ _ _) as [[[[x0 y0] r0] |] s] eqn:Esp;
      [|lookup_simpl; cbn; discriminate].
    destruct (Qleb 0.40 s) eqn:Es; [|lookup_simpl; cbn; discriminate].
    apply Qleb_true in Es. intros _.
    destruct (single_pass_facts _ 1200%Z _ _ _ _ _ eq_refl Esp)
      as (Hx1 & _ & _ & _ & Hr & Hpos & _ & _ & _ & Hs1).
    destruct (Hconf s Es Hs1) as (Hc2 & Hc3).
    destruct (negb (Qeq_bool (fdiv 1200 (shape_w img)) 1.0)).
    + destruct (rescale_left x0 (shape_w img) ltac:(lia) Hbig Hpos) as [Ha Hb].
      do 5 eexists. lookup_simpl.
      repeat (split; [reflexivity|]).
      repeat split; try assumption.
    + do 5 eexists. lookup_simpl.
      repeat (split; [reflexivity|]).
      repeat split; try assumption; [lia|].
      apply shrink_left; [lia | exact Hbig | exact Hpos].
  - destruct (_detect_coin_single_pass _ _ _) as [[[[x0 y0] r0] |] s] eqn:Esp;
      [|lookup_simpl; cbn; discriminate].
    destruct (Qleb 0.40 s) eqn:Es; [|lookup_simpl; cbn; discriminate].
    apply Qleb_true in Es. intros _.
    destruct (single_pass_facts _ _ _ _ _ _ _ Hw Esp)
      as (Hx1 & _ & _ & _ & Hr & Hpos & _ & _ & _ & Hs1).
    destruct (Hconf s Es Hs1) as (Hc2 & Hc3).
    change (negb (Qeq_bool 1.0 1.0)) with false. cbv iota.
    do 5 eexists. lookup_simpl.
    repeat (split; [reflexivity|]).
    repeat split; try assumption. lia.
Qed.

(** At [CoinSamples.coin_left]: the coin is detected with a confidence
    between 0.70 and 0.95. *)
Lemma thorough_detection_report_witness :
  let est := init "peso_5" true in
  let img := CoinSamples.coin_left in
  (0 < shape_w img)%Z /\
  get_truthy (_detect_coin_reference est img) "detected" = true /\
  exists conf : Q,
    _detect_coin_reference est img !! "confidence"%string = Some (VFloat conf) /\
    0.70 <= conf /\ conf <= 0.95.
Proof.
  cbv zeta.
  assert (Hw : (0 < shape_w CoinSamples.coin_left)%Z) by (vm_compute; reflexivity).
  assert (H : get_truthy (_detect_coin_reference (init "peso_5" true)
                            CoinSamples.coin_left) "detected" = true)
    by (vm_compute; reflexivity).
  split; [exact Hw|]. split; [exact H|].
  destruct (thorough_detection_report (init "peso_5" true) CoinSamples.coin_left Hw H)
    as (x & y & r & s & conf & _ & _ & _ & _ & Hc & _ & _ & _ & _ & _ & H1 & H2 & _).
  exists conf. split; [exact Hc|]. split; [exact H1 | exact H2].
Defined.

(** The circles kept by the removal of duplicates are circles of the
    input; every circle of the input is kept or duplicates a kept one
    (centres closer than the threshold, radii within a factor 1.25); the
    first circle is always kept. *)
Lemma dedup_step_cases (dedup_thr : Z) (unique : list Circle) (c : Circle) :
  dedup_step dedup_thr unique c = unique ++ [c] \/
  (dedup_step dedup_thr unique c = unique /\
   exists u, In u unique /\ near_duplicate dedup_thr c u).
Proof.
  unfold dedup_step. cbv zeta.
  destruct (List.find _ unique) as [u|] eqn:Ef; [|left; reflexivity].
  apply List.find_some in Ef. destruct Ef as [Hin Hnear].
  apply Qltb_true in Hnear.
  destruct (Qltb (Qmax (c2 c) (c2 u) / Qmax 1 (Qmin (c2 c) (c2 u))) 1.25) eqn:Er;
    cbn [negb]; [|left; reflexivity].
  apply Qltb_true in Er. right. split; [reflexivity|].
  exists u. split; [exact Hin|]. split; assumption.
Qed.

Lemma dedup_fold (dedup_thr : Z) (all acc : list Circle) :
  let unique := fold_left (dedup_step dedup_thr) all acc in
  (forall u, In u acc -> In u unique) /\
  (forall u, In u unique -> In u acc \/ In u all) /\
  (forall c, In c all ->
     In c unique \/ exists u, In u unique /\ near_duplicate dedup_thr c u).
Proof.
  cbv zeta. revert acc. induction all as [| c cs IH]; intro acc; cbn [fold_left].
  - split; [tauto|]. split; [tauto|]. intros c [].
  - destruct (IH (dedup_step dedup_thr acc c)) as (I1 & I2 & I3).
    destruct (dedup_step_cases dedup_thr acc c) as [E | (E & u & Hu & Hd)]; rewrite E in *.
    + split; [intros u Hu; apply I1, in_or_app; left; exact Hu|].
      split.
      * intros u Hu. destruct (I2 u Hu) as [H | H]; [|right; right; exact H].
        apply in_app_or in H. destruct H as [H | [<- | []]]; [left; exact H|].
        right. left. reflexivity.
      * intros c' [<- | Hc']; [|apply I3, Hc'].
        left. apply I1, in_or_app. right. left. reflexivity.
    + split; [exact I1|]. split.
      * intros u' Hu'. destruct (I2 u' Hu') as [H | H]; [left | right; right]; exact H.
      * intros c' [<- | Hc']; [|apply I3, Hc'].
        right. exists u. split; [apply I1, Hu | exact Hd].
Qed.

(** The removal of duplicate circles, run from the empty list as the
    thorough search does: nothing is invented, nothing is lost but
    duplicates, and the first circle is kept. *)
Lemma dedup_guarantee (dedup_thr : Z) (all : list Circle) :
  let unique := fold_left (dedup_step dedup_thr) all [] in
  (forall u, In u unique -> In u all) /\
  (forall c, In c all ->
     In c unique \/ exists u, In u unique /\ near_duplicate dedup_thr c u) /\
  (forall c rest, all = c :: rest -> In c unique).
Proof.
  cbv zeta. destruct (dedup_fold dedup_thr all []) as (_ & I2 & I3).
  split; [intros u Hu; destruct (I2 u Hu) as [[] | H]; exact H|].
  split; [exact I3|].
  intros c rest ->. cbn [fold_left].
  destruct (dedup_fold dedup_thr rest (dedup_step dedup_thr [] c)) as (J1 & _).
  apply J1. cbn. left. reflexivity.
Qed.

(** ** What the fast search reports *)

Lemma validate_facts (self : DimensionEstimator) (scale : Q)
    (fruit_bbox : option FruitBox) (candidates : list (Q * Z * Z * Z)) :
  get_truthy (validate self scale fruit_bbox candidates) "detected" = true ->
  let res := validate self scale fruit_bbox candidates in
  exists (score : Q) (cx cy r : Z) (ppcm : Q),
    In (score, cx, cy, r) candidates /\ 0.55 <= score /\
    res !! "coin_center"%string =
      Some (VPair (VInt (int (inject_Z cx / scale))) (VInt (int (inject_Z cy / scale)))) /\
    res !! "coin_radius"%string = Some (VInt (int (inject_Z r / scale))) /\
    res !! "coin_diameter_px"%string = Some (VInt (int (inject_Z r / scale) * 2)) /\
    res !! "confidence"%string = Some (VFloat (Qmin 0.90 score)) /\
    0.55 <= Qmin 0.90 score /\ Qmin 0.90 score <= 0.90 /\
    res !! "pixels_per_cm"%string = Some (VFloat ppcm) /\
    res !! "coin_name"%string = Some (VStr (name (reference_info self))) /\
    fruit_size_plausible fruit_bbox ppcm.
Proof.
  cbv zeta. induction candidates as [| [[[score cx] cy] r] rest IH]; cbn [validate].
  - unfold get_truthy, not_detected. lookup_simpl. cbn. discriminate.
  - destruct (Qltb score 0.55) eqn:Es.
    { unfold get_truthy, not_detected. lookup_simpl. cbn. discriminate. }
    apply Qltb_false in Es.
    match goal with
    | |- context [if ?c then validate _ _ _ _ else _] => destruct c eqn:Ec
    end.
    + intro H. destruct (IH H) as (s' & cx' & cy' & r' & ppcm & Hin & Hrest).
      exists s', cx', cy', r', ppcm. split; [right; exact Hin | exact Hrest].
    + intros _. exists score, cx, cy, r. eexists. lookup_simpl.
      split; [left; reflexivity|]. split; [exact Es|].
      do 4 (split; [reflexivity|]).
      split; [apply Q.min_glb; lra|]. split; [apply Q.le_min_l|].
      do 2 (split; [reflexivity|]).
      intros fb s0 s1 -> Hsz. destruct fb as [bb fs]. cbn [fruit_size] in Hsz. subst fs.
      rewrite !orb_false_iff in Ec. destruct Ec as (((E1 & E2) & E3) & E4).
      apply Qltb_false in E1, E2, E3, E4. repeat split; assumption.
Qed.

(** What the fast search returns. *)
Lemma fast_search_facts (self : DimensionEstimator) (img : Image)
    (fruit_bbox : option FruitBox) :
  let res := fast_coin_search self img fruit_bbox in
  (border_brightness img < 165 -> res = not_detected) /\
  (fast_circles img = None -> res = not_detected) /\
  (get_truthy res "detected" = true ->
   165 <= border_brightness img /\
   exists (conf ppcm : Q) (r : Z) (centre : Val),
     res !! "confidence"%string = Some (VFloat conf) /\ 0.55 <= conf /\ conf <= 0.90 /\
     res !! "coin_center"%string = Some centre /\
     res !! "coin_radius"%string = Some (VInt r) /\
     res !! "coin_diameter_px"%string = Some (VInt (r * 2)) /\
     res !! "pixels_per_cm"%string = Some (VFloat ppcm) /\
     res !! "coin_name"%string = Some (VStr (name (reference_info self))) /\
     fruit_size_plausible fruit_bbox ppcm).
Proof.
  cbv zeta. unfold fast_coin_search. cbv zeta.
  destruct (Qltb (border_brightness img) 165) eqn:Eb.
  { split; [reflexivity|]. split; [reflexivity|].
    unfold get_truthy, not_detected. lookup_simpl. cbn. discriminate. }
  apply Qltb_false in Eb.
  split; [intro H; lra|].
  destruct (512 <? Z.max (shape_h img) (shape_w img))%Z;
    (destruct (fast_circles img) as [circles|];
     [|split; [reflexivity|];
       unfold get_truthy, not_detected; lookup_simpl; cbn; discriminate]);
    (split; [discriminate|]);
    match goal with
    | |- context [match ?l with [] => not_detected | _ :: _ => _ end] =>
      destruct l eqn:El;
      [unfold get_truthy, not_detected; lookup_simpl; cbn; discriminate|]
    end;
    intro H; (split; [exact Eb|]);
    destruct (validate_facts _ _ _ _ H)
      as (score & cx & cy & r & ppcm & _ & _ & H0 & H1 & H2 & H3 & H4 & H5 & H6 & H7 & H8);
    exists (Qmin 0.90 score), ppcm; do 2 eexists;
    (split; [exact H3|]); (split; [exact H4|]); (split; [exact H5|]);
    (split; [exact H0|]);
    (split; [exact H1|]); (split; [exact H2|]); (split; [exact H6|]);
    (split; [exact H7 | exact H8]).
Qed.

(** [fast_coin_search] reports no coin when the border of the image is
    darker than 165 or when the Hough transform finds no circle.  When it
    detects a coin, the border is at least that bright, the confidence lies
    between 0.55 and 0.90, a centre is reported, the diameter is twice the
    radius, the coin's name is the configured reference's, and at the
    reported scale the fruit's size, when one was given, is that of a
    plausible fruit. *)
Lemma fast_detection_report (self : DimensionEstimator) (img : Image)
    (fruit_bbox : option FruitBox) :
  let res := fast_coin_search self img fruit_bbox in
  (border_brightness img < 165 -> res = not_detected) /\
  (fast_circles img = None -> res = not_detected) /\
  (get_truthy res "detected" = true ->
   165 <= border_brightness img /\
   exists (conf ppcm : Q) (r : Z) (centre : Val),
     res !! "confidence"%string = Some (VFloat conf) /\ 0.55 <= conf /\ conf <= 0.90 /\
     res !! "coin_center"%string = Some centre /\
     res !! "coin_radius"%string = Some (VInt r) /\
     res !! "coin_diameter_px"%string = Some (VInt (r * 2)) /\
     res !! "pixels_per_cm"%string = Some (VFloat ppcm) /\
     res !! "coin_name"%string = Some (VStr (name (reference_info self))) /\
     fruit_size_plausible fruit_bbox ppcm).
Proof. exact (fast_search_facts self img fruit_bbox). Qed.

Lemma insert_candidate_In (c x : Q * Z * Z * Z) (l : list (Q * Z * Z * Z)) :
  In c (insert_candidate x l) <-> c = x \/ In c l.
Proof.
  induction l as [| d ds IH]; cbn.
  - intuition congruence.
  - destruct (Qleb _ _); cbn; rewrite ?IH; intuition congruence.
Qed.

Lemma sort_candidates_In (c : Q * Z * Z * Z) (l : list (Q * Z * Z * Z)) :
  In c (sort_candidates l) <-> In c l.
Proof.
  unfold sort_candidates.
  assert (H : forall acc, In c (fold_left (fun a x => insert_candidate x a) l acc) <->
                          In c l \/ In c acc).
  { induction l as [| x xs IH]; intro acc; cbn; [tauto|].
    rewrite IH, insert_candidate_In. intuition congruence. }
  rewrite H. cbn. tauto.
Qed.

Lemma fast_candidate_some (h w : Z) (fruit_rect : option (Q * Q * Q * Q))
    (observe : Z -> Z -> Z -> FastObs) (circle : Circle) (score : Q) (cx cy r : Z) :
  fast_candidate h w fruit_rect observe circle = Some (score, cx, cy, r) ->
  (1 <= r)%Z /\ (2 <= cx - r)%Z /\ (2 <= cy - r)%Z /\ (cx + r < w - 2)%Z /\
  (cy + r < h - 2)%Z /\
  (forall f0 f1 f2 f3, fruit_rect = Some (f0, f1, f2, f3) ->
     ~ (f0 < inject_Z cx /\ inject_Z cx < f2 /\ f1 < inject_Z cy /\ inject_Z cy < f3)) /\
  0.15 <= fdiv (edge_hits (observe cx cy r)) (Z.max 1 (n_valid (observe cx cy r))).
Proof.
  unfold fast_candidate. cbv zeta.
  set (x := int (c0 circle)). set (y := int (c1 circle)).
  set (rr := Z.max 1 (int (c2 circle))).
  destruct ((x - rr <? 2) || (y - rr <? 2) || (w - 2 <=? x + rr) || (h - 2 <=? y + rr))%Z
    eqn:Eb; [discriminate|].
  rewrite !orb_false_iff in Eb. destruct Eb as (((E1 & E2) & E3) & E4).
  apply Z.ltb_ge in E1, E2. apply Z.leb_gt in E3, E4.
  destruct (match fruit_rect with Some _ => _ | None => false end) eqn:Ef; [discriminate|].
  destruct (Qltb (fdiv (edge_hits (observe x y rr)) (Z.max 1 (n_valid (observe x y rr))))
                 0.15) eqn:Ee; [discriminate|].
  apply Qltb_false in Ee.
  intro H. injection H as _ <- <- <-.
  split; [unfold rr; lia|]. repeat (split; [lia|]).
  split; [|exact Ee].
  intros f0 f1 f2 f3 -> (H0 & H1 & H2 & H3).
  apply Qltb_true in H0, H1, H2, H3. rewrite H0, H1, H2, H3 in Ef. discriminate Ef.
Qed.

(** ** The fast search, candidate by candidate *)








(** The truncated quotient is a length scaled back. *)
Lemma int_scaled_back (scale : Q) (n : Z) :
  0 < scale -> (0 <= n)%Z -> scaled_back scale n (int (inject_Z n / scale)).
Proof.
  intros Hs Hn. unfold scaled_back.
  assert (Hq : 0 <= inject_Z n / scale).
  { apply Qle_shift_div_l; [exact Hs|]. rewrite Qmult_0_l.
    change 0 with (inject_Z 0). rewrite <- Zle_Qle. exact Hn. }
  destruct (int_nonneg _ Hq) as [_ Hle]. split; [exact Hle|].
  unfold int. destruct (Qltb (inject_Z n / scale) 0) eqn:E; [apply Qltb_true in E; lra|].
  destruct (floor_bounds (inject_Z n / scale)) as [_ Hlt]. lra.
Qed.


Lemma search_scale_pos (img : Image) : 0 < fst (fst (search_frame img)).
Proof.
  unfold search_frame.
  destruct (Z.ltb_spec 512 (Z.max (shape_h img) (shape_w img))) as [H | H];
    cbn [fst snd]; [|reflexivity].
  unfold fdiv. apply Qlt_shift_div_l.
  - change 0 with (inject_Z 0). rewrite <- Zlt_Qlt. lia.
  - rewrite Qmult_0_l. reflexivity.
Qed.




(** The fast search in terms of its candidates. *)
Lemma fast_search_unfold (self : DimensionEstimator) (img : Image)
    (fruit_bbox : option FruitBox) :
  fast_coin_search self img fruit_bbox =
  if Qltb (border_brightness img) 165 then not_detected
  else match fast_circles img with
       | None => not_detected
       | Some circles =>
         validate self (fst (fst (search_frame img))) fruit_bbox
                  (sort_candidates (fast_candidates img fruit_bbox circles))
       end.
Proof.
  unfold fast_coin_search, fast_candidates, search_frame, shrunk_fruit_rect. cbv zeta.
  destruct (Qltb (border_brightness img) 165); [reflexivity|].
  destruct (512 <? Z.max (shape_h img) (shape_w img))%Z; cbn [fst snd];
    (destruct (fast_circles img) as [circles|]; [|reflexivity]);
    match goal with
    | |- match ?l with [] => not_detected | _ :: _ => _ end = _ =>
      destruct l eqn:El; reflexivity
    end.
Qed.



(** ** No coin found *)




(** ** Where the fast search's coin lies *)

(** The coin [fast_coin_search] detects comes from a circle of the search
    image that lies inside it with a margin of two pixels and whose centre
    is not inside the fruit's box shrunk by 15% on each side; the reported
    centre and radius are that circle's divided by the scale and
    truncated, to within one pixel. *)
Lemma fast_coin_outside_fruit (self : DimensionEstimator) (img : Image)
    (fruit_bbox : option FruitBox) :
  get_truthy (fast_coin_search self img fruit_bbox) "detected" = true ->
  let res := fast_coin_search self img fruit_bbox in
  let scale := fst (fst (search_frame img)) in
  let h := snd (fst (search_frame img)) in
  let w := snd (search_frame img) in
  exists cx cy r X Y R : Z,
    res !! "coin_center"%string = Some (VPair (VInt X) (VInt Y)) /\
    res !! "coin_radius"%string = Some (VInt R) /\
    scaled_back scale cx X /\ scaled_back scale cy Y /\ scaled_back scale r R /\
    (1 <= r)%Z /\ (2 <= cx - r)%Z /\ (2 <= cy - r)%Z /\ (cx + r < w - 2)%Z /\
    (cy + r < h - 2)%Z /\
    (forall f0 f1 f2 f3, shrunk_fruit_rect fruit_bbox scale = Some (f0, f1, f2, f3) ->
       ~ (f0 < inject_Z cx /\ inject_Z cx < f2 /\ f1 < inject_Z cy /\ inject_Z cy < f3)).
Proof.
  cbv zeta. rewrite fast_search_unfold.
  destruct (Qltb (border_brightness img) 165).
  { unfold get_truthy, not_detected; lookup_simpl; cbn; discriminate. }
  destruct (fast_circles img) as [circles|];
    [|unfold get_truthy, not_detected; lookup_simpl; cbn; discriminate].
  intro H.
  destruct (validate_facts _ _ _ _ H)
    as (score & cx & cy & r & ppcm & Hin & _ & Hc & Hr & _).
  apply (proj1 (sort_candidates_In _ _)) in Hin.
  pose proof (search_scale_pos img) as Hpos.
  unfold fast_candidates in Hin.
  destruct (search_frame img) as [[scale h] w]. cbn [fst snd] in *.
  apply list_elem_of_In, list_elem_of_omap in Hin.
  destruct Hin as (circle & _ & Hcand).
  destruct (fast_candidate_some _ _ _ _ _ _ _ _ _ Hcand)
    as (G1 & G2 & G3 & G4 & G5 & G6 & _).
  exists cx, cy, r, (int (inject_Z cx / scale)), (int (inject_Z cy / scale)),
         (int (inject_Z r / scale)).
  split; [exact Hc|]. split; [exact Hr|].
  split; [apply int_scaled_back; [exact Hpos | lia]|].
  split; [apply int_scaled_back; [exact Hpos | lia]|].
  split; [apply int_scaled_back; [exact Hpos | lia]|].
  repeat (split; [assumption|]). exact G6.
Qed.

(** At [CoinSamples.fast_photo] with the fruit box of
    [CoinSamples.fruit_box]: the reported coin, of radius 50, is the circle
    of radius 26 of the 512-pixel image, to the left of the fruit. *)
Lemma fast_coin_outside_fruit_witness :
  let est := init "peso_5" true in
  let img := CoinSamples.fast_photo in
  let res := fast_coin_search est img (Some CoinSamples.fruit_box) in
  get_truthy res "detected" = true /\
  res !! "coin_radius"%string = Some (VInt 50) /\
  exists r R : Z,
    res !! "coin_radius"%string = Some (VInt R) /\
    scaled_back (fst (fst (search_frame img))) r R /\ (1 <= r)%Z.
Proof.
  cbv zeta.
  assert (H : get_truthy (fast_coin_search (init "peso_5" true) CoinSamples.fast_photo
                            (Some CoinSamples.fruit_box)) "detected" = true)
    by (vm_compute; reflexivity).
  split; [exact H|]. split; [vm_compute; reflexivity|].
  destruct (fast_coin_outside_fruit (init "peso_5" true) CoinSamples.fast_photo
              (Some CoinSamples.fruit_box) H)
    as (cx & cy & r & X & Y & R & _ & Hr & _ & _ & HR & H1 & _).
  exists r, R. split; [exact Hr|]. split; [exact HR | exact H1].
Defined.

(** ** The calibrated measurement *)

Lemma ordered_axes_le (c : FruitContour) : fst (ordered_axes c) <= snd (ordered_axes c).
Proof.
  unfold ordered_axes. cbv zeta. cmp_cases; cbn [fst snd]; lra.
Qed.

(** In a calibrated measurement the reported width never exceeds the
    reported length, and the reported area lies between 3.53 and 37.70
    square centimetres. *)
Lemma measure_fruit_ordered (self : DimensionEstimator) (img : Image) (ppcm : Q)
    (c : FruitContour) :
  segmented img = Some c -> (5 <= n_pts c)%nat -> 0 < ppcm ->
  let res := _measure_fruit self img ppcm in
  exists length_cm width_cm area_cm2 : Q,
    res !! "length_cm"%string = Some (VFloat length_cm) /\
    res !! "width_cm"%string = Some (VFloat width_cm) /\
    res !! "area_cm2"%string = Some (VFloat area_cm2) /\
    width_cm <= length_cm /\
    3.53 <= area_cm2 /\ area_cm2 <= 37.70.
Proof.
  intros Hseg Hn Hp. cbv zeta. unfold _measure_fruit, _segment_fruit.
  rewrite Hseg. apply Nat.leb_le in Hn. rewrite Hn.
  pose proof (ordered_axes_le c) as Hle.
  destruct (ordered_axes c) as [mn mj]. cbn [fst snd] in Hle. cbv zeta.
  do 3 eexists. lookup_simpl.
  do 3 (split; [reflexivity|]).
  assert (Hraw : mn / ppcm <= mj / ppcm).
  { apply Qmult_le_compat_r; [exact Hle|]. apply Qlt_le_weak, Qinv_lt_0_compat, Hp. }
  destruct (clip_bounds (mj / ppcm) 3.0 8.0) as [L1 L2]; [discriminate|].
  destruct (clip_bounds (mn / ppcm) 1.5 6.0) as [W1 W2]; [discriminate|].
  split.
  { apply round_mono. unfold clip.
    apply Q.min_le_compat; [|discriminate].
    apply Q.max_le_compat; [exact Hraw | discriminate]. }
  unfold clip in *.
  set (L := Qmin (Qmax (mj / ppcm) 3.0) 8.0) in *.
  set (W := Qmin (Qmax (mn / ppcm) 1.5) 6.0) in *.
  assert (Hpi : 3.14159 < np_pi /\ np_pi < 3.1416) by (split; reflexivity).
  destruct Hpi as [P1 P2]. clearbody L W.
  assert (Ea : L / 2 == L * (1 # 2)) by field.
  assert (Eb : W / 2 == W * (1 # 2)) by field.
  set (a := L / 2) in *. set (b := W / 2) in *. clearbody a b.
  assert (A1 : 1.5 <= a) by lra. assert (A2 : a <= 4) by lra.
  assert (B1 : 0.75 <= b) by lra. assert (B2 : b <= 3) by lra.
  clear Ea Eb L1 L2 W1 W2.
  generalize dependent np_pi. intros p P1 P2.
  assert (Hpa : 4.712385 <= p * a /\ p * a <= 12.5664) by (split; nra).
  destruct Hpa as [Q1 Q2]. set (pa := p * a) in *. clearbody pa.
  split.
  - apply (round_ge 3.53 _ 2 353); [vm_compute; reflexivity|]. nra.
  - apply (round_le 37.70 _ 2 3770); [vm_compute; reflexivity|]. nra.
Qed.

(** At [CoinSamples.coin_left], 40 pixels per cm. *)
Lemma measure_fruit_ordered_witness :
  let res := _measure_fruit (init "peso_5" true) CoinSamples.coin_left 40 in
  segmented CoinSamples.coin_left = Some CoinSamples.fruit_outline /\
  (5 <= n_pts CoinSamples.fruit_outline)%nat /\ 0 < 40 /\
  exists length_cm width_cm : Q,
    res !! "length_cm"%string = Some (VFloat length_cm) /\
    res !! "width_cm"%string = Some (VFloat width_cm) /\
    width_cm <= length_cm.
Proof.
  cbv zeta.
  assert (Hn : (5 <= n_pts CoinSamples.fruit_outline)%nat) by (cbn; lia).
  assert (Hp : 0 < 40) by reflexivity.
  split; [reflexivity|]. split; [exact Hn|]. split; [exact Hp|].
  destruct (measure_fruit_ordered (init "peso_5" true) CoinSamples.coin_left 40
              CoinSamples.fruit_outline eq_refl Hn Hp)
    as (l & w & a & Hl & Hw & _ & Hle & _).
  exists l, w. split; [exact Hl|]. split; [exact Hw | exact Hle].
Defined.

(** ** The statistical prior *)






(** ** The stages of [estimate_from_image] *)

Lemma estimate_unfold (self : DimensionEstimator) (img : Image) (m : string) :
  estimate_from_image self (Some img) m =
  let result := calibration self img m in
  if get_truthy result "pixels_per_cm" then
    match get_float result "pixels_per_cm" with
    | Some ppcm => <["success" := VBool true]> (update result (_measure_fruit self img ppcm))
    | None => result
    end
  else result.
Proof. reflexivity. Qed.

Lemma aruco_keys (self : DimensionEstimator) (img : Image) (k : string) :
  In k measured_keys -> _detect_aruco self img !! k = None.
Proof.
  intros [<- | [<- | [<- | [<- | []]]]]; unfold _detect_aruco; cbv zeta;
    destruct (negb (aruco_dict self)); try (lookup_simpl; reflexivity);
    destruct (marker img); lookup_simpl; reflexivity.
Qed.

Lemma coin_keys (self : DimensionEstimator) (img : Image) (k : string) :
  In k measured_keys -> _detect_coin_reference self img !! k = None.
Proof.
  intros [<- | [<- | [<- | [<- | []]]]]; unfold _detect_coin_reference; cbv zeta;
    destruct (1200 <? shape_w img)%Z;
    destruct (_detect_coin_single_pass _ _ _) as [[[[x y] r] |] s];
    try (lookup_simpl; reflexivity);
    destruct (Qleb 0.40 s); try (lookup_simpl; reflexivity);
    destruct (negb _); lookup_simpl; reflexivity.
Qed.

Lemma card_keys (self : DimensionEstimator) (img : Image) (k : string) :
  k <> "detected"%string -> _detect_card_reference self img !! k = None.
Proof.
  intro H. unfold _detect_card_reference.
  rewrite lookup_insert_ne by congruence. apply lookup_empty.
Qed.

Lemma contour_keys_absent (self : DimensionEstimator) (img : Image) :
  _estimate_from_contour self img !! "success"%string = None /\
  _estimate_from_contour self img !! "area_cm2"%string = None.
Proof.
  unfold _estimate_from_contour. cbv zeta.
  destruct (_segment_fruit img) as [c|]; [|split; lookup_simpl; reflexivity].
  destruct (5 <=? n_pts c)%nat; [|split; lookup_simpl; reflexivity].
  destruct (ordered_axes c) as [mn mj]. split; lookup_simpl; reflexivity.
Qed.

Lemma aruco_scale (self : DimensionEstimator) (img : Image) :
  float_or_absent (_detect_aruco self img) "pixels_per_cm".
Proof.
  unfold float_or_absent, _detect_aruco. cbv zeta.
  destruct (negb (aruco_dict self)); [left; lookup_simpl; reflexivity|].
  destruct (marker img); [right; eexists | left]; lookup_simpl; reflexivity.
Qed.

Lemma coin_scale (self : DimensionEstimator) (img : Image) :
  float_or_absent (_detect_coin_reference self img) "pixels_per_cm".
Proof.
  unfold float_or_absent, _detect_coin_reference. cbv zeta.
  destruct (1200 <? shape_w img)%Z;
    destruct (_detect_coin_single_pass _ _ _) as [[[[x y] r] |] s];
    try (left; lookup_simpl; reflexivity);
    destruct (Qleb 0.40 s); try (left; lookup_simpl; reflexivity);
    destruct (negb _); right; eexists; lookup_simpl; reflexivity.
Qed.

Lemma contour_scale (self : DimensionEstimator) (img : Image) :
  float_or_absent (_estimate_from_contour self img) "pixels_per_cm".
Proof.
  unfold float_or_absent, _estimate_from_contour. cbv zeta.
  destruct (_segment_fruit img) as [c|]; [|left; lookup_simpl; reflexivity].
  destruct (5 <=? n_pts c)%nat; [|left; lookup_simpl; reflexivity].
  destruct (ordered_axes c) as [mn mj]. right. eexists. lookup_simpl. reflexivity.
Qed.

(** Outside the two keys the modes set themselves, the calibration result
    holds what one detection result holds, and the initial value
    otherwise. *)
Lemma calibration_lookup (self : DimensionEstimator) (img : Image) (m k : string) :
  k <> "reference_detected"%string -> k <> "method_used"%string ->
  exists d, In d (sources self img) /\
    calibration self img m !! k =
    union_with (fun x _ => Some x) (d !! k) (base_result !! k).
Proof.
  intros H1 H2. unfold calibration, sources. cbv zeta.
  repeat match goal with
  | |- context [if ?b then _ else _] => destruct b
  end;
  rewrite !lookup_insert_ne by congruence; unfold update; rewrite lookup_union;
  eexists; (split; [|reflexivity]); cbn; tauto.
Qed.

Lemma measure_fruit_none (self : DimensionEstimator) (img : Image) (ppcm : Q) :
  ~ fruit_found img -> _measure_fruit self img ppcm = ∅.
Proof.
  intro Hno. unfold _measure_fruit, _segment_fruit. cbv zeta.
  destruct (segmented img) as [c|] eqn:Hc; [|reflexivity].
  destruct (Nat.leb_spec 5 (n_pts c)) as [Hn | Hn]; [|reflexivity].
  exfalso. apply Hno. exists c. split; [exact Hc | exact Hn].
Qed.

Lemma measure_fruit_scale (self : DimensionEstimator) (img : Image) (ppcm : Q) :
  _measure_fruit self img ppcm !! "pixels_per_cm"%string = None.
Proof.
  unfold _measure_fruit. cbv zeta.
  destruct (_segment_fruit img) as [c|]; [|apply lookup_empty].
  destruct (5 <=? n_pts c)%nat; [|apply lookup_empty].
  destruct (ordered_axes c) as [mn mj]. lookup_simpl. reflexivity.
Qed.

Lemma calibration_scale (self : DimensionEstimator) (img : Image) (m : string) :
  calibration self img m !! "pixels_per_cm"%string = Some VNone \/
  exists q, calibration self img m !! "pixels_per_cm"%string = Some (VFloat q).
Proof.
  destruct (calibration_lookup self img m "pixels_per_cm") as (d & Hd & ->);
    [discriminate | discriminate |].
  assert (Hf : float_or_absent d "pixels_per_cm").
  { destruct Hd as [<- | [<- | [<- | [<- | []]]]].
    - apply aruco_scale.
    - apply coin_scale.
    - left. apply card_keys. discriminate.
    - apply contour_scale. }
  destruct Hf as [-> | (q & ->)]; [left; reflexivity | right; exists q; reflexivity].
Qed.

Lemma calibration_success (self : DimensionEstimator) (img : Image) (m : string) :
  calibration self img m !! "success"%string = Some (VBool false).
Proof.
  destruct (calibration_lookup self img m "success") as (d & Hd & ->);
    [discriminate | discriminate |].
  assert (Hn : d !! "success"%string = None).
  { destruct Hd as [<- | [<- | [<- | [<- | []]]]].
    - apply aruco_keys. cbn. tauto.
    - apply coin_keys. cbn. tauto.
    - apply card_keys. discriminate.
    - apply contour_keys_absent. }
  rewrite Hn. reflexivity.
Qed.

Lemma calibration_length (self : DimensionEstimator) (img : Image) (m : string) :
  ~ fruit_found img ->
  calibration self img m !! "length_cm"%string = Some VNone.
Proof.
  intro Hno.
  destruct (calibration_lookup self img m "length_cm") as (d & Hd & ->);
    [discriminate | discriminate |].
  assert (Hn : d !! "length_cm"%string = None).
  { destruct Hd as [<- | [<- | [<- | [<- | []]]]].
    - apply aruco_keys. cbn. tauto.
    - apply coin_keys. cbn. tauto.
    - apply card_keys. discriminate.
    - rewrite (contour_not_found self img Hno). lookup_simpl. reflexivity. }
  rewrite Hn. reflexivity.
Qed.

(** When no fruit is measured, every key but "success" is read off the
    calibration result. *)
Lemma estimate_no_fruit (self : DimensionEstimator) (img : Image) (m k : string) :
  ~ fruit_found img -> k <> "success"%string ->
  estimate_from_image self (Some img) m !! k = calibration self img m !! k.
Proof.
  intros Hno Hk. rewrite estimate_unfold. cbv zeta.
  destruct (get_truthy _ _); [|reflexivity].
  destruct (get_float _ _) as [q|]; [|reflexivity].
  rewrite lookup_insert_ne by congruence.
  unfold update. rewrite (measure_fruit_none self img q Hno).
  rewrite lookup_union, lookup_empty.
  destruct (calibration self img m !! k); reflexivity.
Qed.

(** The success of [estimate_from_image] on a loaded image, in every mode,
    is the truth value of the scale it reports: success is True as soon as
    a non-zero [pixels_per_cm] was obtained, whether or not a fruit was
    then measured; when no fruit contour is found, [length_cm] is None
    even in a successful result. *)
Lemma estimate_success_law (self : DimensionEstimator) (img : Image) (m : string) :
  let res := estimate_from_image self (Some img) m in
  res !! "success"%string = Some (VBool (get_truthy res "pixels_per_cm")) /\
  (~ fruit_found img -> res !! "length_cm"%string = Some VNone).
Proof.
  cbv zeta. rewrite estimate_unfold. cbv zeta.
  pose proof (calibration_success self img m) as Hs.
  destruct (get_truthy (calibration self img m) "pixels_per_cm") eqn:Et.
  - destruct (calibration_scale self img m) as [Hq | (q & Hq)].
    { unfold get_truthy in Et. rewrite Hq in Et. discriminate Et. }
    unfold get_float. rewrite Hq. split.
    + rewrite lookup_insert_eq. f_equal. f_equal. symmetry.
      unfold get_truthy in *. rewrite lookup_insert_ne by discriminate.
      unfold update. rewrite lookup_union, measure_fruit_scale.
      rewrite Hq in *. exact Et.
    + intro Hno. rewrite lookup_insert_ne by discriminate.
      unfold update. rewrite (measure_fruit_none self img q Hno).
      rewrite lookup_union, lookup_empty, (calibration_length self img m Hno).
      reflexivity.
  - split; [rewrite Hs, Et; reflexivity|].
    intro Hno. apply calibration_length, Hno.
Qed.

(** The card mode never measures anything: card detection is disabled, so
    on every image the result has success False, no reference, no scale
    and no dimensions. *)
Lemma card_mode_never_measures (self : DimensionEstimator) (img : Image) :
  let res := estimate_from_image self (Some img) "card" in
  res !! "success"%string = Some (VBool false) /\
  res !! "reference_detected"%string = Some (VBool false) /\
  res !! "method_used"%string = Some (VStr "card") /\
  res !! "pixels_per_cm"%string = Some VNone /\
  res !! "length_cm"%string = Some VNone /\
  res !! "width_cm"%string = Some VNone /\
  res !! "confidence"%string = Some (VFloat 0.0).
Proof. cbv zeta. repeat split; vm_compute; reflexivity. Qed.

(** ** The configured reference *)

Ltac pick := first [reflexivity | left; reflexivity | right; pick].

Lemma reference_info_cases (reference_type : string) (a : bool) :
  let info := reference_info (init reference_type a) in
  (exists d, diameter info = Some d /\ size info = None /\
             (d = 2.0 \/ d = 2.4 \/ d = 2.45 \/ d = 2.5 \/ d = 2.7 \/ d = 2.8)) \/
  (diameter info = None /\ (size info = None \/ size info = Some 5.0)).
Proof.
  cbv zeta. unfold init. cbn [reference_info].
  destruct (REFERENCE_OBJECTS !! reference_type) as [info|] eqn:E.
  - cbn [default from_option]. unfold id.
    apply elem_of_list_to_map_2 in E.
    repeat (apply elem_of_cons in E; destruct E as [E | E];
            [injection E as _ ->; cbn;
             first [ left; eexists; split; [reflexivity|]; split; [reflexivity | pick]
                   | right; split; [reflexivity | pick] ]|]).
    apply elem_of_nil in E. destruct E.
  - cbn. left. eexists. split; [reflexivity|]. split; [reflexivity | pick].
Qed.

Lemma configured_sizes (reference_type : string) (a : bool) :
  let info := reference_info (init reference_type a) in
  default 5.0 (size info) = 5.0 /\
  2.0 <= default 2.4 (diameter info) /\ default 2.4 (diameter info) <= 2.8 /\
  (REFERENCE_OBJECTS !! reference_type = None -> info = peso_5).
Proof.
  cbv zeta. split; [|split; [|split]].
  - destruct (reference_info_cases reference_type a) as [(d & _ & -> & _) | (_ & [-> | ->])];
      reflexivity.
  - destruct (reference_info_cases reference_type a)
      as [(d & -> & _ & [-> | [-> | [-> | [-> | [-> | ->]]]]]) | (-> & _)];
      cbn; discriminate.
  - destruct (reference_info_cases reference_type a)
      as [(d & -> & _ & [-> | [-> | [-> | [-> | [-> | ->]]]]]) | (-> & _)];
      cbn; discriminate.
  - intro H. unfold init. cbn [reference_info]. rewrite H. reflexivity.
Qed.

(** Whatever reference type the estimator is built with, the marker side
    [_detect_aruco] divides by is 5.0 cm, and the coin diameter
    [fast_coin_search] divides by lies between 2.0 and 2.8 cm (2.4 cm for a
    reference that has no diameter); a reference type that is not in the
    table configures the 5-peso coin. *)
Lemma reference_sizes (reference_type : string) (aruco_available : bool) :
  let info := reference_info (init reference_type aruco_available) in
  default 5.0 (size info) = 5.0 /\
  2.0 <= default 2.4 (diameter info) /\ default 2.4 (diameter info) <= 2.8 /\
  (REFERENCE_OBJECTS !! reference_type = None -> info = peso_5).
Proof. exact (configured_sizes reference_type aruco_available). Qed.

(** ** The modes of [estimate_from_image] *)

Lemma measure_fruit_other_keys (self : DimensionEstimator) (img : Image) (ppcm : Q)
    (k : string) :
  ~ In k ["length_cm"; "width_cm"; "area_cm2"; "estimated_weight_g";
          "estimated_kernel_mass_g"; "fruit_contour"; "ellipse"]%string ->
  _measure_fruit self img ppcm !! k = None.
Proof.
  intro Hk. unfold _measure_fruit. cbv zeta.
  destruct (_segment_fruit img) as [c|]; [|apply lookup_empty].
  destruct (5 <=? n_pts c)%nat; [|apply lookup_empty].
  destruct (ordered_axes c) as [mn mj].
  rewrite !lookup_insert_ne; [apply lookup_empty|..];
    intro E; apply Hk; rewrite <- E; cbn; tauto.
Qed.

(** On a usable contour the measurement writes four floats. *)
Lemma measure_fruit_found (self : DimensionEstimator) (img : Image) (ppcm : Q)
    (c : FruitContour) :
  segmented img = Some c -> (5 <= n_pts c)%nat ->
  exists l w g k : Q,
    _measure_fruit self img ppcm !! "length_cm"%string = Some (VFloat l) /\
    _measure_fruit self img ppcm !! "width_cm"%string = Some (VFloat w) /\
    _measure_fruit self img ppcm !! "estimated_weight_g"%string = Some (VFloat g) /\
    _measure_fruit self img ppcm !! "estimated_kernel_mass_g"%string = Some (VFloat k).
Proof.
  intros Hseg Hn. unfold _measure_fruit, _segment_fruit.
  rewrite Hseg. apply Nat.leb_le in Hn. rewrite Hn.
  destruct (ordered_axes c) as [mn mj]. cbv zeta.
  do 4 eexists. lookup_simpl. repeat split; reflexivity.
Qed.

(** The keys the measurement does not write are read off the calibration
    result. *)
Lemma estimate_other_keys (self : DimensionEstimator) (img : Image) (m k : string) :
  ~ In k ["success"; "length_cm"; "width_cm"; "area_cm2"; "estimated_weight_g";
          "estimated_kernel_mass_g"; "fruit_contour"; "ellipse"]%string ->
  estimate_from_image self (Some img) m !! k = calibration self img m !! k.
Proof.
  intro Hk. rewrite estimate_unfold. cbv zeta.
  destruct (get_truthy _ _); [|reflexivity].
  destruct (get_float _ _) as [q|]; [|reflexivity].
  rewrite lookup_insert_ne by (intro E; apply Hk; rewrite <- E; cbn; tauto).
  unfold update. rewrite lookup_union, measure_fruit_other_keys.
  - destruct (calibration self img m !! k); reflexivity.
  - intro E. apply Hk. cbn in E |- *. tauto.
Qed.

(** The calibration result of the automatic mode when a marker is
    detected. *)
Lemma aruco_calibration (reference_type : string) (img : Image) (mk : Marker) :
  marker img = Some mk ->
  calibration (init reference_type true) img "auto" =
  <["reference_detected" := VBool true]> (
  <["method_used" := VStr "aruco"]> (
  update base_result
    (<["confidence" := VFloat 0.95]> (
     <["marker_corners" := VCorners mk]> (
     <["marker_id" := VInt (marker_id mk)]> (
     <["pixels_per_cm" :=
         VFloat ((marker_width_px mk + marker_height_px mk) / 2 / 5.0)]> (
     <["detected" := VBool true]> (<["detected" := VBool false]> ∅)))))))).
Proof.
  intro Hm.
  unfold calibration. cbv zeta. change (String.eqb "auto" "auto") with true. cbv iota.
  assert (Ha : _detect_aruco (init reference_type true) img =
               <["confidence" := VFloat 0.95]> (
               <["marker_corners" := VCorners mk]> (
               <["marker_id" := VInt (marker_id mk)]> (
               <["pixels_per_cm" :=
                   VFloat ((marker_width_px mk + marker_height_px mk) / 2 / 5.0)]> (
               <["detected" := VBool true]> (<["detected" := VBool false]> ∅)))))).
  { unfold _detect_aruco. cbv zeta. cbn [aruco_dict init negb]. rewrite Hm.
    rewrite (proj1 (configured_sizes reference_type true)). reflexivity. }
  rewrite Ha.
  match goal with
  | |- context [if get_truthy ?d "detected" then _ else _] =>
    replace (get_truthy d "detected") with true by (unfold get_truthy; lookup_simpl; reflexivity)
  end.
  reflexivity.
Qed.

(** In the automatic mode a detected ArUco marker takes precedence over
    any coin in the picture: the method is "aruco", the scale is the mean
    side of the marker in pixels divided by 5.0 cm, the confidence is
    0.95, and the result carries no key of the coin search. *)
Lemma aruco_takes_precedence (reference_type : string) (img : Image) (mk : Marker) :
  marker img = Some mk ->
  let self := init reference_type true in
  let res := estimate_from_image self (Some img) "auto" in
  let side := (marker_width_px mk + marker_height_px mk) / 2 in
  res !! "method_used"%string = Some (VStr "aruco") /\
  res !! "reference_detected"%string = Some (VBool true) /\
  res !! "pixels_per_cm"%string = Some (VFloat (side / 5.0)) /\
  res !! "confidence"%string = Some (VFloat 0.95) /\
  res !! "marker_id"%string = Some (VInt (marker_id mk)) /\
  res !! "coin_center"%string = None /\ res !! "coin_type"%string = None /\
  res !! "detection_score"%string = None.
Proof.
  intros Hm. cbv zeta.
  assert (Hk : forall k, In k ["method_used"; "reference_detected"; "pixels_per_cm";
                               "confidence"; "marker_id"; "coin_center"; "coin_type";
                               "detection_score"]%string ->
             estimate_from_image (init reference_type true) (Some img) "auto" !! k =
             calibration (init reference_type true) img "auto" !! k).
  { intros k Hin. apply estimate_other_keys. intro Hin2. cbn in Hin, Hin2.
    repeat match goal with H : _ \/ _ |- _ => destruct H end;
      try contradiction; subst; discriminate. }
  rewrite !Hk by (cbn; tauto). clear Hk.
  rewrite (aruco_calibration reference_type img mk Hm).
  unfold update. repeat split; lookup_simpl; try reflexivity;
    rewrite lookup_union; lookup_simpl; reflexivity.
Qed.

(** At [CoinSamples.marker_photo], which shows a marker and a coin. *)
Lemma aruco_takes_precedence_witness :
  let est := init "peso_5" true in
  let img := CoinSamples.marker_photo in
  let res := estimate_from_image est (Some img) "auto" in
  marker img = Some {| marker_width_px := 200; marker_height_px := 202; marker_id := 7 |} /\
  get_truthy (_detect_coin_reference est img) "detected" = true /\
  res !! "method_used"%string = Some (VStr "aruco") /\
  res !! "coin_center"%string = None.
Proof.
  cbv zeta. split; [reflexivity|].
  split; [vm_compute; reflexivity|].
  destruct (aruco_takes_precedence "peso_5" CoinSamples.marker_photo
              {| marker_width_px := 200; marker_height_px := 202; marker_id := 7 |}
              eq_refl)
    as (H1 & _ & _ & _ & _ & H2 & _).
  split; [exact H1 | exact H2].
Defined.

(** Without the ArUco dictionary the marker search finds nothing on any
    image: the "aruco" mode always ends with success False, no scale and
    no dimensions, and the automatic mode always ends in the coin or the
    contour method. *)
Lemma aruco_unavailable (reference_type : string) (img : Image) :
  let self := init reference_type false in
  _detect_aruco self img = <["detected" := VBool false]> ∅ /\
  (let res := estimate_from_image self (Some img) "aruco" in
   res !! "success"%string = Some (VBool false) /\
   res !! "method_used"%string = Some (VStr "aruco") /\
   res !! "reference_detected"%string = Some (VBool false) /\
   res !! "pixels_per_cm"%string = Some VNone /\
   res !! "length_cm"%string = Some VNone) /\
  (let res := estimate_from_image self (Some img) "auto" in
   res !! "method_used"%string = Some (VStr "coin") \/
   res !! "method_used"%string = Some (VStr "contour_estimation")).
Proof.
  cbv zeta. split; [reflexivity|]. split; [repeat split; vm_compute; reflexivity|].
  rewrite estimate_other_keys by (cbn; intuition discriminate).
  unfold calibration. cbv zeta. change (String.eqb "auto" "auto") with true. cbv iota.
  change (get_truthy (_detect_aruco (init reference_type false) img) "detected")
    with false. cbv iota.
  destruct (get_truthy (_detect_coin_reference _ _) "detected").
  - left. lookup_simpl. reflexivity.
  - right.
    change (get_truthy (_detect_card_reference (init reference_type false) img) "detected")
      with false. cbv iota.
    lookup_simpl. reflexivity.
Qed.

Lemma option_union_Some (a b : Val) : (Some a ∪ Some b : option Val) = Some a.
Proof. reflexivity. Qed.



End EstimatorFacts.

(** * Properties of the dimension steps of [analyze_image] *)

Module PredictFacts.

Import Numeric Estimator EstimatorTerms Predict NumericFacts EstimatorFacts.
#[local] Open Scope Q_scope.

Section Reports.

Variables length_min length_max width_min width_max : Q.
Variable warning_text : Q -> Q -> string.

(** Step 2 on a [dim_result] whose length and width are floats, or
    absent. *)
Lemma dimension_step_floats (dim_result : gmap string Val)
    (coin : option (gmap string Val)) (l w : Q) :
  get dim_result "length_cm" (VFloat 5.0) = VFloat l ->
  get dim_result "width_cm" (VFloat 3.5) = VFloat w ->
  dimension_step length_min length_max width_min width_max warning_text
    None dim_result coin =
  let clamped_length := Qmax length_min (Qmin length_max l) in
  let clamped_width := Qmax width_min (Qmin width_max w) in
  let dims : gmap string Val :=
    <["whole_fruit_weight_g" := get dim_result "estimated_weight_g" (VFloat 35.0)]> (
    <["kernel_mass_g" := get dim_result "estimated_kernel_mass_g" (VFloat 0.4)]> (
    <["width_cm" := VFloat clamped_width]> (
    <["length_cm" := VFloat clamped_length]> ∅))) in
  let warning :=
    if negb (Qeq_bool clamped_length l) || negb (Qeq_bool clamped_width w)
    then Some (warning_text l w) else None in
  if match coin with
     | Some c => negb (bool_decide (c = ∅)) && get_truthy c "detected"
     | None => false
     end
  then
    bind (number (get dim_result "confidence" (VFloat 0.7))) (fun boosted =>
    ret {| dimensions := dims;
           dimensions_source := get dim_result "method_used" (VStr "estimated");
           dimensions_confidence := VFloat (Qmin 0.95 (boosted + 0.15));
           reference_detected := get dim_result "reference_detected" (VBool false);
           measurement_mode := "coin_reference";
           dimension_warning := warning;
           coin_info := coin;
           measurement_tip := None |})
  else
    ret {| dimensions := dims;
           dimensions_source := get dim_result "method_used" (VStr "estimated");
           dimensions_confidence := get dim_result "confidence" (VFloat 0.4);
           reference_detected := get dim_result "reference_detected" (VBool false);
           measurement_mode := "smart_estimation";
           dimension_warning := warning;
           coin_info := Some (<["detected" := VBool false]> ∅);
           measurement_tip := Some measurement_tip_text |}.
Proof.
  intros Hl Hw. unfold dimension_step, clamp. cbv zeta. rewrite Hl, Hw. reflexivity.
Qed.

(** A value inside the range is not clamped. *)
Lemma clamp_inside (lo hi x : Q) :
  lo <= x -> x <= hi -> Qeq_bool (Qmax lo (Qmin hi x)) x = true.
Proof.
  intros H1 H2. apply Qeq_bool_iff.
  rewrite (Q.min_r hi x H2). apply Q.max_r. exact H1.
Qed.

(** A dict with a key is not the empty dict. *)
Lemma nonempty_dict (d : gmap string Val) (k : string) (v : Val) :
  d !! k = Some v -> bool_decide (d = ∅) = false.
Proof.
  intro H. apply bool_decide_eq_false. intros ->. rewrite lookup_empty in H.
  discriminate H.
Qed.

(** Without a YOLO detector, an image in which the estimator segments no
    fruit makes Step 2 raise TypeError, whatever the reference method, the
    reference found and the configured ranges: [estimate_from_image]
    leaves [length_cm] at None, and [min] compares it with a float. *)
Lemma unmeasured_fruit_raises (self : DimensionEstimator) (img : Image)
    (reference_method : string) :
  ~ fruit_found img ->
  let r := traditional_detection self img reference_method in
  dimension_step length_min length_max width_min width_max warning_text
    None (snd r) (fst r) = raise TypeError.
Proof.
  intros Hno. cbv zeta.
  assert (Hl : estimate_from_image self (Some img) reference_method
                 !! "length_cm"%string = Some VNone).
  { rewrite (estimate_no_fruit self img reference_method "length_cm" Hno)
      by discriminate.
    apply calibration_length, Hno. }
  unfold traditional_detection. cbv zeta.
  destruct (get_truthy _ "reference_detected"); cbn [fst snd];
    unfold dimension_step, clamp, get; cbv zeta; rewrite Hl; reflexivity.
Qed.

(** With a YOLO detector that reported no coin, the same image makes
    Step 2 report the default fruit: when the configured ranges contain 5.0
    and 3.5, the dimensions are 5.0 x 3.5 cm, kernel mass 0.4 g and weight
    35.0 g, without a warning.  When the fast search found a coin they are
    reported in the mode "coin_reference" with a confidence between 0.70
    and 0.95; otherwise in the mode "smart_estimation" with confidence
    0.4. *)
Lemma unmeasured_fruit_defaults (self : DimensionEstimator) (img : Image)
    (yolo_fruit_info : option FruitBox) :
  ~ fruit_found img ->
  length_min <= 5.0 -> 5.0 <= length_max -> width_min <= 3.5 -> 3.5 <= width_max ->
  let fast_coin := fast_coin_search self img yolo_fruit_info in
  exists (coin : option (gmap string Val)) (dim_result : gmap string Val)
         (report : DimensionReport) (l w : Q),
    yolo_fallback self img yolo_fruit_info = ret (coin, dim_result) /\
    dimension_step length_min length_max width_min width_max warning_text
    None dim_result coin = ret report /\
    dimensions report =
      <["whole_fruit_weight_g" := VFloat 35.0]> (
      <["kernel_mass_g" := VFloat 0.4]> (
      <["width_cm" := VFloat w]> (
      <["length_cm" := VFloat l]> ∅))) /\
    l == 5.0 /\ w == 3.5 /\
    dimension_warning report = None /\
    (get_truthy fast_coin "detected" = true ->
     measurement_mode report = "coin_reference"%string /\
     coin_info report = Some fast_coin /\
     reference_detected report = VBool true /\
     dimensions_source report = VStr "fast_hough_silver" /\
     exists c, dimensions_confidence report = VFloat c /\ 0.70 <= c /\ c <= 0.95) /\
    (get_truthy fast_coin "detected" = false ->
     measurement_mode report = "smart_estimation"%string /\
     coin_info report = Some (<["detected" := VBool false]> ∅) /\
     reference_detected report = VBool false /\
     dimensions_source report = VStr "contour_estimation" /\
     dimensions_confidence report = VFloat 0.4).
Proof.
  intros Hno L1 L2 W1 W2. cbv zeta.
  pose proof (clamp_inside length_min length_max 5.0 L1 L2) as HcL.
  pose proof (clamp_inside width_min width_max 3.5 W1 W2) as HcW.
  assert (HL : Qmax length_min (Qmin length_max 5.0) == 5.0)
    by (apply Qeq_bool_iff; exact HcL).
  assert (HW : Qmax width_min (Qmin width_max 3.5) == 3.5)
    by (apply Qeq_bool_iff; exact HcW).
  unfold yolo_fallback. cbv zeta.
  destruct (get_truthy (fast_coin_search self img yolo_fruit_info) "detected") eqn:Ed.
  - destruct (fast_search_facts self img yolo_fruit_info) as (_ & _ & Hf).
    destruct (Hf Ed) as (_ & conf & ppcm & r & centre & Hc & Hc1 & Hc2 & Hce & Hr & _ &
                         Hp & _).
    unfold item. rewrite Hp, Hce, Hr, Hc. cbn [bind ret number].
    rewrite (measure_fruit_none self img ppcm Hno).
    unfold update. rewrite (left_id_L ∅ (∪)).
    do 2 eexists.
    eexists. exists (Qmax length_min (Qmin length_max 5.0)),
                    (Qmax width_min (Qmin width_max 3.5)).
    split; [reflexivity|].
    rewrite (dimension_step_floats _ _ 5.0 3.5)
      by (unfold get; lookup_simpl; reflexivity).
    cbv zeta. rewrite HcL, HcW.
    rewrite (nonempty_dict _ _ _ Hc), Ed.
    cbn [negb andb orb].
    unfold get at 1. lookup_simpl. cbn [default from_option number bind ret].
    split; [reflexivity|]. cbn [dimensions dimension_warning].
    split; [unfold get; lookup_simpl; reflexivity|].
    split; [exact HL|]. split; [exact HW|]. split; [reflexivity|].
    split; [|discriminate].
    intros _. cbn [measurement_mode coin_info reference_detected dimensions_source
                   dimensions_confidence].
    split; [reflexivity|]. split; [reflexivity|].
    split; [unfold get; lookup_simpl; reflexivity|].
    split; [unfold get; lookup_simpl; reflexivity|].
    eexists. split; [reflexivity|].
    split; [apply Q.min_glb; lra | apply Q.le_min_l].
  - rewrite (contour_not_found self img Hno).
    do 2 eexists.
    eexists. exists (Qmax length_min (Qmin length_max 5.0)),
                    (Qmax width_min (Qmin width_max 3.5)).
    split; [reflexivity|].
    rewrite (dimension_step_floats _ _ 5.0 3.5)
      by (unfold get; lookup_simpl; reflexivity).
    cbv zeta. rewrite HcL, HcW. cbn [negb andb orb].
    split; [reflexivity|]. cbn [dimensions dimension_warning].
    split; [unfold get; lookup_simpl; reflexivity|].
    split; [exact HL|]. split; [exact HW|]. split; [reflexivity|].
    split; [discriminate|].
    intros _. cbn [measurement_mode coin_info reference_detected dimensions_source
                   dimensions_confidence].
    repeat split; unfold get; lookup_simpl; reflexivity.
Qed.

(** Without a YOLO detector, in the automatic mode, a detected ArUco
    marker is passed on as a coin: [coin_info] says a coin was detected,
    named "₱5 Coin", of diameter 2.5 cm, with no centre and no radius, and
    Step 2 reports the mode "coin_reference" with confidence 0.95 and the
    source "aruco". *)
Lemma marker_reported_as_coin (reference_type : string) (img : Image) (mk : Marker)
    (c : FruitContour) :
  marker img = Some mk -> 0 < marker_width_px mk + marker_height_px mk ->
  segmented img = Some c -> (5 <= n_pts c)%nat ->
  let r := traditional_detection (init reference_type true) img "auto" in
  fst r = Some (<["coin_diameter_cm" := VFloat 2.5]> (
                <["coin_name" := VStr "₱5 Coin"]> (
                <["coin_radius" := VNone]> (
                <["coin_center" := VNone]> (
                <["detected" := VBool true]> ∅))))) /\
  exists report : DimensionReport,
    dimension_step length_min length_max width_min width_max warning_text
    None (snd r) (fst r) = ret report /\
    measurement_mode report = "coin_reference"%string /\
    coin_info report = fst r /\
    dimensions_source report = VStr "aruco" /\
    reference_detected report = VBool true /\
    exists conf, dimensions_confidence report = VFloat conf /\ conf == 0.95.
Proof.
  intros Hm Hside Hseg Hn. cbv zeta.
  set (self := init reference_type true).
  set (ppcm := (marker_width_px mk + marker_height_px mk) / 2 / 5.0).
  assert (Hcal := aruco_calibration reference_type img mk Hm).
  fold self ppcm in Hcal.
  assert (Hother : forall k,
            ~ In k ["success"; "length_cm"; "width_cm"; "area_cm2"; "estimated_weight_g";
                    "estimated_kernel_mass_g"; "fruit_contour"; "ellipse"]%string ->
            estimate_from_image self (Some img) "auto" !! k =
            calibration self img "auto" !! k).
  { intros k Hk. apply estimate_other_keys. exact Hk. }
  assert (Hrd : estimate_from_image self (Some img) "auto" !! "reference_detected"%string
                = Some (VBool true)).
  { rewrite Hother by (cbn; intuition discriminate). rewrite Hcal.
    lookup_simpl. reflexivity. }
  assert (Hmu : estimate_from_image self (Some img) "auto" !! "method_used"%string
                = Some (VStr "aruco")).
  { rewrite Hother by (cbn; intuition discriminate). rewrite Hcal.
    lookup_simpl. reflexivity. }
  assert (Hco : estimate_from_image self (Some img) "auto" !! "confidence"%string
                = Some (VFloat 0.95)).
  { rewrite Hother by (cbn; intuition discriminate). rewrite Hcal.
    lookup_simpl. unfold update. rewrite lookup_union. lookup_simpl. reflexivity. }
  assert (Hnone : forall k, In k ["coin_center"; "coin_radius"; "coin_name";
                                  "coin_diameter_cm"]%string ->
            estimate_from_image self (Some img) "auto" !! k = None).
  { intros k Hk.
    rewrite Hother
      by (cbn in Hk |- *; intros Hx;
          repeat match goal with H : _ \/ _ |- _ => destruct H end;
          try contradiction; subst; discriminate).
    rewrite Hcal. cbn in Hk.
    repeat match goal with H : _ \/ _ |- _ => destruct H end; try contradiction; subst;
      lookup_simpl; unfold update; rewrite lookup_union; lookup_simpl; reflexivity. }
  assert (Hpp : ~ ppcm == 0).
  { unfold ppcm. intro H0.
    assert (marker_width_px mk + marker_height_px mk == 0); [|lra].
    assert (E : marker_width_px mk + marker_height_px mk ==
                (marker_width_px mk + marker_height_px mk) / 2 / 5.0 * 10) by field.
    rewrite E, H0. reflexivity. }
  destruct (measure_fruit_found self img ppcm c Hseg Hn)
    as (l & w & g & k & Hl & Hw & _ & _).
  assert (Hdim : forall key v, _measure_fruit self img ppcm !! key = Some v ->
            key <> "success"%string ->
            estimate_from_image self (Some img) "auto" !! key = Some v).
  { intros key v Hv Hk. rewrite estimate_unfold. cbv zeta. rewrite Hcal.
    unfold get_truthy, get_float, update.
    rewrite !lookup_insert_ne by discriminate. rewrite !lookup_union.
    lookup_simpl. change (base_result !! "pixels_per_cm"%string) with (Some VNone).
    rewrite !option_union_Some. cbn [from_option truthy].
    destruct (Qeq_bool ppcm 0) eqn:Ez; [apply Qeq_bool_iff in Ez; contradiction|].
    cbn [negb]. rewrite lookup_insert_ne by congruence.
    apply lookup_union_Some_l. exact Hv. }
  assert (Ht : get_truthy (estimate_from_image self (Some img) "auto")
                           "reference_detected" = true)
    by (unfold get_truthy; rewrite Hrd; reflexivity).
  unfold traditional_detection. cbv zeta. rewrite Ht. cbn [fst snd].
  unfold get. rewrite !Hnone by (cbn; tauto). cbn [default from_option]. unfold id.
  split; [reflexivity|].
  rewrite (dimension_step_floats _ _ l w);
    [| unfold get; rewrite (Hdim _ _ Hl) by discriminate; reflexivity
     | unfold get; rewrite (Hdim _ _ Hw) by discriminate; reflexivity ].
  cbv zeta.
  match goal with
  | |- context [bool_decide (?d = ∅)] =>
    rewrite (nonempty_dict d "detected" (VBool true))
      by (lookup_simpl; reflexivity)
  end.
  unfold get_truthy at 1. lookup_simpl. cbn [negb andb from_option truthy].
  assert (Gc : get (estimate_from_image self (Some img) "auto") "confidence"
                   (VFloat 0.7) = VFloat 0.95)
    by (unfold get; rewrite Hco; reflexivity).
  rewrite Gc. cbn [number bind ret].
  eexists. split; [reflexivity|].
  cbn [measurement_mode coin_info dimensions_source reference_detected
       dimensions_confidence].
  split; [reflexivity|]. split; [reflexivity|].
  split; [unfold get; rewrite Hmu; reflexivity|].
  split; [unfold get; rewrite Hrd; reflexivity|].
  eexists. split; [reflexivity|]. vm_compute. reflexivity.
Qed.

End Reports.

(** At [CoinSamples.empty_scene], with the ranges 3-8 cm and 1.5-6 cm. *)
Lemma unmeasured_fruit_raises_witness :
  let r := traditional_detection (init "peso_5" true) CoinSamples.empty_scene "auto" in
  ~ fruit_found CoinSamples.empty_scene /\
  dimension_step 3.0 8.0 1.5 6.0 (fun _ _ => EmptyString) None (snd r) (fst r) =
    raise TypeError.
Proof.
  cbv zeta.
  assert (Hno : ~ fruit_found CoinSamples.empty_scene).
  { intros (c & Hc & _). discriminate Hc. }
  split; [exact Hno|].
  exact (unmeasured_fruit_raises 3.0 8.0 1.5 6.0 (fun _ _ => EmptyString)
           (init "peso_5" true) CoinSamples.empty_scene "auto" Hno).
Defined.

(** At [CoinSamples.coin_only]: a coin and no fruit give a 5.0 x 3.5 cm
    fruit in the mode "coin_reference". *)
Lemma unmeasured_fruit_defaults_witness :
  ~ fruit_found CoinSamples.coin_only /\
  get_truthy (fast_coin_search (init "peso_5" true) CoinSamples.coin_only None)
             "detected" = true /\
  exists (coin : option (gmap string Val)) (dim_result : gmap string Val)
         (report : DimensionReport),
    yolo_fallback (init "peso_5" true) CoinSamples.coin_only None =
      ret (coin, dim_result) /\
    dimension_step 3.0 8.0 1.5 6.0 (fun _ _ => EmptyString) None dim_result coin =
      ret report /\
    measurement_mode report = "coin_reference"%string.
Proof.
  assert (Hno : ~ fruit_found CoinSamples.coin_only).
  { intros (c & Hc & _). discriminate Hc. }
  assert (Hd : get_truthy (fast_coin_search (init "peso_5" true) CoinSamples.coin_only
                             None) "detected" = true)
    by (vm_compute; reflexivity).
  split; [exact Hno|]. split; [exact Hd|].
  destruct (unmeasured_fruit_defaults 3.0 8.0 1.5 6.0 (fun _ _ => EmptyString)
              (init "peso_5" true) CoinSamples.coin_only None Hno
              ltac:(discriminate) ltac:(discriminate) ltac:(discriminate)
              ltac:(discriminate))
    as (coin & dim_result & report & l & w & H1 & H2 & _ & _ & _ & _ & Hdet & _).
  exists coin, dim_result, report.
  split; [exact H1|]. split; [exact H2|]. exact (proj1 (Hdet Hd)).
Defined.

(** At [CoinSamples.marker_photo]. *)
Lemma marker_reported_as_coin_witness :
  let r := traditional_detection (init "peso_5" true) CoinSamples.marker_photo "auto" in
  marker CoinSamples.marker_photo =
    Some {| marker_width_px := 200; marker_height_px := 202; marker_id := 7 |} /\
  0 < 200 + 202 /\
  segmented CoinSamples.marker_photo = Some CoinSamples.fruit_outline /\
  (5 <= n_pts CoinSamples.fruit_outline)%nat /\
  exists report : DimensionReport,
    dimension_step 3.0 8.0 1.5 6.0 (fun _ _ => EmptyString) None (snd r) (fst r) =
      ret report /\
    measurement_mode report = "coin_reference"%string.
Proof.
  cbv zeta.
  assert (Hn : (5 <= n_pts CoinSamples.fruit_outline)%nat) by (cbn; lia).
  assert (Hs : 0 < 200 + 202) by reflexivity.
  split; [reflexivity|]. split; [exact Hs|]. split; [reflexivity|]. split; [exact Hn|].
  destruct (marker_reported_as_coin 3.0 8.0 1.5 6.0 (fun _ _ => EmptyString) "peso_5"
              CoinSamples.marker_photo
              {| marker_width_px := 200; marker_height_px := 202; marker_id := 7 |}
              CoinSamples.fruit_outline eq_refl Hs eq_refl Hn)
    as (_ & report & H1 & H2 & _).
  exists report. split; [exact H1 | exact H2].
Defined.

End PredictFacts.
